(** * AUX air-conditioner serial protocol: codec, link state machine and
      sequence engine of [aux_ac_custom_component.h]

    The development embeds the C++ class [AirCon] shallowly:
    - bytes ([uint8_t]) are integers in [0, 256); 16- and 32-bit arithmetic
      is written out with [mod] and the bit operations of [Z];
    - the 34-byte packet buffer is a [list Z]; pointers into it
      ([packet_t::body], [packet_t::crc]) are optional offsets, [None]
      being [nullptr];
    - reading or writing through a null pointer or outside an array is a
      [Fault] of the [outcome] monad;
    - [float] temperatures are rationals ([Q]): every value the codec
      computes or tests on the wire path is a multiple of 0.5 of small
      magnitude, where binary floating point is exact;
    - [millis()] is the argument [now] of a step (one clock reading per
      call of a state handler). *)

From Stdlib Require Import ZArith QArith Qround Lia List Bool.
From stdpp Require Import base list.
Import ListNotations.
Open Scope Z_scope.

(* ------------------------------------------------------------------ *)
(** ** Outcome monad: a computation finishes or hits undefined behaviour *)

Inductive outcome (A : Type) : Type :=
| Done (a : A)
| Fault.
Arguments Done {A} a.
Arguments Fault {A}.

Definition bind {A B : Type} (m : outcome A) (f : A -> outcome B) : outcome B :=
  match m with
  | Done a => f a
  | Fault => Fault
  end.

Notation "x <- m ;; k" := (bind m (fun x => k))
  (at level 62, m at next level, right associativity).

(* ------------------------------------------------------------------ *)
(** ** Constants of the protocol *)

Definition AC_MIN_TEMPERATURE : Z := 16.
Definition AC_MAX_TEMPERATURE : Z := 32.

Definition AC_HEADER_SIZE : nat := 8.
Definition AC_MAX_BODY_SIZE : nat := 24.
Definition AC_BUFFER_SIZE : nat := 34.

Definition AC_PACKET_TIMEOUT : Z := 150.

Definition AC_PTYPE_PING : Z := 0x01.
Definition AC_PTYPE_CMD : Z := 0x06.
Definition AC_PTYPE_INFO : Z := 0x07.
Definition AC_PTYPE_INIT : Z := 0x09.
Definition AC_PTYPE_UNKN : Z := 0x0b.

Definition AC_CMD_STATUS_BIG : Z := 0x21.
Definition AC_CMD_STATUS_SMALL : Z := 0x11.
Definition AC_CMD_STATUS_PERIODIC : Z := 0x2C.
Definition AC_CMD_SET_PARAMS : Z := 0x01.

Definition AC_PACKET_START_BYTE : Z := 0xBB.
Definition AC_PACKET_ANSWER : Z := 0x80.

Definition AC_SEQUENCE_MAX_LEN : nat := 15.
Definition AC_SEQUENCE_DEFAULT_TIMEOUT : Z := 500.

(** Wrap-around of the unsigned integer types. *)
Definition u8 (z : Z) : Z := z mod 256.
Definition u16 (z : Z) : Z := z mod 65536.
Definition u32 (z : Z) : Z := z mod 4294967296.

(* ------------------------------------------------------------------ *)
(** ** Byte buffers *)

(** [buf[i]] for an index the code keeps inside the array. *)
Definition getb (d : list Z) (i : nat) : Z := nth i d 0.

(** [buf[i] = v]; stdpp's insert leaves the list alone out of range, the
    callers below guard every index. *)
Definition setb (d : list Z) (i : nat) (v : Z) : list Z := <[i := v]> d.

(** Checked accesses, for indices that come from a pointer. *)
Definition rd_at (d : list Z) (i : nat) : outcome Z :=
  match d !! i with
  | Some v => Done v
  | None => Fault
  end.

Definition wr_at (d : list Z) (i : nat) (v : Z) : outcome (list Z) :=
  if (i <? length d)%nat then Done (<[i := v]> d) else Fault.

Definition is_nullptr (ptr : option nat) : bool :=
  match ptr with
  | Some _ => false
  | None => true
  end.

(** [ptr[i]] and [ptr[i] = v] where [ptr] points into [d] or is null. *)
Definition rd_ptr (ptr : option nat) (i : nat) (d : list Z) : outcome Z :=
  match ptr with
  | Some off => rd_at d (off + i)
  | None => Fault
  end.

Definition wr_ptr (ptr : option nat) (i : nat) (v : Z) (d : list Z)
  : outcome (list Z) :=
  match ptr with
  | Some off => wr_at d (off + i) v
  | None => Fault
  end.

(* ------------------------------------------------------------------ *)
(** ** [packet_t] *)

(** Offsets of the fields of [packet_header_t]; [packet_t::header] always
    points at [data], so a header field is a cell of [data]. *)
Module header.
Definition start_byte : nat := 0.
Definition _unknown1 : nat := 1.
Definition packet_type : nat := 2.
Definition wifi : nat := 3.
Definition ping_answer_01 : nat := 4.
Definition _unknown2 : nat := 5.
Definition body_length : nat := 6.
Definition _unknown3 : nat := 7.
End header.

Record packet_t : Type := mk_packet {
  msec : Z;
  crc : option nat;
  body : option nat;
  bytesLoaded : nat;
  data : list Z
}.

Definition set_msec (v : Z) (p : packet_t) : packet_t :=
  mk_packet v (crc p) (body p) (bytesLoaded p) (data p).
Definition set_crc (v : option nat) (p : packet_t) : packet_t :=
  mk_packet (msec p) v (body p) (bytesLoaded p) (data p).
Definition set_body (v : option nat) (p : packet_t) : packet_t :=
  mk_packet (msec p) (crc p) v (bytesLoaded p) (data p).
Definition set_bytesLoaded (v : nat) (p : packet_t) : packet_t :=
  mk_packet (msec p) (crc p) (body p) v (data p).
Definition set_data (v : list Z) (p : packet_t) : packet_t :=
  mk_packet (msec p) (crc p) (body p) (bytesLoaded p) v.

(** [pack->header->f] and [pack->header->f = v]. *)
Definition hdr (f : nat) (p : packet_t) : Z := getb (data p) f.
Definition set_hdr (f : nat) (v : Z) (p : packet_t) : packet_t :=
  set_data (setb (data p) f v) p.

(** [&pack->data[AC_HEADER_SIZE + pack->header->body_length]]. *)
Definition crc_offset (p : packet_t) : nat :=
  (AC_HEADER_SIZE + Z.to_nat (hdr header.body_length p))%nat.

Definition _clearBuffer : list Z := repeat 0 AC_BUFFER_SIZE.

Definition _clearPacket : packet_t :=
  mk_packet 0 None None 0 _clearBuffer.

(* ------------------------------------------------------------------ *)
(** ** Checksum *)

(** One round of the summing loop of [_CRC16], at [i = 2 * k]. *)
Definition crc_step (_crcBuffer : list Z) (crc : Z) (k : nat) : Z :=
  let i := (2 * k)%nat in
  let word := Z.shiftl (getb _crcBuffer i) 8 + getb _crcBuffer (i + 1) in
  u32 (crc + word).

(** [_CRC16(data, len)]. The scratch buffer has [AC_BUFFER_SIZE] cells, so
    a [len] above that overruns it. The loop [for (i = 0; i < len; i += 2)]
    over the even [len] visits [i = 2 * k] for [k < len / 2]. *)
Definition _CRC16 (data : list Z) (len : nat) : outcome Z :=
  if (AC_BUFFER_SIZE <? len)%nat then Fault else
  let _crcBuffer := firstn len data ++ repeat 0 (AC_BUFFER_SIZE - len)%nat in
  let len := if (len mod 2 =? 1)%nat then S len else len in
  let crc := fold_left (crc_step _crcBuffer) (seq 0 (len / 2)) 0 in
  let crc := u32 (Z.shiftr crc 16 + Z.land crc 0xFFFF) in
  let crc := u32 (Z.lnot crc) in
  Done (Z.land crc 0xFFFF).

(** The union [packet_crc_t] overlays [uint16_t crc16] with
    [uint8_t crc[2]]; which byte [crc[i]] is depends on the byte order of
    the target. The component is built for the ESP8266 and ESP32, both
    little-endian. *)
Inductive byte_order : Type := LittleEndian | BigEndian.

Definition target_byte_order : byte_order := LittleEndian.

Definition packet_crc_t_crc (o : byte_order) (crc16 : Z) (i : nat) : Z :=
  let lo := Z.land crc16 0xFF in
  let hi := Z.land (Z.shiftr crc16 8) 0xFF in
  match o, i with
  | LittleEndian, O => lo
  | LittleEndian, _ => hi
  | BigEndian, O => hi
  | BigEndian, _ => lo
  end.

(** The argument [AC_HEADER_SIZE + pack->header->body_length] converted to
    the [uint8_t] parameter [len]. *)
Definition crc_len (p : packet_t) : nat :=
  Z.to_nat (u8 (Z.of_nat AC_HEADER_SIZE + hdr header.body_length p)).

Definition _setCRC16 (pack : packet_t) : outcome packet_t :=
  crc16 <- _CRC16 (data pack) (crc_len pack) ;;
  let pack :=
    match crc pack with
    | None => set_crc (Some (crc_offset pack)) pack
    | Some _ => pack
    end in
  d <- wr_ptr (crc pack) 0 (packet_crc_t_crc target_byte_order crc16 1) (data pack) ;;
  d <- wr_ptr (crc pack) 1 (packet_crc_t_crc target_byte_order crc16 0) d ;;
  Done (set_data d pack).

(** [_checkCRC(pack)]: the verdict and the packet, whose [crc] pointer the
    function may set. The second byte is compared only when the first one
    matches ([&&]). *)
Definition _checkCRC (pack : packet_t) : outcome (bool * packet_t) :=
  if (bytesLoaded pack <? AC_HEADER_SIZE)%nat then Done (false, pack) else
  let pack :=
    match crc pack with
    | None => set_crc (Some (crc_offset pack)) pack
    | Some _ => pack
    end in
  crc16 <- _CRC16 (data pack) (crc_len pack) ;;
  b0 <- rd_ptr (crc pack) 0 (data pack) ;;
  if b0 =? packet_crc_t_crc target_byte_order crc16 1 then
    b1 <- rd_ptr (crc pack) 1 (data pack) ;;
    Done (b1 =? packet_crc_t_crc target_byte_order crc16 0, pack)
  else Done (false, pack).

(** The checksum in the words of the specification: the bytes read as
    big-endian 16-bit words, an odd trailing byte padded with a zero byte,
    summed in a 32-bit accumulator; the carry folded into the low 16 bits;
    the one's complement of the result, 16 bits wide. *)
Fixpoint be_words (l : list Z) : list Z :=
  match l with
  | [] => []
  | [b] => [b * 256 + 0]
  | hi :: lo :: rest => (hi * 256 + lo) :: be_words rest
  end.

Definition sum_words (ws : list Z) : Z := fold_right Z.add 0 ws.

Definition checksum_spec (l : list Z) : Z :=
  let acc := sum_words (be_words l) mod 2 ^ 32 in
  let folded := (acc / 2 ^ 16 + acc mod 2 ^ 16) mod 2 ^ 32 in
  Z.land (Z.lnot folded) 0xFFFF.

(* ------------------------------------------------------------------ *)
(** ** Parameters of the air conditioner

    The enumerations have [uint8_t] as underlying type and receive masked
    wire bytes by cast, so a field is a byte; the enumerators are named
    constants. [X_UNTOUCHED = 0xFF] asks to keep a parameter as it is. *)

Definition AC_POWER_MASK : Z := 0x20.
Definition AC_POWER_OFF : Z := 0x00.
Definition AC_POWER_ON : Z := 0x20.
Definition AC_POWER_UNTOUCHED : Z := 0xFF.

Definition AC_CLEAN_MASK : Z := 0x04.
Definition AC_CLEAN_OFF : Z := 0x00.
Definition AC_CLEAN_ON : Z := 0x04.
Definition AC_CLEAN_UNTOUCHED : Z := 0xFF.

Definition AC_HEALTH_MASK : Z := 0x02.
Definition AC_HEALTH_OFF : Z := 0x00.
Definition AC_HEALTH_ON : Z := 0x02.
Definition AC_HEALTH_UNTOUCHED : Z := 0xFF.

Definition AC_HEALTH_STATUS_MASK : Z := 0x01.
Definition AC_HEALTH_STATUS_OFF : Z := 0x00.
Definition AC_HEALTH_STATUS_ON : Z := 0x01.
Definition AC_HEALTH_STATUS_UNTOUCHED : Z := 0xFF.

Definition AC_TEMP_TARGET_INT_PART_MASK : Z := 0xF8.
Definition AC_TEMP_TARGET_FRAC_PART_MASK : Z := 0x80.

Definition AC_MODE_MASK : Z := 0xE0.
Definition AC_MODE_AUTO : Z := 0x00.
Definition AC_MODE_COOL : Z := 0x20.
Definition AC_MODE_DRY : Z := 0x40.
Definition AC_MODE_HEAT : Z := 0x80.
Definition AC_MODE_FAN : Z := 0xC0.
Definition AC_MODE_UNTOUCHED : Z := 0xFF.

Definition AC_SLEEP_MASK : Z := 0x04.
Definition AC_SLEEP_OFF : Z := 0x00.
Definition AC_SLEEP_ON : Z := 0x04.
Definition AC_SLEEP_UNTOUCHED : Z := 0xFF.

Definition AC_IFEEL_MASK : Z := 0x08.
Definition AC_IFEEL_OFF : Z := 0x00.
Definition AC_IFEEL_ON : Z := 0x08.
Definition AC_IFEEL_UNTOUCHED : Z := 0xFF.

Definition AC_LOUVERV_MASK : Z := 0x07.
Definition AC_LOUVERV_SWING_UPDOWN : Z := 0x00.
Definition AC_LOUVERV_OFF : Z := 0x07.
Definition AC_LOUVERV_UNTOUCHED : Z := 0xFF.

Definition AC_LOUVERH_MASK : Z := 0xE0.
Definition AC_LOUVERH_SWING_LEFTRIGHT : Z := 0x00.
Definition AC_LOUVERH_OFF : Z := 0xE0.
Definition AC_LOUVERH_UNTOUCHED : Z := 0xFF.

Definition AC_FANSPEED_MASK : Z := 0xE0.
Definition AC_FANSPEED_HIGH : Z := 0x20.
Definition AC_FANSPEED_MEDIUM : Z := 0x40.
Definition AC_FANSPEED_LOW : Z := 0x60.
Definition AC_FANSPEED_AUTO : Z := 0xA0.
Definition AC_FANSPEED_UNTOUCHED : Z := 0xFF.

Definition AC_FANTURBO_MASK : Z := 0x40.
Definition AC_FANTURBO_OFF : Z := 0x00.
Definition AC_FANTURBO_ON : Z := 0x40.
Definition AC_FANTURBO_UNTOUCHED : Z := 0xFF.

Definition AC_FANMUTE_MASK : Z := 0x80.
Definition AC_FANMUTE_OFF : Z := 0x00.
Definition AC_FANMUTE_ON : Z := 0x80.
Definition AC_FANMUTE_UNTOUCHED : Z := 0xFF.

Definition AC_DISPLAY_MASK : Z := 0x10.
Definition AC_DISPLAY_ON : Z := 0x00.
Definition AC_DISPLAY_OFF : Z := 0x10.
Definition AC_DISPLAY_UNTOUCHED : Z := 0xFF.

Definition AC_MILDEW_MASK : Z := 0x08.
Definition AC_MILDEW_OFF : Z := 0x00.
Definition AC_MILDEW_ON : Z := 0x08.
Definition AC_MILDEW_UNTOUCHED : Z := 0xFF.

Record ac_louver : Type := mk_louver {
  louver_h : Z;
  louver_v : Z
}.

Record ac_command_t : Type := mk_command {
  power : Z;
  temp_target : Q;
  temp_target_matter : bool;
  temp_ambient : Q;
  temp_outdoor : Q;
  clean : Z;
  health : Z;
  health_status : Z;
  mode : Z;
  sleep : Z;
  iFeel : Z;
  louver : ac_louver;
  fanSpeed : Z;
  fanTurbo : Z;
  fanMute : Z;
  display : Z;
  mildew : Z
}.

(** [typedef ac_command_t ac_state_t]. *)
Definition ac_state_t : Type := ac_command_t.

Definition set_power (v : Z) (c : ac_command_t) : ac_command_t :=
  mk_command v (temp_target c) (temp_target_matter c) (temp_ambient c)
    (temp_outdoor c) (clean c) (health c) (health_status c) (mode c) (sleep c)
    (iFeel c) (louver c) (fanSpeed c) (fanTurbo c) (fanMute c) (display c)
    (mildew c).
Definition set_temp_target (v : Q) (c : ac_command_t) : ac_command_t :=
  mk_command (power c) v (temp_target_matter c) (temp_ambient c)
    (temp_outdoor c) (clean c) (health c) (health_status c) (mode c) (sleep c)
    (iFeel c) (louver c) (fanSpeed c) (fanTurbo c) (fanMute c) (display c)
    (mildew c).
Definition set_temp_target_matter (v : bool) (c : ac_command_t) : ac_command_t :=
  mk_command (power c) (temp_target c) v (temp_ambient c)
    (temp_outdoor c) (clean c) (health c) (health_status c) (mode c) (sleep c)
    (iFeel c) (louver c) (fanSpeed c) (fanTurbo c) (fanMute c) (display c)
    (mildew c).
Definition set_temp_ambient (v : Q) (c : ac_command_t) : ac_command_t :=
  mk_command (power c) (temp_target c) (temp_target_matter c) v
    (temp_outdoor c) (clean c) (health c) (health_status c) (mode c) (sleep c)
    (iFeel c) (louver c) (fanSpeed c) (fanTurbo c) (fanMute c) (display c)
    (mildew c).
Definition set_temp_outdoor (v : Q) (c : ac_command_t) : ac_command_t :=
  mk_command (power c) (temp_target c) (temp_target_matter c) (temp_ambient c)
    v (clean c) (health c) (health_status c) (mode c) (sleep c)
    (iFeel c) (louver c) (fanSpeed c) (fanTurbo c) (fanMute c) (display c)
    (mildew c).
Definition set_clean (v : Z) (c : ac_command_t) : ac_command_t :=
  mk_command (power c) (temp_target c) (temp_target_matter c) (temp_ambient c)
    (temp_outdoor c) v (health c) (health_status c) (mode c) (sleep c)
    (iFeel c) (louver c) (fanSpeed c) (fanTurbo c) (fanMute c) (display c)
    (mildew c).
Definition set_health (v : Z) (c : ac_command_t) : ac_command_t :=
  mk_command (power c) (temp_target c) (temp_target_matter c) (temp_ambient c)
    (temp_outdoor c) (clean c) v (health_status c) (mode c) (sleep c)
    (iFeel c) (louver c) (fanSpeed c) (fanTurbo c) (fanMute c) (display c)
    (mildew c).
Definition set_health_status (v : Z) (c : ac_command_t) : ac_command_t :=
  mk_command (power c) (temp_target c) (temp_target_matter c) (temp_ambient c)
    (temp_outdoor c) (clean c) (health c) v (mode c) (sleep c)
    (iFeel c) (louver c) (fanSpeed c) (fanTurbo c) (fanMute c) (display c)
    (mildew c).
Definition set_mode (v : Z) (c : ac_command_t) : ac_command_t :=
  mk_command (power c) (temp_target c) (temp_target_matter c) (temp_ambient c)
    (temp_outdoor c) (clean c) (health c) (health_status c) v (sleep c)
    (iFeel c) (louver c) (fanSpeed c) (fanTurbo c) (fanMute c) (display c)
    (mildew c).
Definition set_sleep (v : Z) (c : ac_command_t) : ac_command_t :=
  mk_command (power c) (temp_target c) (temp_target_matter c) (temp_ambient c)
    (temp_outdoor c) (clean c) (health c) (health_status c) (mode c) v
    (iFeel c) (louver c) (fanSpeed c) (fanTurbo c) (fanMute c) (display c)
    (mildew c).
Definition set_iFeel (v : Z) (c : ac_command_t) : ac_command_t :=
  mk_command (power c) (temp_target c) (temp_target_matter c) (temp_ambient c)
    (temp_outdoor c) (clean c) (health c) (health_status c) (mode c) (sleep c)
    v (louver c) (fanSpeed c) (fanTurbo c) (fanMute c) (display c)
    (mildew c).
Definition set_louver (v : ac_louver) (c : ac_command_t) : ac_command_t :=
  mk_command (power c) (temp_target c) (temp_target_matter c) (temp_ambient c)
    (temp_outdoor c) (clean c) (health c) (health_status c) (mode c) (sleep c)
    (iFeel c) v (fanSpeed c) (fanTurbo c) (fanMute c) (display c)
    (mildew c).
Definition set_louver_h (v : Z) (c : ac_command_t) : ac_command_t :=
  set_louver (mk_louver v (louver_v (louver c))) c.
Definition set_louver_v (v : Z) (c : ac_command_t) : ac_command_t :=
  set_louver (mk_louver (louver_h (louver c)) v) c.
Definition set_fanSpeed (v : Z) (c : ac_command_t) : ac_command_t :=
  mk_command (power c) (temp_target c) (temp_target_matter c) (temp_ambient c)
    (temp_outdoor c) (clean c) (health c) (health_status c) (mode c) (sleep c)
    (iFeel c) (louver c) v (fanTurbo c) (fanMute c) (display c)
    (mildew c).
Definition set_fanTurbo (v : Z) (c : ac_command_t) : ac_command_t :=
  mk_command (power c) (temp_target c) (temp_target_matter c) (temp_ambient c)
    (temp_outdoor c) (clean c) (health c) (health_status c) (mode c) (sleep c)
    (iFeel c) (louver c) (fanSpeed c) v (fanMute c) (display c)
    (mildew c).
Definition set_fanMute (v : Z) (c : ac_command_t) : ac_command_t :=
  mk_command (power c) (temp_target c) (temp_target_matter c) (temp_ambient c)
    (temp_outdoor c) (clean c) (health c) (health_status c) (mode c) (sleep c)
    (iFeel c) (louver c) (fanSpeed c) (fanTurbo c) v (display c)
    (mildew c).
Definition set_display (v : Z) (c : ac_command_t) : ac_command_t :=
  mk_command (power c) (temp_target c) (temp_target_matter c) (temp_ambient c)
    (temp_outdoor c) (clean c) (health c) (health_status c) (mode c) (sleep c)
    (iFeel c) (louver c) (fanSpeed c) (fanTurbo c) (fanMute c) v
    (mildew c).
Definition set_mildew (v : Z) (c : ac_command_t) : ac_command_t :=
  mk_command (power c) (temp_target c) (temp_target_matter c) (temp_ambient c)
    (temp_outdoor c) (clean c) (health c) (health_status c) (mode c) (sleep c)
    (iFeel c) (louver c) (fanSpeed c) (fanTurbo c) (fanMute c) (display c)
    v.

(** [_clearCommand(cmd)]: every field reset to its neutral value. *)
Definition _clearCommand : ac_command_t :=
  mk_command AC_POWER_UNTOUCHED 0%Q false 0%Q 0%Q AC_CLEAN_UNTOUCHED
    AC_HEALTH_UNTOUCHED AC_HEALTH_STATUS_UNTOUCHED AC_MODE_UNTOUCHED
    AC_SLEEP_UNTOUCHED AC_IFEEL_UNTOUCHED
    (mk_louver AC_LOUVERH_UNTOUCHED AC_LOUVERV_UNTOUCHED)
    AC_FANSPEED_UNTOUCHED AC_FANTURBO_UNTOUCHED AC_FANMUTE_UNTOUCHED
    AC_DISPLAY_UNTOUCHED AC_MILDEW_UNTOUCHED.

(* ------------------------------------------------------------------ *)
(** ** Sequence of steps *)

Inductive acsm_state : Type :=
| ACSM_IDLE
| ACSM_RECEIVING_PACKET
| ACSM_PARSING_PACKET
| ACSM_SENDING_PACKET.

Inductive sequence_item_type_t : Type :=
| AC_SIT_NONE
| AC_SIT_DELAY
| AC_SIT_FUNC.

Inductive sequence_packet_type_t : Type :=
| AC_SPT_CLEAR
| AC_SPT_RECEIVED_PACKET
| AC_SPT_SENT_PACKET.

(** The member functions a step can point to ([bool (AirCon::*func)()]). *)
Inductive step_function : Type :=
| ptr_sq_requestSmallStatus
| ptr_sq_controlSmallStatus
| ptr_sq_requestBigStatus
| ptr_sq_controlBigStatus
| ptr_sq_requestDoCommand
| ptr_sq_controlDoCommand.

Module sequence_item_t.
Record t : Type := mk {
  item_type : sequence_item_type_t;
  func : option step_function;
  timeout : Z;
  msec : Z;
  packet_type : sequence_packet_type_t;
  packet : packet_t;
  cmd : ac_command_t
}.
Definition set_item_type (v : sequence_item_type_t) (i : t) : t :=
  mk v (func i) (timeout i) (msec i) (packet_type i) (packet i) (cmd i).
Definition set_func (v : option step_function) (i : t) : t :=
  mk (item_type i) v (timeout i) (msec i) (packet_type i) (packet i) (cmd i).
Definition set_timeout (v : Z) (i : t) : t :=
  mk (item_type i) (func i) v (msec i) (packet_type i) (packet i) (cmd i).
Definition set_msec (v : Z) (i : t) : t :=
  mk (item_type i) (func i) (timeout i) v (packet_type i) (packet i) (cmd i).
Definition set_packet_type (v : sequence_packet_type_t) (i : t) : t :=
  mk (item_type i) (func i) (timeout i) (msec i) v (packet i) (cmd i).
Definition set_packet (v : packet_t) (i : t) : t :=
  mk (item_type i) (func i) (timeout i) (msec i) (packet_type i) v (cmd i).
Definition set_cmd (v : ac_command_t) (i : t) : t :=
  mk (item_type i) (func i) (timeout i) (msec i) (packet_type i) (packet i) v.
End sequence_item_t.
Abbreviation sequence_item_t := sequence_item_t.t.

(** One slot as [_clearSequence] leaves it. *)
Definition empty_item : sequence_item_t :=
  sequence_item_t.mk AC_SIT_NONE None 0 0 AC_SPT_CLEAR _clearPacket _clearCommand.

(* ------------------------------------------------------------------ *)
(** ** The component *)

(** [_ac_serial] holds the bytes waiting in the UART receive buffer,
    [uart_tx] the bytes written so far, [state_changes] counts the calls of
    [stateChanged()]. *)
Record AirCon : Type := mk_AirCon {
  _ac_state : acsm_state;
  _current_ac_state : ac_state_t;
  _ac_serial : list Z;
  uart_tx : list Z;
  _inPacket : packet_t;
  _outPacket : packet_t;
  _sequence : list sequence_item_t;
  _sequence_current_step : nat;
  _startupSequenceComlete : bool;
  state_changes : nat
}.

Definition set_ac_state (v : acsm_state) (s : AirCon) : AirCon :=
  mk_AirCon v (_current_ac_state s) (_ac_serial s) (uart_tx s) (_inPacket s)
    (_outPacket s) (_sequence s) (_sequence_current_step s)
    (_startupSequenceComlete s) (state_changes s).
Definition set_current_ac_state (v : ac_state_t) (s : AirCon) : AirCon :=
  mk_AirCon (_ac_state s) v (_ac_serial s) (uart_tx s) (_inPacket s)
    (_outPacket s) (_sequence s) (_sequence_current_step s)
    (_startupSequenceComlete s) (state_changes s).
Definition set_ac_serial (v : list Z) (s : AirCon) : AirCon :=
  mk_AirCon (_ac_state s) (_current_ac_state s) v (uart_tx s) (_inPacket s)
    (_outPacket s) (_sequence s) (_sequence_current_step s)
    (_startupSequenceComlete s) (state_changes s).
Definition set_uart_tx (v : list Z) (s : AirCon) : AirCon :=
  mk_AirCon (_ac_state s) (_current_ac_state s) (_ac_serial s) v (_inPacket s)
    (_outPacket s) (_sequence s) (_sequence_current_step s)
    (_startupSequenceComlete s) (state_changes s).
Definition set_inPacket (v : packet_t) (s : AirCon) : AirCon :=
  mk_AirCon (_ac_state s) (_current_ac_state s) (_ac_serial s) (uart_tx s) v
    (_outPacket s) (_sequence s) (_sequence_current_step s)
    (_startupSequenceComlete s) (state_changes s).
Definition set_outPacket (v : packet_t) (s : AirCon) : AirCon :=
  mk_AirCon (_ac_state s) (_current_ac_state s) (_ac_serial s) (uart_tx s)
    (_inPacket s) v (_sequence s) (_sequence_current_step s)
    (_startupSequenceComlete s) (state_changes s).
Definition set_sequence (v : list sequence_item_t) (s : AirCon) : AirCon :=
  mk_AirCon (_ac_state s) (_current_ac_state s) (_ac_serial s) (uart_tx s)
    (_inPacket s) (_outPacket s) v (_sequence_current_step s)
    (_startupSequenceComlete s) (state_changes s).
Definition set_sequence_current_step (v : nat) (s : AirCon) : AirCon :=
  mk_AirCon (_ac_state s) (_current_ac_state s) (_ac_serial s) (uart_tx s)
    (_inPacket s) (_outPacket s) (_sequence s) v
    (_startupSequenceComlete s) (state_changes s).
Definition set_startupSequenceComlete (v : bool) (s : AirCon) : AirCon :=
  mk_AirCon (_ac_state s) (_current_ac_state s) (_ac_serial s) (uart_tx s)
    (_inPacket s) (_outPacket s) (_sequence s) (_sequence_current_step s)
    v (state_changes s).
Definition set_state_changes (v : nat) (s : AirCon) : AirCon :=
  mk_AirCon (_ac_state s) (_current_ac_state s) (_ac_serial s) (uart_tx s)
    (_inPacket s) (_outPacket s) (_sequence s) (_sequence_current_step s)
    (_startupSequenceComlete s) v.

(** [_sequence[i]] and [_sequence[i] = it]; the array has
    [AC_SEQUENCE_MAX_LEN] slots. *)
Definition seq_item (i : nat) (s : AirCon) : outcome sequence_item_t :=
  match _sequence s !! i with
  | Some it => Done it
  | None => Fault
  end.

Definition put_item (i : nat) (it : sequence_item_t) (s : AirCon)
  : outcome AirCon :=
  if (i <? length (_sequence s))%nat
  then Done (set_sequence (<[i := it]> (_sequence s)) s)
  else Fault.

(** [_clearSequence()]. *)
Definition _clearSequence (s : AirCon) : AirCon :=
  set_sequence_current_step 0
    (set_sequence (repeat empty_item AC_SEQUENCE_MAX_LEN) s).

(** [hasSequence()]. *)
Definition hasSequence (s : AirCon) : bool :=
  match _sequence s !! 0%nat with
  | Some it =>
      match sequence_item_t.item_type it with
      | AC_SIT_NONE => false
      | _ => true
      end
  | None => false
  end.

Definition _clearInPacket (s : AirCon) : AirCon :=
  set_inPacket _clearPacket s.

(** [_clearOutPacket()]: the start byte and the answer flag are set at
    once. *)
Definition cleared_out_packet : packet_t :=
  set_hdr header.wifi AC_PACKET_ANSWER
    (set_hdr header.start_byte AC_PACKET_START_BYTE _clearPacket).

Definition _clearOutPacket (s : AirCon) : AirCon :=
  set_outPacket cleared_out_packet s.

(** [_copyPacket(dest, src)]; [dest->body] is left as it was when the
    copied header announces an empty body. *)
Definition _copyPacket (dest src : packet_t) : packet_t :=
  let dest := set_msec (msec src) dest in
  let dest := set_bytesLoaded (bytesLoaded src) dest in
  let dest := set_data (data src) dest in
  let dest :=
    if 0 <? hdr header.body_length dest
    then set_body (Some AC_HEADER_SIZE) dest else dest in
  set_crc (Some (crc_offset dest)) dest.

(** [_setStateMachineState(state)]; the log lines apart it is an
    assignment. *)
Definition _setStateMachineState (state : acsm_state) (s : AirCon) : AirCon :=
  set_ac_state state s.

(** [stateChanged()]: publishes the state to the climate front end, which
    lies outside the core; the call is counted. *)
Definition stateChanged (s : AirCon) : AirCon :=
  set_state_changes (S (state_changes s)) s.

(** [initAC()]. *)
Definition initAC : AirCon :=
  mk_AirCon ACSM_IDLE _clearCommand [] [] _clearPacket cleared_out_packet
    (repeat empty_item AC_SEQUENCE_MAX_LEN) 0 false 0.

(* ------------------------------------------------------------------ *)
(** ** Encoders *)

(** [pack->body[i] = v]. *)
Definition set_body_byte (i : nat) (v : Z) (pack : packet_t) : outcome packet_t :=
  d <- wr_ptr (body pack) i v (data pack) ;;
  Done (set_data d pack).

(** [pack->body[i] = (pack->body[i] & ~mask) | v], stored in a byte. *)
Definition mask_body_byte (i : nat) (mask v : Z) (pack : packet_t)
  : outcome packet_t :=
  b <- rd_ptr (body pack) i (data pack) ;;
  set_body_byte i (u8 (Z.lor (Z.land b (Z.lnot mask)) v)) pack.

(** The common shape of the two status requests: a command packet with a
    two-byte body [code; 0x01]. *)
Definition fill_status_request (code : Z) (now : Z) (pack : packet_t)
  : outcome packet_t :=
  let pack := set_msec now pack in
  let pack := set_hdr header.start_byte AC_PACKET_START_BYTE pack in
  let pack := set_hdr header.wifi AC_PACKET_ANSWER pack in
  let pack := set_hdr header.packet_type AC_PTYPE_CMD pack in
  let pack := set_hdr header.body_length 2 pack in
  let pack := set_body (Some AC_HEADER_SIZE) pack in
  pack <- set_body_byte 0 code pack ;;
  pack <- set_body_byte 1 0x01 pack ;;
  let pack := set_bytesLoaded (crc_offset pack + 2) pack in
  let pack := set_crc (Some (crc_offset pack)) pack in
  _setCRC16 pack.

Definition _fillStatusSmall (now : Z) (pack : packet_t) : outcome packet_t :=
  fill_status_request AC_CMD_STATUS_SMALL now pack.

Definition _fillStatusBig (now : Z) (pack : packet_t) : outcome packet_t :=
  fill_status_request AC_CMD_STATUS_BIG now pack.

(** Offsets of the fields of [packet_small_info_body_t]. *)
Module small_info.
Definition byte_01 : nat := 0.
Definition cmd_answer : nat := 1.
Definition target_temp_int_and_v_louver : nat := 2.
Definition h_louver : nat := 3.
Definition target_temp_frac : nat := 4.
Definition fan_speed : nat := 5.
Definition fan_turbo_and_mute : nat := 6.
Definition mode : nat := 7.
Definition status : nat := 10.
Definition display_and_mildew : nat := 12.
Definition target_temp_frac2 : nat := 14.
End small_info.

(** Offsets of the fields of [packet_big_info_body_t]. *)
Module big_info.
Definition byte_01 : nat := 0.
Definition cmd_answer : nat := 1.
Definition ambient_temperature_int : nat := 7.
Definition outdoor_temperature : nat := 9.
Definition ambient_temperature_frac : nat := 23.
End big_info.

(** Comparisons of temperatures. *)
Definition Qlt_bool (a b : Q) : bool := negb (Qle_bool b a).

(** The clamp of [cmd->temp_target] into the range of the unit; it writes
    into the command it is given. *)
Definition clamp_temp_target (cmd : ac_command_t) : ac_command_t :=
  let cmd :=
    if Qlt_bool (temp_target cmd) (inject_Z AC_MIN_TEMPERATURE)
    then set_temp_target (inject_Z AC_MIN_TEMPERATURE) cmd else cmd in
  if Qlt_bool (inject_Z AC_MAX_TEMPERATURE) (temp_target cmd)
  then set_temp_target (inject_Z AC_MAX_TEMPERATURE) cmd else cmd.

(** [(uint8_t)(cmd->temp_target)]. *)
Definition temp_int (t : Q) : Z := u8 (Qfloor t).

(** A field of the command is written unless it is [X_UNTOUCHED]. *)
Definition overlay (i : nat) (mask v untouched : Z) (pack : packet_t)
  : outcome packet_t :=
  if v =? untouched then Done pack else mask_body_byte i mask v pack.

(** The part of [_fillSetCommand] after the test of [cmd] against
    [nullptr]: the header, then the parameters set in [cmd]. It returns the
    packet and the command, whose temperature it may have clamped. *)
Definition fill_from_command (now : Z) (cmd : ac_command_t) (pack : packet_t)
  : outcome (packet_t * ac_command_t) :=
  let pack := set_msec now pack in
  let pack := set_hdr header.start_byte AC_PACKET_START_BYTE pack in
  let pack := set_hdr header.wifi AC_PACKET_ANSWER pack in
  let pack := set_hdr header.packet_type AC_PTYPE_CMD pack in
  let pack := set_hdr header.body_length 15 pack in
  let pack := set_body (Some AC_HEADER_SIZE) pack in
  pack <- set_body_byte 0 AC_CMD_SET_PARAMS pack ;;
  pack <- set_body_byte 1 0x01 pack ;;
  let pack := set_bytesLoaded (crc_offset pack + 2) pack in
  r <- (if temp_target_matter cmd then
          let cmd := clamp_temp_target cmd in
          pack <- mask_body_byte small_info.target_temp_int_and_v_louver
                    AC_TEMP_TARGET_INT_PART_MASK
                    (Z.shiftl (temp_int (temp_target cmd) - 8) 3) pack ;;
          pack <- (if Qlt_bool 0
                        (temp_target cmd - inject_Z (temp_int (temp_target cmd)))
                   then mask_body_byte small_info.target_temp_frac
                          AC_TEMP_TARGET_FRAC_PART_MASK 1 pack
                   else mask_body_byte small_info.target_temp_frac
                          AC_TEMP_TARGET_FRAC_PART_MASK 0 pack) ;;
          Done (pack, cmd)
        else Done (pack, cmd)) ;;
  let pack := fst r in
  let cmd := snd r in
  pack <- overlay small_info.target_temp_int_and_v_louver AC_LOUVERV_MASK
            (louver_v (louver cmd)) AC_LOUVERV_UNTOUCHED pack ;;
  pack <- overlay small_info.h_louver AC_LOUVERH_MASK
            (louver_h (louver cmd)) AC_LOUVERH_UNTOUCHED pack ;;
  pack <- overlay small_info.fan_speed AC_FANSPEED_MASK
            (fanSpeed cmd) AC_FANSPEED_UNTOUCHED pack ;;
  pack <- overlay small_info.fan_turbo_and_mute AC_FANTURBO_MASK
            (fanTurbo cmd) AC_FANTURBO_UNTOUCHED pack ;;
  pack <- overlay small_info.fan_turbo_and_mute AC_FANMUTE_MASK
            (fanMute cmd) AC_FANMUTE_UNTOUCHED pack ;;
  pack <- overlay small_info.mode AC_MODE_MASK
            (mode cmd) AC_MODE_UNTOUCHED pack ;;
  pack <- overlay small_info.mode AC_SLEEP_MASK
            (sleep cmd) AC_SLEEP_UNTOUCHED pack ;;
  pack <- overlay small_info.mode AC_IFEEL_MASK
            (iFeel cmd) AC_IFEEL_UNTOUCHED pack ;;
  pack <- overlay small_info.status AC_POWER_MASK
            (power cmd) AC_POWER_UNTOUCHED pack ;;
  pack <- overlay small_info.status AC_CLEAN_MASK
            (clean cmd) AC_CLEAN_UNTOUCHED pack ;;
  pack <- overlay small_info.status AC_HEALTH_MASK
            (health cmd) AC_HEALTH_UNTOUCHED pack ;;
  pack <- overlay small_info.display_and_mildew AC_DISPLAY_MASK
            (display cmd) AC_DISPLAY_UNTOUCHED pack ;;
  pack <- overlay small_info.display_and_mildew AC_MILDEW_MASK
            (mildew cmd) AC_MILDEW_UNTOUCHED pack ;;
  let pack := set_crc (Some (crc_offset pack)) pack in
  pack <- _setCRC16 pack ;;
  Done (pack, cmd).

(** The objects the pointer arguments of [_fillSetCommand] designate. *)
Inductive packet_ptr : Type :=
| ptr_outPacket
| ptr_sequence_packet (i : nat).

Inductive command_ptr : Type :=
| cmd_nullptr
| ptr_current_ac_state
| ptr_sequence_cmd (i : nat).

Definition load_packet (p : packet_ptr) (s : AirCon) : outcome packet_t :=
  match p with
  | ptr_outPacket => Done (_outPacket s)
  | ptr_sequence_packet i =>
      it <- seq_item i s ;; Done (sequence_item_t.packet it)
  end.

Definition store_packet (p : packet_ptr) (v : packet_t) (s : AirCon)
  : outcome AirCon :=
  match p with
  | ptr_outPacket => Done (set_outPacket v s)
  | ptr_sequence_packet i =>
      it <- seq_item i s ;; put_item i (sequence_item_t.set_packet v it) s
  end.

Definition load_command (c : command_ptr) (s : AirCon) : outcome ac_command_t :=
  match c with
  | cmd_nullptr => Fault
  | ptr_current_ac_state => Done (_current_ac_state s)
  | ptr_sequence_cmd i =>
      it <- seq_item i s ;; Done (sequence_item_t.cmd it)
  end.

Definition store_command (c : command_ptr) (v : ac_command_t) (s : AirCon)
  : outcome AirCon :=
  match c with
  | cmd_nullptr => Fault
  | ptr_current_ac_state => Done (set_current_ac_state v s)
  | ptr_sequence_cmd i =>
      it <- seq_item i s ;; put_item i (sequence_item_t.set_cmd v it) s
  end.

(** One pass of the parameter part of [_fillSetCommand] over the objects
    behind [pack] and [cmd]; the clamped temperature lands in the object
    [cmd] points to. *)
Definition fill_pass (now : Z) (pack : packet_ptr) (cmd : command_ptr)
  (s : AirCon) : outcome AirCon :=
  p <- load_packet pack s ;;
  c <- load_command cmd s ;;
  r <- fill_from_command now c p ;;
  s <- store_packet pack (fst r) s ;;
  store_command cmd (snd r) s.

(** [_fillSetCommand(clrPacket, pack, cmd)]. Unless [cmd] is
    [&_current_ac_state] the function first calls itself on
    [&_current_ac_state] (with [clrPacket = false]); that inner call does
    not recurse further, so it is one [fill_pass]. *)
Definition _fillSetCommand (clrPacket : bool) (pack : packet_ptr)
  (cmd : command_ptr) (now : Z) (s : AirCon) : outcome AirCon :=
  s <- (if clrPacket then store_packet pack _clearPacket s else Done s) ;;
  s <- (match cmd with
        | ptr_current_ac_state => Done s
        | _ => fill_pass now pack ptr_current_ac_state s
        end) ;;
  match cmd with
  | cmd_nullptr => Done s
  | _ => fill_pass now pack cmd s
  end.

(* ------------------------------------------------------------------ *)
(** ** Operations of the sequence engine

    Each returns the flag the C++ function returns and the new state. *)

Definition step_advance (s : AirCon) : AirCon :=
  set_sequence_current_step (S (_sequence_current_step s)) s.

Definition mark_step (t : sequence_packet_type_t) (s : AirCon) : outcome AirCon :=
  it <- seq_item (_sequence_current_step s) s ;;
  put_item (_sequence_current_step s) (sequence_item_t.set_packet_type t it) s.

(** [sq_requestSmallStatus()] and [sq_requestBigStatus()]. *)
Definition sq_request_status (code : Z) (now : Z) (s : AirCon)
  : outcome (bool * AirCon) :=
  if (0 <? bytesLoaded (_outPacket s))%nat then Done (true, s) else
  out <- fill_status_request code now (_outPacket s) ;;
  let s := set_outPacket out s in
  p <- load_packet (ptr_sequence_packet (_sequence_current_step s)) s ;;
  p <- fill_status_request code now p ;;
  s <- store_packet (ptr_sequence_packet (_sequence_current_step s)) p s ;;
  s <- mark_step AC_SPT_SENT_PACKET s ;;
  Done (true, step_advance s).

Definition sq_requestSmallStatus (now : Z) (s : AirCon) : outcome (bool * AirCon) :=
  sq_request_status AC_CMD_STATUS_SMALL now s.

Definition sq_requestBigStatus (now : Z) (s : AirCon) : outcome (bool * AirCon) :=
  sq_request_status AC_CMD_STATUS_BIG now s.

(** [a && b] where [b] reads memory: [b] runs only when [a] holds. *)
Definition and_then (a : bool) (b : outcome bool) : outcome bool :=
  if a then b else Done false.

Definition body_is (i : nat) (v : Z) (p : packet_t) : outcome bool :=
  b <- rd_ptr (body p) i (data p) ;; Done (b =? v).

(** The head shared by the three confirm operations: nothing to check
    without an incoming packet, pings are ignored, otherwise the packet is
    saved in the current step. [None] means the operation has returned
    [true] already. *)
Definition control_prologue (s : AirCon) : outcome (option AirCon) :=
  if (bytesLoaded (_inPacket s) =? 0)%nat then Done None else
  if hdr header.packet_type (_inPacket s) =? AC_PTYPE_PING then Done None else
  dest <- load_packet (ptr_sequence_packet (_sequence_current_step s)) s ;;
  s <- store_packet (ptr_sequence_packet (_sequence_current_step s))
         (_copyPacket dest (_inPacket s)) s ;;
  s <- mark_step AC_SPT_RECEIVED_PACKET s ;;
  Done (Some s).

Definition control_epilogue (relevant : bool) (s : AirCon) : bool * AirCon :=
  if relevant then (true, step_advance s) else (false, s).

(** [sq_controlSmallStatus()] and [sq_controlBigStatus()]. *)
Definition sq_control_status (len code : Z) (s : AirCon)
  : outcome (bool * AirCon) :=
  r <- control_prologue s ;;
  match r with
  | None => Done (true, s)
  | Some s =>
      let relevant := hdr header.packet_type (_inPacket s) =? AC_PTYPE_INFO in
      let relevant := relevant && (hdr header.body_length (_inPacket s) =? len) in
      relevant <- and_then relevant (body_is 0 0x01 (_inPacket s)) ;;
      relevant <- and_then relevant (body_is 1 code (_inPacket s)) ;;
      Done (control_epilogue relevant s)
  end.

Definition sq_controlSmallStatus (s : AirCon) : outcome (bool * AirCon) :=
  sq_control_status 0x0F AC_CMD_STATUS_SMALL s.

Definition sq_controlBigStatus (s : AirCon) : outcome (bool * AirCon) :=
  sq_control_status 0x18 AC_CMD_STATUS_BIG s.

(** [sq_requestDoCommand()]. *)
Definition sq_requestDoCommand (now : Z) (s : AirCon) : outcome (bool * AirCon) :=
  if (0 <? bytesLoaded (_outPacket s))%nat then Done (true, s) else
  let i := _sequence_current_step s in
  s <- _fillSetCommand true ptr_outPacket (ptr_sequence_cmd i) now s ;;
  s <- _fillSetCommand true (ptr_sequence_packet i) (ptr_sequence_cmd i) now s ;;
  s <- mark_step AC_SPT_SENT_PACKET s ;;
  Done (true, step_advance s).

(** [_sequence[_sequence_current_step-1].packet.crc->crc[i]]. *)
Definition previous_step_crc (i : nat) (s : AirCon) : outcome Z :=
  match _sequence_current_step s with
  | O => Fault
  | S prev =>
      it <- seq_item prev s ;;
      rd_ptr (crc (sequence_item_t.packet it)) i
        (data (sequence_item_t.packet it))
  end.

Definition body_echoes_crc (i : nat) (s : AirCon) : outcome bool :=
  b <- rd_ptr (body (_inPacket s)) (2 + i) (data (_inPacket s)) ;;
  c <- previous_step_crc i s ;;
  Done (b =? c).

(** [sq_controlDoCommand()]. *)
Definition sq_controlDoCommand (s : AirCon) : outcome (bool * AirCon) :=
  r <- control_prologue s ;;
  match r with
  | None => Done (true, s)
  | Some s =>
      let relevant := hdr header.packet_type (_inPacket s) =? AC_PTYPE_INFO in
      let relevant := relevant && (hdr header.body_length (_inPacket s) =? 0x04) in
      relevant <- and_then relevant (body_is 0 0x01 (_inPacket s)) ;;
      relevant <- and_then relevant (body_is 1 AC_CMD_SET_PARAMS (_inPacket s)) ;;
      relevant <- and_then relevant (body_echoes_crc 0 s) ;;
      relevant <- and_then relevant (body_echoes_crc 1 s) ;;
      Done (control_epilogue relevant s)
  end.

(** [(this->*func)()]. *)
Definition call (f : step_function) (now : Z) (s : AirCon)
  : outcome (bool * AirCon) :=
  match f with
  | ptr_sq_requestSmallStatus => sq_requestSmallStatus now s
  | ptr_sq_controlSmallStatus => sq_controlSmallStatus s
  | ptr_sq_requestBigStatus => sq_requestBigStatus now s
  | ptr_sq_controlBigStatus => sq_controlBigStatus s
  | ptr_sq_requestDoCommand => sq_requestDoCommand now s
  | ptr_sq_controlDoCommand => sq_controlDoCommand s
  end.

(** [_doSequence()]. *)
Definition _doSequence (now : Z) (s : AirCon) : outcome AirCon :=
  if negb (hasSequence s) then Done s else
  if (AC_SEQUENCE_MAX_LEN <=? _sequence_current_step s)%nat
  then Done (_clearSequence s) else
  it <- seq_item (_sequence_current_step s) s ;;
  match sequence_item_t.item_type it with
  | AC_SIT_FUNC =>
      match sequence_item_t.func it with
      | None => Done (_clearSequence s)
      | Some f =>
          let it :=
            if sequence_item_t.msec it =? 0
            then sequence_item_t.set_msec now it else it in
          let it :=
            if sequence_item_t.timeout it =? 0
            then sequence_item_t.set_timeout AC_SEQUENCE_DEFAULT_TIMEOUT it
            else it in
          s <- put_item (_sequence_current_step s) it s ;;
          if sequence_item_t.timeout it <=? u32 (now - sequence_item_t.msec it)
          then Done (_clearSequence s)
          else
            r <- call f now s ;;
            if fst r then Done (snd r) else Done (_clearSequence (snd r))
      end
  | AC_SIT_DELAY =>
      let it :=
        if sequence_item_t.msec it =? 0
        then sequence_item_t.set_msec now it else it in
      s <- put_item (_sequence_current_step s) it s ;;
      if sequence_item_t.timeout it <=? u32 (now - sequence_item_t.msec it)
      then Done (step_advance s)
      else Done s
  | AC_SIT_NONE => Done (_clearSequence s)
  end.

(* ------------------------------------------------------------------ *)
(** ** Builders of sequences *)

(** [_sequence[step].item_type = AC_SIT_FUNC; _sequence[step].func = f]:
    the other fields of the slot keep their contents. *)
Definition load_step (step : nat) (f : step_function) (s : AirCon)
  : outcome AirCon :=
  it <- seq_item step s ;;
  put_item step
    (sequence_item_t.set_func (Some f)
       (sequence_item_t.set_item_type AC_SIT_FUNC it)) s.

Definition load_step_cmd (step : nat) (c : ac_command_t) (s : AirCon)
  : outcome AirCon :=
  it <- seq_item step s ;;
  put_item step (sequence_item_t.set_cmd c it) s.

(** [startupSequence()]. *)
Definition startupSequence (s : AirCon) : outcome (bool * AirCon) :=
  if hasSequence s then Done (false, s) else
  let s := _clearSequence s in
  let step := 0%nat in
  s <- load_step step ptr_sq_requestSmallStatus s ;;
  let step := S step in
  s <- load_step step ptr_sq_controlSmallStatus s ;;
  let step := S step in
  s <- load_step step ptr_sq_requestBigStatus s ;;
  let step := S step in
  s <- load_step step ptr_sq_controlBigStatus s ;;
  Done (true, s).

(** The search loop of [commandSequence]:
    [for (i = 0; i < AC_SEQUENCE_MAX_LEN; i++)
       if (_sequence[i].item_type != AC_SIT_NONE) { step = i; break; }].
    [first_loaded_slot i l] scans the slots [l], the first of which has
    index [i]; without a hit [step] keeps its value [0]. *)
Fixpoint first_loaded_slot (i : nat) (l : list sequence_item_t) : nat :=
  match l with
  | [] => 0%nat
  | it :: l' =>
      match sequence_item_t.item_type it with
      | AC_SIT_NONE => first_loaded_slot (S i) l'
      | _ => i
      end
  end.

(** [commandSequence(cmd)]; [None] when the request is turned down. *)
Definition commandSequence (cmd : ac_command_t) (s : AirCon)
  : outcome (option AirCon) :=
  let step :=
    if hasSequence s
    then first_loaded_slot 0 (firstn AC_SEQUENCE_MAX_LEN (_sequence s))
    else 0%nat in
  if hasSequence s && (AC_SEQUENCE_MAX_LEN - 1 <=? step)%nat then Done None else
  s <- load_step step ptr_sq_requestSmallStatus s ;;
  let step := S step in
  s <- load_step step ptr_sq_controlSmallStatus s ;;
  let step := S step in
  s <- load_step step ptr_sq_requestDoCommand s ;;
  s <- load_step_cmd step cmd s ;;
  let step := S step in
  s <- load_step step ptr_sq_controlDoCommand s ;;
  let step := S step in
  s <- load_step step ptr_sq_requestSmallStatus s ;;
  let step := S step in
  s <- load_step step ptr_sq_controlSmallStatus s ;;
  Done (Some s).

(* ------------------------------------------------------------------ *)
(** ** Decoders of the status packets *)

(** [stateByte = body->field & MASK]. *)
Definition status_bits (i : nat) (mask : Z) (p : packet_t) : outcome Z :=
  b <- rd_ptr (body p) i (data p) ;; Done (Z.land b mask).

(** The small status packet (case [AC_CMD_STATUS_SMALL] of
    [_doParsingPacket]): the new state and [stateChangedFlag]. *)
Definition parse_small_status (p : packet_t) (st : ac_state_t)
  : outcome (bool * ac_state_t) :=
  b2 <- rd_ptr (body p) small_info.target_temp_int_and_v_louver (data p) ;;
  b4 <- rd_ptr (body p) small_info.target_temp_frac (data p) ;;
  let stateFloat :=
    (inject_Z (8 + Z.shiftr b2 3) + (1 # 2) * inject_Z (Z.shiftr b4 7))%Q in
  let changed := negb (Qeq_bool (temp_target st) stateFloat) in
  let st := set_temp_target_matter true (set_temp_target stateFloat st) in
  v <- status_bits small_info.target_temp_int_and_v_louver AC_LOUVERV_MASK p ;;
  let changed := changed || negb (louver_v (louver st) =? v) in
  let st := set_louver_v v st in
  v <- status_bits small_info.h_louver AC_LOUVERH_MASK p ;;
  let changed := changed || negb (louver_h (louver st) =? v) in
  let st := set_louver_h v st in
  v <- status_bits small_info.fan_speed AC_FANSPEED_MASK p ;;
  let changed := changed || negb (fanSpeed st =? v) in
  let st := set_fanSpeed v st in
  v <- status_bits small_info.fan_turbo_and_mute AC_FANTURBO_MASK p ;;
  let changed := changed || negb (fanTurbo st =? v) in
  let st := set_fanTurbo v st in
  v <- status_bits small_info.fan_turbo_and_mute AC_FANMUTE_MASK p ;;
  let changed := changed || negb (fanMute st =? v) in
  let st := set_fanMute v st in
  v <- status_bits small_info.mode AC_MODE_MASK p ;;
  let changed := changed || negb (mode st =? v) in
  let st := set_mode v st in
  v <- status_bits small_info.mode AC_SLEEP_MASK p ;;
  let changed := changed || negb (sleep st =? v) in
  let st := set_sleep v st in
  v <- status_bits small_info.mode AC_IFEEL_MASK p ;;
  let changed := changed || negb (iFeel st =? v) in
  let st := set_iFeel v st in
  v <- status_bits small_info.status AC_POWER_MASK p ;;
  let changed := changed || negb (power st =? v) in
  let st := set_power v st in
  v <- status_bits small_info.status AC_HEALTH_MASK p ;;
  let changed := changed || negb (health st =? v) in
  let st := set_health v st in
  v <- status_bits small_info.status AC_HEALTH_STATUS_MASK p ;;
  let changed := changed || negb (health_status st =? v) in
  let st := set_health_status v st in
  v <- status_bits small_info.status AC_CLEAN_MASK p ;;
  let changed := changed || negb (clean st =? v) in
  let st := set_clean v st in
  v <- status_bits small_info.display_and_mildew AC_DISPLAY_MASK p ;;
  let changed := changed || negb (display st =? v) in
  let st := set_display v st in
  v <- status_bits small_info.display_and_mildew AC_MILDEW_MASK p ;;
  let changed := changed || negb (mildew st =? v) in
  let st := set_mildew v st in
  Done (changed, st).

(** The big and the periodic status packet. *)
Definition parse_big_status (p : packet_t) (st : ac_state_t)
  : outcome (bool * ac_state_t) :=
  ti <- rd_ptr (body p) big_info.ambient_temperature_int (data p) ;;
  tf <- rd_ptr (body p) big_info.ambient_temperature_frac (data p) ;;
  let stateFloat := (inject_Z (ti - 0x20) + inject_Z tf / inject_Z 10)%Q in
  let changed := negb (Qeq_bool (temp_ambient st) stateFloat) in
  let st := set_temp_ambient stateFloat st in
  t <- rd_ptr (body p) big_info.outdoor_temperature (data p) ;;
  let stateFloat := inject_Z (t - 0x20) in
  let changed := changed || negb (Qeq_bool (temp_outdoor st) stateFloat) in
  let st := set_temp_outdoor stateFloat st in
  Done (changed, st).

(** [if (stateChangedFlag) stateChanged()] after a decoder has run. *)
Definition commit_status (r : bool * ac_state_t) (s : AirCon) : AirCon :=
  let s := set_current_ac_state (snd r) s in
  if fst r then stateChanged s else s.

(* ------------------------------------------------------------------ *)
(** ** Handlers of the link state machine *)

(** The answer to a ping, built in [_outPacket]. *)
Definition ping_answer (now : Z) (s : AirCon) : outcome AirCon :=
  let s := _clearOutPacket s in
  let out := _outPacket s in
  let out := set_msec now out in
  let out := set_hdr header.packet_type AC_PTYPE_PING out in
  let out := set_hdr header.ping_answer_01 0x01 out in
  let out := set_hdr header.body_length 8 out in
  let out := set_body (Some AC_HEADER_SIZE) out in
  out <- set_body_byte 0 0x1C out ;;
  out <- set_body_byte 1 0x27 out ;;
  let out := set_crc (Some (crc_offset out)) out in
  out <- _setCRC16 out ;;
  let out := set_bytesLoaded (crc_offset out + 2) out in
  Done (set_outPacket out s).

(** The [switch] of [_doParsingPacket] over the packet type. *)
Definition parse_dispatch (now : Z) (s : AirCon) : outcome AirCon :=
  let ptype := hdr header.packet_type (_inPacket s) in
  if ptype =? AC_PTYPE_PING then
    s <- ping_answer now s ;;
    s <- (if negb (_startupSequenceComlete s) then
            r <- startupSequence s ;;
            Done (set_startupSequenceComlete (fst r) (snd r))
          else Done s) ;;
    Done (_setStateMachineState ACSM_SENDING_PACKET s)
  else if ptype =? AC_PTYPE_CMD then
    Done (_setStateMachineState ACSM_IDLE (_clearInPacket s))
  else if ptype =? AC_PTYPE_INFO then
    code <- rd_ptr (body (_inPacket s)) 1 (data (_inPacket s)) ;;
    s <- (if code =? AC_CMD_STATUS_SMALL then
            r <- parse_small_status (_inPacket s) (_current_ac_state s) ;;
            Done (commit_status r s)
          else if (code =? AC_CMD_STATUS_BIG) || (code =? AC_CMD_STATUS_PERIODIC) then
            r <- parse_big_status (_inPacket s) (_current_ac_state s) ;;
            Done (commit_status r s)
          else Done s) ;;
    Done (_setStateMachineState ACSM_IDLE s)
  else
    Done (_setStateMachineState ACSM_IDLE s).

(** [_doParsingPacket()]. *)
Definition _doParsingPacket (now : Z) (s : AirCon) : outcome AirCon :=
  v <- _checkCRC (_inPacket s) ;;
  let s := set_inPacket (snd v) s in
  if negb (fst v) then
    Done (_setStateMachineState ACSM_IDLE (_clearInPacket s))
  else
    s <- parse_dispatch now s ;;
    s <- (if hasSequence s then _doSequence now s else Done s) ;;
    Done (_clearInPacket s).

(** What one round of the loop of [_doReceivingPacketState] decides. *)
Inductive receive_round : Type :=
| round_overflow
| round_complete
| round_continue.

(** The body of the [while] loop for the next byte [b] of the UART. *)
Definition receive_byte (b : Z) (p : packet_t) : receive_round * packet_t :=
  if (AC_BUFFER_SIZE <=? bytesLoaded p)%nat then (round_overflow, p) else
  let p := set_data (setb (data p) (bytesLoaded p) b) p in
  let p := set_bytesLoaded (S (bytesLoaded p)) p in
  let p :=
    if (bytesLoaded p =? AC_HEADER_SIZE)%nat then
      let p := set_crc (Some (crc_offset p)) p in
      if 0 <? hdr header.body_length p
      then set_body (Some AC_HEADER_SIZE) p else p
    else p in
  if Z.of_nat (bytesLoaded p)
       =? Z.of_nat AC_HEADER_SIZE + hdr header.body_length p + 2
  then (round_complete, p)
  else (round_continue, p).

(** The [while (_ac_serial->available() > 0)] loop: the rest of the
    input, the packet, and whether the handler has returned from inside the
    loop. On overflow the pending byte is not read. *)
Fixpoint receive_loop (input : list Z) (s : AirCon) : bool * AirCon :=
  match input with
  | [] => (false, set_ac_serial [] s)
  | b :: rest =>
      match receive_byte b (_inPacket s) with
      | (round_overflow, _) =>
          (true, _setStateMachineState ACSM_IDLE
                   (_clearInPacket (set_ac_serial input s)))
      | (round_complete, p) =>
          (true, _setStateMachineState ACSM_PARSING_PACKET
                   (set_inPacket p (set_ac_serial rest s)))
      | (round_continue, p) =>
          receive_loop rest (set_inPacket p s)
      end
  end.

(** [_doReceivingPacketState()]. *)
Definition _doReceivingPacketState (now : Z) (s : AirCon) : AirCon :=
  let r := receive_loop (_ac_serial s) s in
  if fst r then snd r else
  let s := snd r in
  if AC_PACKET_TIMEOUT <=? u32 (now - msec (_inPacket s))
  then _setStateMachineState ACSM_IDLE (_clearInPacket s)
  else s.

(** The loop of [_doIdleState] that collects bytes up to the next start
    byte. *)
Fixpoint idle_drain (input : list Z) (s : AirCon) : AirCon :=
  match input with
  | [] => set_ac_serial [] s
  | b :: rest =>
      if b =? AC_PACKET_START_BYTE then set_ac_serial input s else
      let p := _inPacket s in
      let p := set_data (setb (data p) (bytesLoaded p) b) p in
      let p := set_bytesLoaded (S (bytesLoaded p)) p in
      let p := if (AC_BUFFER_SIZE <=? bytesLoaded p)%nat then _clearPacket else p in
      idle_drain rest (set_inPacket p s)
  end.

(** [_doIdleState()]. *)
Definition _doIdleState (now : Z) (s : AirCon) : outcome AirCon :=
  s <- _doSequence now s ;;
  match _ac_serial s with
  | [] =>
      if 0 <? msec (_outPacket s)
      then Done (_setStateMachineState ACSM_SENDING_PACKET s)
      else Done s
  | b :: _ =>
      if b =? AC_PACKET_START_BYTE then
        let s := _clearInPacket s in
        let s := set_inPacket (set_msec now (_inPacket s)) s in
        Done (_setStateMachineState ACSM_RECEIVING_PACKET s)
      else Done (idle_drain (_ac_serial s) s)
  end.

(** [_doSendingPacketState()]. *)
Definition _doSendingPacketState (s : AirCon) : AirCon :=
  let out := _outPacket s in
  if (msec out =? 0) || is_nullptr (crc out) || (bytesLoaded out =? 0)%nat
  then _setStateMachineState ACSM_IDLE s
  else
    let s := set_uart_tx (uart_tx s ++ firstn (bytesLoaded out) (data out)) s in
    _setStateMachineState ACSM_IDLE (_clearOutPacket s).

(** The [switch] of [loop()] over the state of the machine. *)
Definition loop_switch (now : Z) (s : AirCon) : outcome AirCon :=
  match _ac_state s with
  | ACSM_RECEIVING_PACKET => Done (_doReceivingPacketState now s)
  | ACSM_PARSING_PACKET => _doParsingPacket now s
  | ACSM_SENDING_PACKET => Done (_doSendingPacketState s)
  | ACSM_IDLE => _doIdleState now s
  end.

(* ------------------------------------------------------------------ *)
(** ** Further builders of sequences *)

(** [getStatusSmall()] and [getStatusBig()]: unlike [startupSequence]
    they do not clear the sequence before they load their two steps. *)
Definition getStatusSmall (s : AirCon) : outcome AirCon :=
  if hasSequence s then Done s else
  let step := 0%nat in
  s <- load_step step ptr_sq_requestSmallStatus s ;;
  let step := S step in
  load_step step ptr_sq_controlSmallStatus s.

Definition getStatusBig (s : AirCon) : outcome AirCon :=
  if hasSequence s then Done s else
  let step := 0%nat in
  s <- load_step step ptr_sq_requestBigStatus s ;;
  let step := S step in
  load_step step ptr_sq_controlBigStatus s.

(** [powerSequence(pwr)]; [commandSequence] returns nothing, a request it
    turns down leaves the component as it is. *)
Definition powerSequence (pwr : Z) (s : AirCon) : outcome AirCon :=
  if pwr =? AC_POWER_UNTOUCHED then Done s else
  if hasSequence s then Done s else
  let cmd := _clearCommand in
  let cmd := set_power pwr cmd in
  r <- commandSequence cmd s ;;
  Done (default s r).

(* ------------------------------------------------------------------ *)
(** ** The climate front end

    The component derives from ESPHome's [Climate]. Of that class the code
    uses the enumerations below, the fields [mode], [action], [fan_mode],
    [swing_mode], [target_temperature] and [current_temperature], and
    [publish_state()]; of a [ClimateCall] it reads the four optional
    values. The two temperature sensors hold the last value published to
    them. *)

Inductive ClimateMode : Type :=
| CLIMATE_MODE_OFF
| CLIMATE_MODE_AUTO
| CLIMATE_MODE_COOL
| CLIMATE_MODE_HEAT
| CLIMATE_MODE_FAN_ONLY
| CLIMATE_MODE_DRY.

Inductive ClimateAction : Type :=
| CLIMATE_ACTION_OFF
| CLIMATE_ACTION_COOLING
| CLIMATE_ACTION_HEATING
| CLIMATE_ACTION_IDLE
| CLIMATE_ACTION_DRYING
| CLIMATE_ACTION_FAN.

Inductive ClimateFanMode : Type :=
| CLIMATE_FAN_ON
| CLIMATE_FAN_OFF
| CLIMATE_FAN_AUTO
| CLIMATE_FAN_LOW
| CLIMATE_FAN_MEDIUM
| CLIMATE_FAN_HIGH
| CLIMATE_FAN_MIDDLE
| CLIMATE_FAN_FOCUS
| CLIMATE_FAN_DIFFUSE.

Inductive ClimateSwingMode : Type :=
| CLIMATE_SWING_OFF
| CLIMATE_SWING_BOTH
| CLIMATE_SWING_VERTICAL
| CLIMATE_SWING_HORIZONTAL.

Module Climate.

Record t : Type := mk {
  mode : ClimateMode;
  action : ClimateAction;
  fan_mode : ClimateFanMode;
  swing_mode : ClimateSwingMode;
  target_temperature : Q;
  current_temperature : Q;
  sensor_ambient_temperature : Q;
  sensor_outdoor_temperature : Q;
  published : nat
}.

Definition set_mode (v : ClimateMode) (c : t) : t :=
  mk v (action c) (fan_mode c) (swing_mode c) (target_temperature c)
    (current_temperature c) (sensor_ambient_temperature c)
    (sensor_outdoor_temperature c) (published c).
Definition set_fan_mode (v : ClimateFanMode) (c : t) : t :=
  mk (mode c) (action c) v (swing_mode c) (target_temperature c)
    (current_temperature c) (sensor_ambient_temperature c)
    (sensor_outdoor_temperature c) (published c).
Definition set_swing_mode (v : ClimateSwingMode) (c : t) : t :=
  mk (mode c) (action c) (fan_mode c) v (target_temperature c)
    (current_temperature c) (sensor_ambient_temperature c)
    (sensor_outdoor_temperature c) (published c).

(** [publish_state()]; the call is counted. *)
Definition publish_state (c : t) : t :=
  mk (mode c) (action c) (fan_mode c) (swing_mode c) (target_temperature c)
    (current_temperature c) (sensor_ambient_temperature c)
    (sensor_outdoor_temperature c) (S (published c)).

End Climate.

Record ClimateCall : Type := mk_call {
  get_mode : option ClimateMode;
  get_fan_mode : option ClimateFanMode;
  get_swing_mode : option ClimateSwingMode;
  get_target_temperature : option Q
}.

(** The body of [stateChanged()]: the fields of the front end are set
    from [_current_ac_state] and published. Each of the four [switch]
    statements is a chain of tests here, with its [default] last. *)
Definition stateChanged_mode (st : ac_state_t) : ClimateMode * ClimateAction :=
  if power st =? AC_POWER_ON then
    if mode st =? AC_MODE_AUTO then (CLIMATE_MODE_AUTO, CLIMATE_ACTION_IDLE)
    else if mode st =? AC_MODE_COOL then (CLIMATE_MODE_COOL, CLIMATE_ACTION_IDLE)
    else if mode st =? AC_MODE_DRY then (CLIMATE_MODE_DRY, CLIMATE_ACTION_DRYING)
    else if mode st =? AC_MODE_HEAT then (CLIMATE_MODE_HEAT, CLIMATE_ACTION_IDLE)
    else if mode st =? AC_MODE_FAN then (CLIMATE_MODE_FAN_ONLY, CLIMATE_ACTION_FAN)
    else (CLIMATE_MODE_OFF, CLIMATE_ACTION_OFF)
  else (CLIMATE_MODE_OFF, CLIMATE_ACTION_OFF).

Definition stateChanged_fan_mode (st : ac_state_t) : ClimateFanMode :=
  let fan_mode := CLIMATE_FAN_OFF in
  let fan_mode :=
    if fanSpeed st =? AC_FANSPEED_HIGH then CLIMATE_FAN_HIGH
    else if fanSpeed st =? AC_FANSPEED_MEDIUM then CLIMATE_FAN_MEDIUM
    else if fanSpeed st =? AC_FANSPEED_LOW then CLIMATE_FAN_LOW
    else if fanSpeed st =? AC_FANSPEED_AUTO then CLIMATE_FAN_AUTO
    else fan_mode in
  let fan_mode :=
    if (fanTurbo st =? AC_FANTURBO_ON)
       && ((mode st =? AC_MODE_HEAT) || (mode st =? AC_MODE_COOL))
    then CLIMATE_FAN_FOCUS else fan_mode in
  if (fanMute st =? AC_FANMUTE_ON) && (mode st =? AC_MODE_FAN)
  then CLIMATE_FAN_DIFFUSE else fan_mode.

Definition stateChanged_swing_mode (st : ac_state_t) : ClimateSwingMode :=
  let swing_mode := CLIMATE_SWING_OFF in
  let swing_mode :=
    if louver_h (louver st) =? AC_LOUVERH_SWING_LEFTRIGHT
    then CLIMATE_SWING_HORIZONTAL else swing_mode in
  if louver_v (louver st) =? AC_LOUVERV_SWING_UPDOWN then
    if louver_h (louver st) =? AC_LOUVERH_SWING_LEFTRIGHT
    then CLIMATE_SWING_BOTH else CLIMATE_SWING_VERTICAL
  else swing_mode.

Definition stateChanged_front (st : ac_state_t) (c : Climate.t) : Climate.t :=
  Climate.mk (fst (stateChanged_mode st)) (snd (stateChanged_mode st))
    (stateChanged_fan_mode st) (stateChanged_swing_mode st)
    (temp_target st) (temp_ambient st)
    (temp_ambient st) (temp_outdoor st) (S (Climate.published c)).

(** [control(call)], block by block. *)
Definition control_mode (m : ClimateMode) (cmd : ac_command_t) : ac_command_t :=
  match m with
  | CLIMATE_MODE_OFF => set_power AC_POWER_OFF cmd
  | CLIMATE_MODE_COOL => set_mode AC_MODE_COOL (set_power AC_POWER_ON cmd)
  | CLIMATE_MODE_HEAT => set_mode AC_MODE_HEAT (set_power AC_POWER_ON cmd)
  | CLIMATE_MODE_AUTO => set_mode AC_MODE_AUTO (set_power AC_POWER_ON cmd)
  | CLIMATE_MODE_FAN_ONLY => set_mode AC_MODE_FAN (set_power AC_POWER_ON cmd)
  | CLIMATE_MODE_DRY => set_mode AC_MODE_DRY (set_power AC_POWER_ON cmd)
  end.

(** The inner [switch (_current_ac_state.fanSpeed)] of the turbo and mute
    cases; it has no [default]. *)
Definition fan_mode_of_speed (speed : Z) (fanmode : ClimateFanMode)
  : ClimateFanMode :=
  if speed =? AC_FANSPEED_AUTO then CLIMATE_FAN_AUTO
  else if speed =? AC_FANSPEED_LOW then CLIMATE_FAN_LOW
  else if speed =? AC_FANSPEED_MEDIUM then CLIMATE_FAN_MEDIUM
  else if speed =? AC_FANSPEED_HIGH then CLIMATE_FAN_HIGH
  else fanmode.

Definition fan_speed_command (speed : Z) (cmd : ac_command_t) : ac_command_t :=
  set_fanMute AC_FANMUTE_OFF
    (set_fanTurbo AC_FANTURBO_OFF (set_fanSpeed speed cmd)).

Definition control_fan_mode (fanmode : ClimateFanMode) (st : ac_state_t)
  (cmd : ac_command_t) : ac_command_t * ClimateFanMode :=
  match fanmode with
  | CLIMATE_FAN_OFF | CLIMATE_FAN_ON | CLIMATE_FAN_MIDDLE => (cmd, fanmode)
  | CLIMATE_FAN_AUTO => (fan_speed_command AC_FANSPEED_AUTO cmd, fanmode)
  | CLIMATE_FAN_LOW => (fan_speed_command AC_FANSPEED_LOW cmd, fanmode)
  | CLIMATE_FAN_MEDIUM => (fan_speed_command AC_FANSPEED_MEDIUM cmd, fanmode)
  | CLIMATE_FAN_HIGH => (fan_speed_command AC_FANSPEED_HIGH cmd, fanmode)
  | CLIMATE_FAN_FOCUS =>
      if (mode cmd =? AC_MODE_COOL) || (mode cmd =? AC_MODE_HEAT)
         || (mode st =? AC_MODE_COOL) || (mode st =? AC_MODE_HEAT)
      then (set_fanTurbo AC_FANTURBO_ON cmd, fanmode)
      else (cmd, fan_mode_of_speed (fanSpeed st) fanmode)
  | CLIMATE_FAN_DIFFUSE =>
      if (mode cmd =? AC_MODE_FAN) || (mode st =? AC_MODE_FAN)
      then (set_fanMute AC_FANMUTE_ON cmd, fanmode)
      else (cmd, fan_mode_of_speed (fanSpeed st) fanmode)
  end.

Definition control_swing_mode (swingmode : ClimateSwingMode)
  (cmd : ac_command_t) : ac_command_t :=
  match swingmode with
  | CLIMATE_SWING_OFF =>
      set_louver_v AC_LOUVERV_OFF (set_louver_h AC_LOUVERH_OFF cmd)
  | CLIMATE_SWING_BOTH =>
      set_louver_v AC_LOUVERV_SWING_UPDOWN
        (set_louver_h AC_LOUVERH_SWING_LEFTRIGHT cmd)
  | CLIMATE_SWING_VERTICAL =>
      set_louver_v AC_LOUVERV_SWING_UPDOWN (set_louver_h AC_LOUVERH_OFF cmd)
  | CLIMATE_SWING_HORIZONTAL =>
      set_louver_v AC_LOUVERV_OFF (set_louver_h AC_LOUVERH_SWING_LEFTRIGHT cmd)
  end.

Definition control_target_temperature (temp : Q) (cmd : ac_command_t)
  : ac_command_t :=
  let temp :=
    if Qlt_bool (inject_Z AC_MAX_TEMPERATURE) temp
    then inject_Z AC_MAX_TEMPERATURE else temp in
  let temp :=
    if Qlt_bool temp (inject_Z AC_MIN_TEMPERATURE)
    then inject_Z AC_MIN_TEMPERATURE else temp in
  set_temp_target_matter true (set_temp_target temp cmd).

(** The command and the front end after the four blocks of [control], and
    [hasCommand]. *)
Definition control_command (call : ClimateCall) (st : ac_state_t)
  (front : Climate.t) : bool * ac_command_t * Climate.t :=
  let hasCommand := false in
  let cmd := _clearCommand in
  let '(hasCommand, cmd, front) :=
    match get_mode call with
    | Some m => (true, control_mode m cmd, Climate.set_mode m front)
    | None => (hasCommand, cmd, front)
    end in
  let '(hasCommand, cmd, front) :=
    match get_fan_mode call with
    | Some fm =>
        let r := control_fan_mode fm st cmd in
        (true, fst r, Climate.set_fan_mode (snd r) front)
    | None => (hasCommand, cmd, front)
    end in
  let '(hasCommand, cmd, front) :=
    match get_swing_mode call with
    | Some sw => (true, control_swing_mode sw cmd, Climate.set_swing_mode sw front)
    | None => (hasCommand, cmd, front)
    end in
  match get_target_temperature call with
  | Some temp => (true, control_target_temperature temp cmd, front)
  | None => (hasCommand, cmd, front)
  end.

(** [control(call)]. *)
Definition control (call : ClimateCall) (front : Climate.t) (s : AirCon)
  : outcome (Climate.t * AirCon) :=
  let '(hasCommand, cmd, front) :=
    control_command call (_current_ac_state s) front in
  if hasCommand then
    r <- commandSequence cmd s ;;
    Done (Climate.publish_state front, default s r)
  else Done (front, s).

(* ------------------------------------------------------------------ *)
(** ** [loop()]

    The members of the component outside [AirCon] above: the flag of the
    hardware, the time of the last periodic request and its counter. The
    three readings of [millis()] are [now] in the handler of the state,
    [t1] in the test of the interval and [t2] where the time of the
    request is stored. *)
Definition AC_STATES_REQUEST_INTERVAL : Z := 7000.

Record looper : Type := mk_looper {
  component : AirCon;
  _hw_initialized : bool;
  _dataMillis : Z;
  _cnt : Z
}.

Definition get_initialized (l : looper) : bool := _hw_initialized l.

Definition loop (now t1 t2 : Z) (l : looper) : outcome looper :=
  if negb (get_initialized l) then Done l else
  s <- loop_switch now (component l) ;;
  if AC_STATES_REQUEST_INTERVAL <? u32 (t1 - _dataMillis l) then
    r <- startupSequence s ;;
    let _cnt := u8 (_cnt l + 1) in
    let _cnt := if 7 <? _cnt then 0 else _cnt in
    Done (mk_looper (snd r) (_hw_initialized l) t2 _cnt)
  else Done (mk_looper s (_hw_initialized l) (_dataMillis l) (_cnt l)).

(* ------------------------------------------------------------------ *)
(** ** Runs of the component, for the examples *)

(** [n] passes of the state machine from time [now], [dt] apart. *)
Fixpoint ticks (n : nat) (now dt : Z) (s : AirCon) : outcome AirCon :=
  match n with
  | O => Done s
  | S n' => s' <- loop_switch now s ;; ticks n' (now + dt) dt s'
  end.

Definition done_or {A : Type} (d : A) (o : outcome A) : A :=
  match o with
  | Done a => a
  | Fault => d
  end.

(** The component after [startupSequence()] on a fresh instance. *)
Definition startup_loaded : AirCon :=
  done_or initAC (r <- startupSequence initAC ;; Done (snd r)).

(** A command that switches the unit on. *)
Definition power_on_command : ac_command_t := set_power AC_POWER_ON _clearCommand.

(* ------------------------------------------------------------------ *)
(** ** Values of the masked writes, for the statements about the encoder *)

(** The byte [(b & ~mask) | v] that [mask_body_byte] stores over [b]. *)
Definition masked (mask v b : Z) : Z := u8 (Z.lor (Z.land b (Z.lnot mask)) v).

(** The byte [overlay] leaves in the place of [b]. *)
Definition overlaid (mask v untouched b : Z) : Z :=
  if v =? untouched then b else masked mask v b.

(** A field of a command holds the sentinel [0xFF] or bits of its mask
    only; the enumerators of every parameter do. *)
Definition field_ok (mask v : Z) : Prop :=
  v = 0xFF \/ (0 <= v /\ Z.land v mask = v).

Record command_ok (c : ac_command_t) : Prop := mk_command_ok {
  ok_power : field_ok AC_POWER_MASK (power c);
  ok_clean : field_ok AC_CLEAN_MASK (clean c);
  ok_health : field_ok AC_HEALTH_MASK (health c);
  ok_mode : field_ok AC_MODE_MASK (mode c);
  ok_sleep : field_ok AC_SLEEP_MASK (sleep c);
  ok_iFeel : field_ok AC_IFEEL_MASK (iFeel c);
  ok_louver_v : field_ok AC_LOUVERV_MASK (louver_v (louver c));
  ok_louver_h : field_ok AC_LOUVERH_MASK (louver_h (louver c));
  ok_fanSpeed : field_ok AC_FANSPEED_MASK (fanSpeed c);
  ok_fanTurbo : field_ok AC_FANTURBO_MASK (fanTurbo c);
  ok_fanMute : field_ok AC_FANMUTE_MASK (fanMute c);
  ok_display : field_ok AC_DISPLAY_MASK (display c);
  ok_mildew : field_ok AC_MILDEW_MASK (mildew c)
}.

(** What a field decodes to after the encoder has merged the command [vc]
    over the state [va] in a cleared packet. *)
Definition merged (vc va : Z) : Z :=
  if vc =? 0xFF then (if va =? 0xFF then 0 else va) else vc.

(** [p] with the cell [i] of its buffer replaced by [f] of its content. *)
Definition upd (i : nat) (f : Z -> Z) (p : packet_t) : packet_t :=
  set_data (<[i := f (getb (data p) i)]> (data p)) p.

(** A packet whose body pointer is in place behind the header. *)
Definition ready (p : packet_t) : Prop :=
  body p = Some AC_HEADER_SIZE /\ length (data p) = AC_BUFFER_SIZE.

(* ------------------------------------------------------------------ *)
(** ** Notions used in the statements *)

(** [strict_frame s s']: [s'] differs from [s] at most in the sequence, its
    cursor and the outgoing packet. *)
Record strict_frame (s s' : AirCon) : Prop := mk_strict_frame {
  sf_state : _ac_state s' = _ac_state s;
  sf_ac : _current_ac_state s' = _current_ac_state s;
  sf_serial : _ac_serial s' = _ac_serial s;
  sf_tx : uart_tx s' = uart_tx s;
  sf_in : _inPacket s' = _inPacket s;
  sf_startup : _startupSequenceComlete s' = _startupSequenceComlete s;
  sf_changes : state_changes s' = state_changes s
}.

(** [engine_frame s s']: as [strict_frame], but the stored target
    temperature may have been clamped. *)
Record engine_frame (s s' : AirCon) : Prop := mk_engine_frame {
  ef_state : _ac_state s' = _ac_state s;
  ef_ac : _current_ac_state s' = _current_ac_state s \/
          _current_ac_state s' = clamp_temp_target (_current_ac_state s);
  ef_serial : _ac_serial s' = _ac_serial s;
  ef_tx : uart_tx s' = uart_tx s;
  ef_in : _inPacket s' = _inPacket s;
  ef_startup : _startupSequenceComlete s' = _startupSequenceComlete s;
  ef_changes : state_changes s' = state_changes s
}.

(** The stored checksum of the incoming packet matches the computed one. *)
Definition crc_valid (s : AirCon) : Prop :=
  exists p, _checkCRC (_inPacket s) = Done (true, p).

(** The function step as [_doSequence] stamps it: start time on the first
    visit, the default timeout in place of 0. *)
Definition stamped (now : Z) (it : sequence_item_t) : sequence_item_t :=
  let it :=
    if sequence_item_t.msec it =? 0
    then sequence_item_t.set_msec now it else it in
  if sequence_item_t.timeout it =? 0
  then sequence_item_t.set_timeout AC_SEQUENCE_DEFAULT_TIMEOUT it
  else it.

(** The confirm operations. *)
Definition is_confirm (f : step_function) : bool :=
  match f with
  | ptr_sq_controlSmallStatus
  | ptr_sq_controlBigStatus
  | ptr_sq_controlDoCommand => true
  | _ => false
  end.

(** The loop reads all of [l] without completing the frame and without
    finding the buffer full. *)
Definition takes_in (l : list Z) (s : AirCon) : Prop :=
  fst (receive_loop l s) = false.

(** Kind and operation of a step, and the six steps of a command
    transaction in these terms. *)
Definition step_kind (it : sequence_item_t)
  : sequence_item_type_t * option step_function :=
  (sequence_item_t.item_type it, sequence_item_t.func it).

Definition command_transaction
  : list (sequence_item_type_t * option step_function) :=
  [ (AC_SIT_FUNC, Some ptr_sq_requestSmallStatus);
    (AC_SIT_FUNC, Some ptr_sq_controlSmallStatus);
    (AC_SIT_FUNC, Some ptr_sq_requestDoCommand);
    (AC_SIT_FUNC, Some ptr_sq_controlDoCommand);
    (AC_SIT_FUNC, Some ptr_sq_requestSmallStatus);
    (AC_SIT_FUNC, Some ptr_sq_controlSmallStatus) ].

(** The header [fill_from_command] writes before it turns to the body. *)
Definition command_header (now : Z) (p : packet_t) : packet_t :=
  set_body (Some AC_HEADER_SIZE)
    (set_hdr header.body_length 15
       (set_hdr header.packet_type AC_PTYPE_CMD
          (set_hdr header.wifi AC_PACKET_ANSWER
             (set_hdr header.start_byte AC_PACKET_START_BYTE
                (set_msec now p))))).

(** The range 16..32 of the target temperature, on whole degrees. *)
Definition clampZ (n : Z) : Z := Z.max 16 (Z.min 32 n).

(** The ping frame of the unit, header only. *)
Definition ping_header_packet : packet_t :=
  set_data ([0xBB; 0; 1; 0; 0; 0; 0; 0] ++ repeat 0 26%nat) _clearPacket.

(** ** Frames and states of the examples *)

Definition ping_frame : list Z := [0xBB; 0; 1; 0; 0; 0; 0; 0; 0x43; 0xFF].

Definition init_frame : list Z := [0xBB; 0; 9; 0; 0; 0; 0; 0; 0x3B; 0xFF].

(** An info frame announcing an empty body, with its checksum. *)
Definition empty_info_frame : list Z :=
  [0xBB; 0; 7; 0; 0; 0; 0; 0; 0x3D; 0xFF].

(** The ping frame with a wrong second checksum byte. *)
Definition corrupt_frame : list Z := [0xBB; 0; 1; 0; 0; 0; 0; 0; 0x43; 0x00].

(** A small status frame reporting a target temperature of 8 degrees
    (byte 2 of the body is 0) and every other parameter as 0. *)
Definition small_status_8_degrees : list Z :=
  [0xBB; 0; 7; 0; 0; 0; 0x0F; 0;
   1; 0x11; 0; 0; 0; 0; 0; 0; 0; 0; 0; 0; 0; 0; 0;
   0x2D; 0xEE].

(** 34 bytes that start like a frame and announce a body of 30 bytes. *)
Definition oversized_frame : list Z :=
  [0xBB; 0; 7; 0; 0; 0; 0x1E; 0] ++ repeat 0 26%nat.

(** A fresh component that has met the start byte of [frame] and is about
    to receive it (one idle pass at time 100). *)
Definition receiving (frame : list Z) : AirCon :=
  done_or initAC (ticks 1 100 1 (set_ac_serial frame initAC)).

(** The same after the receiving pass at time 101. *)
Definition received (frame : list Z) : AirCon :=
  done_or initAC (ticks 2 100 1 (set_ac_serial frame initAC)).

(** The startup transaction after its request has gone out: the cursor is
    on the confirm step, which has not been visited yet. *)
Definition startup_requested : AirCon :=
  done_or initAC (ticks 2 100 1 startup_loaded).

(** The same one idle pass later: the confirm step is stamped and waits. *)
Definition startup_waiting : AirCon :=
  done_or initAC (ticks 3 100 1 startup_loaded).

(** A state as a small status frame of a running unit decodes to. *)
Definition sample_state : ac_state_t :=
  mk_command AC_POWER_ON (inject_Z 24) true 0%Q 0%Q AC_CLEAN_OFF AC_HEALTH_OFF
    AC_HEALTH_STATUS_OFF AC_MODE_COOL AC_SLEEP_OFF AC_IFEEL_OFF
    (mk_louver AC_LOUVERH_OFF AC_LOUVERV_OFF)
    AC_FANSPEED_AUTO AC_FANTURBO_OFF AC_FANMUTE_OFF AC_DISPLAY_ON
    AC_MILDEW_OFF.

(** A component holding [st] as AC state and a command transaction for
    [cmd]; the command sits in slot 2. *)
Definition with_command (cmd : ac_command_t) (st : ac_state_t) : AirCon :=
  let s := set_current_ac_state st initAC in
  done_or s (r <- commandSequence cmd s ;; Done (default s r)).

Definition heat_22_command : ac_command_t :=
  set_mode AC_MODE_HEAT
    (set_temp_target_matter true (set_temp_target (inject_Z 22) _clearCommand)).

Definition half_degree_command : ac_command_t :=
  set_temp_target_matter true (set_temp_target (45 # 2) _clearCommand).

Definition health_status_command : ac_command_t :=
  set_health_status AC_HEALTH_STATUS_ON _clearCommand.

(** The body of the packet [_fillSetCommand] leaves in [_outPacket],
    decoded as a small status into a blank state. *)
Definition encode_then_decode (s : AirCon) : outcome ac_state_t :=
  s' <- _fillSetCommand true ptr_outPacket (ptr_sequence_cmd 2) 0 s ;;
  r <- parse_small_status (_outPacket s') _clearCommand ;;
  Done (snd r).

(** The run behind the counterexample to C8: a command is queued; the
    request for the small status goes out (two passes); the unit answers
    with [small_status_8_degrees], which is received and parsed (three
    passes). *)
Definition after_status_8_degrees : AirCon :=
  let s := with_command power_on_command _clearCommand in
  let s := done_or s (ticks 2 100 1 s) in
  let s := set_ac_serial small_status_8_degrees s in
  done_or s (ticks 3 102 1 s).

(** A small status frame with byte 2 of the body 0x98 and the high bit of
    byte 4 set, with its checksum. *)
Definition small_status_27_5 : list Z :=
  [0xBB; 0; 7; 0; 0; 0; 0x0F; 0;
   1; 0x11; 0x98; 0; 0x80; 0; 0; 0; 0; 0; 0; 0; 0; 0; 0;
   0x15; 0xED].

(** The startup transaction waiting on its confirm step when a ping has
    come in and been received: the machine is about to parse it. *)
Definition ping_while_waiting : AirCon :=
  let s := set_ac_serial ping_frame startup_waiting in
  done_or s (ticks 2 103 1 s).

(* ------------------------------------------------------------------ *)
(** ** Notions used in the further properties *)

(** A value of type [uint8_t]. *)
Definition is_byte (b : Z) : Prop := 0 <= b < 256.

(** Weight of the cell [i] of a buffer in the sum of its big-endian
    16-bit words. *)
Definition cell_weight (i : nat) : Z := if Nat.even i then 256 else 1.

(** The incoming packet while a frame is being received: the buffer in
    place and holding bytes, at most 34 of them loaded, and once the
    header is in, the checksum pointer behind the announced body and the
    body pointer set when a body is announced. *)
Record rx_inv (p : packet_t) : Prop := mk_rx_inv {
  rx_data : length (data p) = AC_BUFFER_SIZE;
  rx_bytes : Forall is_byte (data p);
  rx_loaded : (bytesLoaded p <= AC_BUFFER_SIZE)%nat;
  rx_crc : (AC_HEADER_SIZE <= bytesLoaded p)%nat -> crc p = Some (crc_offset p);
  rx_body : (AC_HEADER_SIZE <= bytesLoaded p)%nat ->
            0 < hdr header.body_length p -> body p = Some AC_HEADER_SIZE
}.

(** A packet as the receiving step hands it to the parsing step: exactly
    header, announced body and checksum loaded, the body of at most 24
    bytes, the pointers in place. *)
Record handed_over (p : packet_t) : Prop := mk_handed_over {
  ho_data : length (data p) = AC_BUFFER_SIZE;
  ho_length : 0 <= hdr header.body_length p <= Z.of_nat AC_MAX_BODY_SIZE;
  ho_loaded : Z.of_nat (bytesLoaded p)
              = Z.of_nat AC_HEADER_SIZE + hdr header.body_length p + 2;
  ho_crc : crc p = Some (crc_offset p);
  ho_body : 0 < hdr header.body_length p -> body p = Some AC_HEADER_SIZE
}.

(** The incoming packet between frames: room for one more byte. *)
Definition idle_inv (p : packet_t) : Prop :=
  length (data p) = AC_BUFFER_SIZE /\ (bytesLoaded p < AC_BUFFER_SIZE)%nat.

(** What the link state machine keeps true of the incoming packet. *)
Definition link_inv (s : AirCon) : Prop :=
  match _ac_state s with
  | ACSM_IDLE | ACSM_SENDING_PACKET => idle_inv (_inPacket s)
  | ACSM_RECEIVING_PACKET => rx_inv (_inPacket s)
  | ACSM_PARSING_PACKET => handed_over (_inPacket s)
  end.

(** The buffers of the component have the sizes of the C++ arrays: 15
    slots in the sequence, 34 bytes in the outgoing packet and in the
    packet of every slot. *)
Record sized (s : AirCon) : Prop := mk_sized {
  sz_seq : length (_sequence s) = AC_SEQUENCE_MAX_LEN;
  sz_out : length (data (_outPacket s)) = AC_BUFFER_SIZE;
  sz_items : Forall (fun it => length (data (sequence_item_t.packet it))
                               = AC_BUFFER_SIZE) (_sequence s)
}.

(** The step before the cursor holds a packet whose checksum can be
    read: the step exists and its packet carries a checksum pointer inside
    the buffer. *)
Definition previous_step_sealed (s : AirCon) : Prop :=
  exists (prev : nat) (it' : sequence_item_t) (c : nat),
    _sequence_current_step s = S prev /\
    _sequence s !! prev = Some it' /\
    crc (sequence_item_t.packet it') = Some c /\
    (c + 1 < length (data (sequence_item_t.packet it')))%nat.

(** Where the confirm step of a command meets an info frame with a body
    of 4 bytes, it has the request of the step before it to compare the
    frame with. *)
Definition confirm_command_ready (s : AirCon) : Prop :=
  forall it : sequence_item_t,
    _sequence s !! _sequence_current_step s = Some it ->
    sequence_item_t.func it = Some ptr_sq_controlDoCommand ->
    hdr header.packet_type (_inPacket s) = AC_PTYPE_INFO ->
    hdr header.body_length (_inPacket s) = 4 ->
    previous_step_sealed s.

(** The incoming packet as a step of the sequence engine may meet it:
    none, or one handed over by the receiving step, with a body when it is
    an info frame. *)
Definition in_packet_ready (p : packet_t) : Prop :=
  bytesLoaded p = 0%nat \/
  (handed_over p /\
   (hdr header.packet_type p = AC_PTYPE_INFO -> 0 < hdr header.body_length p)).

(** The pointer arguments of [_fillSetCommand] designate objects of the
    component: a slot of the sequence that exists, and for the command no
    null pointer. *)
Definition packet_ptr_ok (pk : packet_ptr) : Prop :=
  match pk with
  | ptr_outPacket => True
  | ptr_sequence_packet i => (i < AC_SEQUENCE_MAX_LEN)%nat
  end.

Definition command_ptr_ok (cp : command_ptr) : Prop :=
  match cp with
  | cmd_nullptr => False
  | ptr_current_ac_state => True
  | ptr_sequence_cmd i => (i < AC_SEQUENCE_MAX_LEN)%nat
  end.

(** Body length and command code of the info frame a confirm operation
    waits for. *)
Definition expected_length (f : step_function) : Z :=
  match f with
  | ptr_sq_controlSmallStatus => 0x0F
  | ptr_sq_controlBigStatus => 0x18
  | _ => 0x04
  end.

Definition expected_code (f : step_function) : Z :=
  match f with
  | ptr_sq_controlSmallStatus => AC_CMD_STATUS_SMALL
  | ptr_sq_controlBigStatus => AC_CMD_STATUS_BIG
  | _ => AC_CMD_SET_PARAMS
  end.

(** The slot of a confirm step after its operation has saved the incoming
    packet [p] in it. *)
Definition received_in (p : packet_t) (it : sequence_item_t) : sequence_item_t :=
  sequence_item_t.set_packet_type AC_SPT_RECEIVED_PACKET
    (sequence_item_t.set_packet (_copyPacket (sequence_item_t.packet it) p) it).

(** The frame of a status request as it leaves a cleared outgoing packet:
    header, the body [code; 0x01] and the checksum. *)
Definition status_request_frame (f : step_function) : list Z :=
  match f with
  | ptr_sq_requestSmallStatus =>
      [0xBB; 0; 6; 0x80; 0; 0; 2; 0; 0x11; 0x01; 0x2B; 0x7E]
  | _ =>
      [0xBB; 0; 6; 0x80; 0; 0; 2; 0; 0x21; 0x01; 0x1B; 0x7E]
  end.


(** [p'] is [p] with body bytes from the third on rewritten: pointers,
    counters, the header and the first two body bytes are those of [p]. *)
Record body_rewritten (p p' : packet_t) : Prop := mk_body_rewritten {
  br_body : body p' = body p;
  br_crc : crc p' = crc p;
  br_msec : msec p' = msec p;
  br_loaded : bytesLoaded p' = bytesLoaded p;
  br_length : length (data p') = length (data p);
  br_head : forall k, (k < 10)%nat -> getb (data p') k = getb (data p) k
}.

(* ------------------------------------------------------------------ *)
(** ** States and values of the further examples *)

(** The slot under the cursor. *)
Definition current_item (s : AirCon) : sequence_item_t :=
  default empty_item (_sequence s !! _sequence_current_step s).

(** The request for the small status before it is sealed: header and
    body in a cleared packet, ten bytes loaded. *)
Definition status_request_unsealed : packet_t :=
  set_bytesLoaded 10
    (set_data ([0xBB; 0; 6; 0x80; 0; 0; 2; 0; 0x11; 1] ++ repeat 0 24%nat)
       _clearPacket).

(** A ping has been received, the startup transaction is loaded before
    it is parsed, and the parsing pass at time 102 has left the answer in
    the outgoing packet: the cursor is on the first request step. *)
Definition ping_answer_pending : AirCon :=
  let s := done_or initAC (r <- startupSequence (received ping_frame) ;;
                           Done (snd r)) in
  done_or s (ticks 1 102 1 s).

(** The startup transaction waiting on its confirm step when an init
    frame, respectively a small status frame, has been received. *)
Definition init_while_waiting : AirCon :=
  let s := set_ac_serial init_frame startup_waiting in
  done_or s (ticks 2 103 1 s).

Definition status_while_waiting : AirCon :=
  let s := set_ac_serial small_status_27_5 startup_waiting in
  done_or s (ticks 2 103 1 s).

(** Eight bytes that are no frame (the first is not the start byte) but
    read as the header of an info frame with a body of 15 bytes, taken
    off the UART by one idle pass while the startup transaction waits. *)
Definition stray_header : list Z := [0x3B; 0; 7; 0; 0; 0; 0x0F; 0].

Definition noise_while_waiting : AirCon :=
  let s := set_ac_serial stray_header startup_waiting in
  done_or s (ticks 1 103 1 s).

(** A fresh component with two bytes of noise ahead of a ping frame. *)
Definition noise_then_ping : AirCon :=
  set_ac_serial (0x00 :: 0x55 :: ping_frame) initAC.

(** A front end as ESPHome leaves it before the first report. *)
Definition front_off : Climate.t :=
  Climate.mk CLIMATE_MODE_OFF CLIMATE_ACTION_OFF CLIMATE_FAN_AUTO
    CLIMATE_SWING_OFF 0 0 0 0 0.

(** Calls of the user: heating, both louvers swinging, fan on high, the
    turbo preset, 22.5 degrees. *)
Definition call_heat : ClimateCall :=
  mk_call (Some CLIMATE_MODE_HEAT) None None None.

Definition call_swing_both : ClimateCall :=
  mk_call None None (Some CLIMATE_SWING_BOTH) None.

Definition call_fan_high : ClimateCall :=
  mk_call None (Some CLIMATE_FAN_HIGH) None None.

Definition call_turbo : ClimateCall :=
  mk_call None (Some CLIMATE_FAN_FOCUS) None None.

Definition call_22_5 : ClimateCall :=
  mk_call None None None (Some (45 # 2)).

(** The component as [loop()] sees it: initialised, the last periodic
    request at time 0, the counter at its highest value. *)
Definition looper_waiting : looper := mk_looper startup_waiting true 0 7.

(* ------------------------------------------------------------------ *)
(** ** Histories of the component

    What happens to the component once it is set up: bytes arrive at the
    UART behind those not yet read, [loop()] makes a pass of the state
    machine at some time, [loop()] asks for the startup transaction, and
    [control] or [powerSequence] hand a command to [commandSequence]. *)
Inductive event : Type :=
| ev_bytes (bs : list Z)
| ev_pass (now : Z)
| ev_startup
| ev_command (cmd : ac_command_t).

Definition happen (e : event) (s : AirCon) : outcome AirCon :=
  match e with
  | ev_bytes bs => Done (set_ac_serial (_ac_serial s ++ bs) s)
  | ev_pass now => loop_switch now s
  | ev_startup => r <- startupSequence s ;; Done (snd r)
  | ev_command cmd => r <- commandSequence cmd s ;; Done (default s r)
  end.

Fixpoint history (es : list event) (s : AirCon) : outcome AirCon :=
  match es with
  | [] => Done s
  | e :: es' => s' <- happen e s ;; history es' s'
  end.

(** The UART delivers bytes. *)
Definition delivers_bytes (e : event) : Prop :=
  match e with
  | ev_bytes bs => Forall is_byte bs
  | _ => True
  end.

(** A ping arrives, is received, and the startup transaction is asked for
    before it is parsed and answered. *)
Definition ping_history : list event :=
  [ev_bytes ping_frame; ev_pass 100; ev_pass 101; ev_startup; ev_pass 102;
   ev_pass 103].

(** The startup transaction after an idle pass made while the clock reads
    0: the request waits in the outgoing packet, stamped 0. *)
Definition request_stamped_zero : AirCon :=
  done_or initAC (_doIdleState 0 startup_loaded).

(* ================================================================== *)
(** * Properties *)

(** ** Generic facts *)

Lemma bind_Done {A B : Type} (m : outcome A) (f : A -> outcome B) (b : B) :
  bind m f = Done b -> exists a, m = Done a /\ f a = Done b.
Proof.
  destruct m as [a|]; simpl; intros H; [exists a; auto | discriminate].
Qed.

Lemma list_pair_ind {A : Type} (P : list A -> Prop) :
  P [] -> (forall a, P [a]) -> (forall a b l, P l -> P (a :: b :: l)) ->
  forall l, P l.
Proof.
  intros H0 H1 H2.
  assert (H : forall l, P l /\ forall a, P (a :: l)).
  { induction l as [|x l [IH1 IH2]]; split; auto. }
  intros l; apply H.
Qed.

(** ** The checksum *)

Section Checksum.

Lemma u32_idem (z : Z) : u32 (u32 z) = u32 z.
Proof. unfold u32. apply Z.mod_mod. lia. Qed.

Lemma u32_add_l (a b : Z) : u32 (u32 a + b) = u32 (a + b).
Proof. unfold u32. apply Zplus_mod_idemp_l. Qed.

Lemma getb_app_r (pre l : list Z) (i : nat) :
  getb (pre ++ l) (length pre + i) = getb l i.
Proof.
  unfold getb. rewrite app_nth2 by lia. f_equal. lia.
Qed.

Lemma getb_zeros (n i : nat) : getb (repeat 0 n) i = 0.
Proof.
  unfold getb. revert i. induction n as [|n IH]; intros [|i]; simpl; auto.
Qed.

(** The summing loop adds up the big-endian words of the data that the
    zero-filled scratch buffer holds from cell [2 * k] on. *)
Lemma crc_loop_words (l : list Z) :
  forall (pre : list Z) (k z : nat) (acc : Z),
    length pre = (2 * k)%nat ->
    u32 (fold_left (crc_step (pre ++ l ++ repeat 0 z))
           (seq k (length (be_words l))) acc)
    = u32 (acc + sum_words (be_words l)).
Proof.
  induction l as [|b|hi lo l IH] using list_pair_ind; intros pre k z acc Hpre.
  - simpl. f_equal. lia.
  - simpl. unfold crc_step. rewrite u32_idem. f_equal.
    rewrite <- Hpre.
    replace (length pre) with (length pre + 0)%nat at 1 by lia.
    rewrite getb_app_r.
    replace (length pre + 1)%nat with (length pre + 1)%nat by lia.
    rewrite getb_app_r. simpl.
    change (getb (b :: repeat 0 z) 1) with (getb (repeat 0 z) 0).
    rewrite getb_zeros. rewrite Z.shiftl_mul_pow2 by lia.
    unfold getb; simpl. lia.
  - cbn [be_words length seq fold_left sum_words fold_right].
    replace (pre ++ (hi :: lo :: l) ++ repeat 0 z)
      with ((pre ++ [hi; lo]) ++ l ++ repeat 0 z)
      by (rewrite <- app_assoc; reflexivity).
    rewrite (IH (pre ++ [hi; lo]) (S k) z) by (rewrite length_app; simpl; lia).
    unfold crc_step at 1. rewrite u32_add_l. f_equal.
    rewrite <- app_assoc. rewrite <- Hpre.
    replace (length pre) with (length pre + 0)%nat at 1 by lia.
    rewrite getb_app_r, getb_app_r. unfold getb; simpl.
    rewrite Z.shiftl_mul_pow2 by lia. fold (sum_words (be_words l)). lia.
Qed.

Lemma be_words_length (l : list Z) :
  length (be_words l)
  = ((if (length l mod 2 =? 1)%nat then S (length l) else length l) / 2)%nat.
Proof.
  induction l as [|b|hi lo l IH] using list_pair_ind.
  - reflexivity.
  - reflexivity.
  - cbn [be_words length]. rewrite IH.
    replace (S (S (length l))) with (length l + 1 * 2)%nat by lia.
    rewrite Nat.Div0.mod_add.
    destruct (length l mod 2 =? 1)%nat.
    + replace (S (length l + 1 * 2)) with (S (length l) + 1 * 2)%nat by lia.
      rewrite Nat.div_add by lia. lia.
    + rewrite Nat.div_add by lia. lia.
Qed.

Lemma fold_crc_step_range (buf : list Z) (ks : list nat) (acc : Z) :
  0 <= acc < 2 ^ 32 -> 0 <= fold_left (crc_step buf) ks acc < 2 ^ 32.
Proof.
  revert acc. induction ks as [|k ks IH]; intros acc H; simpl; auto.
  apply IH. unfold crc_step, u32. apply Z.mod_pos_bound. lia.
Qed.

(** [_CRC16] computes the checksum of the specification. *)
Lemma _CRC16_spec (d : list Z) (len : nat) :
  (len <= AC_BUFFER_SIZE)%nat -> (len <= length d)%nat ->
  _CRC16 d len = Done (checksum_spec (firstn len d)).
Proof.
  intros Hlen Hd. unfold _CRC16.
  destruct (AC_BUFFER_SIZE <? len)%nat eqn:E;
    [apply Nat.ltb_lt in E; lia|].
  f_equal.
  set (hb := firstn len d).
  assert (Hhb : length hb = len) by (unfold hb; rewrite length_firstn; lia).
  assert (Hn : ((if (len mod 2 =? 1)%nat then S len else len) / 2)%nat
               = length (be_words hb))
    by (rewrite be_words_length, Hhb; reflexivity).
  cbv zeta. rewrite Hn.
  pose proof (crc_loop_words hb [] 0 (AC_BUFFER_SIZE - len) 0 eq_refl) as Hsum.
  simpl app in Hsum.
  pose proof (fold_crc_step_range (hb ++ repeat 0 (AC_BUFFER_SIZE - len)%nat)
                (seq 0 (length (be_words hb))) 0 ltac:(lia)) as Hr.
  set (crc := fold_left _ _ _) in *.
  assert (Hcrc : crc = sum_words (be_words hb) mod 2 ^ 32).
  { unfold u32 in Hsum. rewrite Z.mod_small in Hsum by lia. exact Hsum. }
  unfold checksum_spec. rewrite <- Hcrc.
  rewrite Z.shiftr_div_pow2 by lia.
  change 65535 with (Z.ones 16). rewrite !Z.land_ones by lia.
  unfold u32. change 4294967296 with (2 ^ 32).
  apply Z.mod_mod_divide. exists (2 ^ 16). reflexivity.
Qed.

Lemma checksum_spec_range (l : list Z) : 0 <= checksum_spec l < 2 ^ 16.
Proof.
  unfold checksum_spec. change 65535 with (Z.ones 16).
  rewrite Z.land_ones by lia. apply Z.mod_pos_bound. lia.
Qed.

Lemma byte_of_land (z : Z) : Z.land z 255 = z mod 256.
Proof. change 255 with (Z.ones 8). rewrite Z.land_ones by lia. reflexivity. Qed.

Lemma getb_insert_eq (d : list Z) (i : nat) (v : Z) :
  (i < length d)%nat -> getb (<[i := v]> d) i = v.
Proof.
  intros H. unfold getb. apply nth_lookup_Some with (d := 0).
  apply list_lookup_insert_eq. exact H.
Qed.

Lemma getb_insert_ne (d : list Z) (i j : nat) (v : Z) :
  i <> j -> getb (<[i := v]> d) j = getb d j.
Proof.
  intros H. unfold getb. rewrite !nth_lookup.
  rewrite list_lookup_insert_ne by exact H. reflexivity.
Qed.

(** What [_setCRC16] does to a packet whose [crc] pointer is null or in
    place: the two bytes behind header and body receive the checksum, high
    byte first. *)
Lemma _setCRC16_bytes (p : packet_t) (n : nat) :
  (n <= AC_MAX_BODY_SIZE)%nat ->
  length (data p) = AC_BUFFER_SIZE ->
  hdr header.body_length p = Z.of_nat n ->
  crc p = None \/ crc p = Some (AC_HEADER_SIZE + n)%nat ->
  let off := (AC_HEADER_SIZE + n)%nat in
  let c := checksum_spec (firstn off (data p)) in
  _setCRC16 p =
  Done (set_data (<[S off := c mod 256]> (<[off := c / 256]> (data p)))
          (set_crc (Some off) p)).
Proof.
  intros Hn Hlen Hbl Hcrc off c.
  unfold AC_MAX_BODY_SIZE, AC_BUFFER_SIZE, AC_HEADER_SIZE in *.
  assert (Hoff : crc_offset p = off).
  { unfold crc_offset, off, AC_HEADER_SIZE. rewrite Hbl, Nat2Z.id. reflexivity. }
  assert (Hl : crc_len p = off).
  { unfold crc_len, off, u8, AC_HEADER_SIZE. rewrite Hbl.
    rewrite Z.mod_small by lia. lia. }
  unfold _setCRC16. rewrite Hl.
  rewrite _CRC16_spec by (unfold AC_BUFFER_SIZE, off; lia).
  fold c. cbn [bind].
  assert (Hp : (match crc p with
                | Some _ => p
                | None => set_crc (Some (crc_offset p)) p
                end) = set_crc (Some off) p).
  { destruct Hcrc as [-> | Hc]; [rewrite Hoff; reflexivity|].
    rewrite Hc. destruct p; simpl in *. subst; reflexivity. }
  rewrite Hp. cbn [crc set_crc data wr_ptr].
  pose proof (checksum_spec_range (firstn off (data p))) as Hc. fold c in Hc.
  unfold wr_at. rewrite Hlen.
  destruct (off + 0 <? 34)%nat eqn:E1; [|apply Nat.ltb_ge in E1; unfold off in E1; lia].
  cbn [bind]. rewrite length_insert, Hlen.
  destruct (off + 1 <? 34)%nat eqn:E2; [|apply Nat.ltb_ge in E2; unfold off in E2; lia].
  cbn [bind]. unfold target_byte_order, packet_crc_t_crc.
  rewrite !byte_of_land, Z.shiftr_div_pow2 by lia.
  change (2 ^ 8) with 256.
  rewrite (Z.mod_small (c / 256)) by (split; [apply Z.div_pos; lia | apply Z.div_lt_upper_bound; lia]).
  replace (off + 0)%nat with off by lia. replace (off + 1)%nat with (S off) by lia.
  reflexivity.
Qed.

End Checksum.

(** C1 (as amended). For a header and body of [8 + body_length] bytes,
    [body_length <= 24], [_CRC16] returns the checksum of the
    specification (big-endian 16-bit words, an odd trailing byte padded with
    zero, carry folded once, one's complement), [_setCRC16] leaves header
    and body as they are and stores the HIGH byte of that value in the first
    checksum byte and the LOW byte in the second. *)
Theorem C1_checksum_stored_high_byte_first (p : packet_t) (body_length : nat) :
  (body_length <= AC_MAX_BODY_SIZE)%nat ->
  length (data p) = AC_BUFFER_SIZE ->
  hdr header.body_length p = Z.of_nat body_length ->
  crc p = None \/ crc p = Some (AC_HEADER_SIZE + body_length)%nat ->
  let off := (AC_HEADER_SIZE + body_length)%nat in
  let frame := firstn off (data p) in
  _CRC16 (data p) off = Done (checksum_spec frame) /\
  exists p',
    _setCRC16 p = Done p' /\
    firstn off (data p') = frame /\
    getb (data p') off = checksum_spec frame / 256 /\
    getb (data p') (off + 1) = checksum_spec frame mod 256.
Proof.
  intros Hn Hlen Hbl Hcrc off frame.
  unfold AC_MAX_BODY_SIZE, AC_BUFFER_SIZE, AC_HEADER_SIZE in *.
  split.
  - apply _CRC16_spec; unfold AC_BUFFER_SIZE, off, AC_HEADER_SIZE; lia.
  - eexists. split; [apply (_setCRC16_bytes p body_length); assumption|].
    cbn [data set_data]. subst off frame. unfold AC_HEADER_SIZE.
    repeat split.
    + rewrite !take_insert_ge by lia. reflexivity.
    + rewrite getb_insert_ne by lia.
      apply getb_insert_eq. lia.
    + replace (8 + body_length + 1)%nat with (S (8 + body_length)) by lia.
      apply getb_insert_eq. rewrite length_insert. lia.
Qed.

Lemma C1_witness :
  let p := ping_header_packet in
  _CRC16 (data p) 8 = Done (checksum_spec (firstn 8 (data p))) /\
  exists p',
    _setCRC16 p = Done p' /\
    firstn 8 (data p') = firstn 8 (data p) /\
    getb (data p') 8 = checksum_spec (firstn 8 (data p)) / 256 /\
    getb (data p') (8 + 1) = checksum_spec (firstn 8 (data p)) mod 256.
Proof.
  apply (C1_checksum_stored_high_byte_first ping_header_packet 0).
  - vm_compute. lia.
  - reflexivity.
  - reflexivity.
  - left. reflexivity.
Defined.

(** C1 as claimed fails: for the ping header the checksum is [0x43FF]; the
    first stored byte is [0x43], not the low byte [0xFF], and the second is
    [0xFF], not the high byte. *)
Lemma C1_counterexample :
  exists p',
    _CRC16 (data ping_header_packet) 8 = Done 0x43FF /\
    _setCRC16 ping_header_packet = Done p' /\
    getb (data p') 8 = 0x43 /\
    getb (data p') 9 = 0xFF /\
    getb (data p') 8 <> 0x43FF mod 256 /\
    getb (data p') 9 <> 0x43FF / 256.
Proof.
  eexists. split; [vm_compute; reflexivity|].
  split; [vm_compute; reflexivity|].
  vm_compute. repeat split; discriminate.
Qed.

(** ** What the sequence engine may touch *)

Ltac inv_bind H :=
  repeat match type of H with
  | bind _ _ = Done _ =>
      let x := fresh "x" in
      let Hx := fresh "Hx" in
      apply bind_Done in H as (x & Hx & H)
  end.

Lemma strict_frame_refl (s : AirCon) : strict_frame s s.
Proof. split; reflexivity. Qed.

Lemma strict_frame_trans (s1 s2 s3 : AirCon) :
  strict_frame s1 s2 -> strict_frame s2 s3 -> strict_frame s1 s3.
Proof. intros [] []; split; congruence. Qed.

Lemma strict_engine_frame (s s' : AirCon) : strict_frame s s' -> engine_frame s s'.
Proof. intros []; split; auto. Qed.

Lemma clamp_temp_target_idem (c : ac_command_t) :
  clamp_temp_target (clamp_temp_target c) = clamp_temp_target c.
Proof.
  unfold clamp_temp_target.
  destruct (Qlt_bool (temp_target c) (inject_Z AC_MIN_TEMPERATURE)) eqn:A.
  - reflexivity.
  - destruct (Qlt_bool (inject_Z AC_MAX_TEMPERATURE) (temp_target c)) eqn:B.
    + reflexivity.
    + rewrite A, B. reflexivity.
Qed.

Lemma engine_frame_refl (s : AirCon) : engine_frame s s.
Proof. apply strict_engine_frame, strict_frame_refl. Qed.

Lemma engine_frame_trans (s1 s2 s3 : AirCon) :
  engine_frame s1 s2 -> engine_frame s2 s3 -> engine_frame s1 s3.
Proof.
  intros [] []; split; try congruence.
  destruct ef_ac0 as [E|E], ef_ac1 as [F|F]; rewrite F, E;
    rewrite ?clamp_temp_target_idem; auto.
Qed.

Lemma seq_item_Done (i : nat) (s : AirCon) (it : sequence_item_t) :
  seq_item i s = Done it -> _sequence s !! i = Some it.
Proof. unfold seq_item. destruct (_sequence s !! i); congruence. Qed.

Lemma put_item_Done (i : nat) (it : sequence_item_t) (s s' : AirCon) :
  put_item i it s = Done s' ->
  s' = set_sequence (<[i := it]> (_sequence s)) s.
Proof. unfold put_item. destruct (i <? _)%nat; congruence. Qed.

Lemma put_item_frame (i : nat) (it : sequence_item_t) (s s' : AirCon) :
  put_item i it s = Done s' -> strict_frame s s'.
Proof. intros H. apply put_item_Done in H. subst. split; reflexivity. Qed.

Lemma store_packet_frame (p : packet_ptr) (v : packet_t) (s s' : AirCon) :
  store_packet p v s = Done s' -> strict_frame s s'.
Proof.
  destruct p as [|i]; simpl; intros H.
  - injection H as <-. split; reflexivity.
  - inv_bind H. eapply put_item_frame; eauto.
Qed.

Lemma mark_step_frame (t : sequence_packet_type_t) (s s' : AirCon) :
  mark_step t s = Done s' -> strict_frame s s'.
Proof. unfold mark_step. intros H. inv_bind H. eapply put_item_frame; eauto. Qed.

Lemma step_advance_frame (s : AirCon) : strict_frame s (step_advance s).
Proof. split; reflexivity. Qed.

Lemma _clearSequence_frame (s : AirCon) : strict_frame s (_clearSequence s).
Proof. split; reflexivity. Qed.

Lemma load_step_frame (i : nat) (f : step_function) (s s' : AirCon) :
  load_step i f s = Done s' -> strict_frame s s'.
Proof. unfold load_step. intros H. inv_bind H. eapply put_item_frame; eauto. Qed.

Lemma load_step_cmd_frame (i : nat) (c : ac_command_t) (s s' : AirCon) :
  load_step_cmd i c s = Done s' -> strict_frame s s'.
Proof. unfold load_step_cmd. intros H. inv_bind H. eapply put_item_frame; eauto. Qed.

(** The command [fill_from_command] hands back is the one it got, the
    temperature clamped when it matters. *)
Lemma fill_from_command_cmd (now : Z) (c : ac_command_t) (p : packet_t)
  (r : packet_t * ac_command_t) :
  fill_from_command now c p = Done r ->
  snd r = if temp_target_matter c then clamp_temp_target c else c.
Proof.
  unfold fill_from_command. intros H. inv_bind H.
  injection H as <-. simpl.
  destruct (temp_target_matter c).
  - inv_bind Hx1. injection Hx1 as <-. reflexivity.
  - injection Hx1 as <-. reflexivity.
Qed.

Lemma fill_pass_frame (now : Z) (pk : packet_ptr) (cp : command_ptr)
  (s s' : AirCon) :
  fill_pass now pk cp s = Done s' -> engine_frame s s'.
Proof.
  unfold fill_pass. intros H. inv_bind H.
  apply store_packet_frame in Hx2.
  apply fill_from_command_cmd in Hx1.
  destruct cp as [| |i]; simpl in *.
  - discriminate.
  - injection H as <-. injection Hx0 as <-.
    destruct Hx2. split; simpl; try congruence.
    rewrite Hx1.
    destruct (temp_target_matter (_current_ac_state s)); auto.
  - inv_bind H. apply put_item_frame in H.
    apply strict_engine_frame. eapply strict_frame_trans; eauto.
Qed.

Lemma _fillSetCommand_frame (clr : bool) (pk : packet_ptr) (cp : command_ptr)
  (now : Z) (s s' : AirCon) :
  _fillSetCommand clr pk cp now s = Done s' -> engine_frame s s'.
Proof.
  unfold _fillSetCommand. intros H. inv_bind H.
  assert (F0 : engine_frame s x).
  { destruct clr.
    - apply strict_engine_frame. eapply store_packet_frame; eauto.
    - injection Hx as <-. apply engine_frame_refl. }
  assert (F1 : engine_frame x x0).
  { destruct cp.
    - eapply fill_pass_frame; eauto.
    - injection Hx0 as <-. apply engine_frame_refl.
    - eapply fill_pass_frame; eauto. }
  assert (F2 : engine_frame x0 s').
  { destruct cp.
    - injection H as <-. apply engine_frame_refl.
    - eapply fill_pass_frame; eauto.
    - eapply fill_pass_frame; eauto. }
  eauto using engine_frame_trans.
Qed.

Lemma sq_request_status_frame (code now : Z) (s : AirCon) (r : bool * AirCon) :
  sq_request_status code now s = Done r -> strict_frame s (snd r).
Proof.
  unfold sq_request_status. intros H.
  destruct (0 <? bytesLoaded (_outPacket s))%nat.
  - injection H as <-. apply strict_frame_refl.
  - inv_bind H. injection H as <-. simpl.
    apply store_packet_frame in Hx2. apply mark_step_frame in Hx3.
    eapply strict_frame_trans; [|apply step_advance_frame].
    eapply strict_frame_trans; [|eassumption].
    eapply strict_frame_trans; [|eassumption].
    split; reflexivity.
Qed.

Lemma control_prologue_frame (s s' : AirCon) :
  control_prologue s = Done (Some s') -> strict_frame s s'.
Proof.
  unfold control_prologue. intros H.
  destruct (bytesLoaded (_inPacket s) =? 0)%nat; [discriminate|].
  destruct (hdr header.packet_type (_inPacket s) =? AC_PTYPE_PING); [discriminate|].
  inv_bind H. injection H as <-.
  apply store_packet_frame in Hx0. apply mark_step_frame in Hx1.
  eapply strict_frame_trans; eauto.
Qed.

Lemma control_epilogue_frame (b : bool) (s : AirCon) :
  strict_frame s (snd (control_epilogue b s)).
Proof. destruct b; split; reflexivity. Qed.

Lemma sq_control_status_frame (len code : Z) (s : AirCon) (r : bool * AirCon) :
  sq_control_status len code s = Done r -> strict_frame s (snd r).
Proof.
  unfold sq_control_status. intros H. inv_bind H.
  destruct x as [s1|].
  - inv_bind H. injection H as <-.
    apply control_prologue_frame in Hx.
    eapply strict_frame_trans; [eassumption|apply control_epilogue_frame].
  - injection H as <-. apply strict_frame_refl.
Qed.

Lemma sq_controlDoCommand_frame (s : AirCon) (r : bool * AirCon) :
  sq_controlDoCommand s = Done r -> strict_frame s (snd r).
Proof.
  unfold sq_controlDoCommand. intros H. inv_bind H.
  destruct x as [s1|].
  - inv_bind H. injection H as <-.
    apply control_prologue_frame in Hx.
    eapply strict_frame_trans; [eassumption|apply control_epilogue_frame].
  - injection H as <-. apply strict_frame_refl.
Qed.

Lemma sq_requestDoCommand_frame (now : Z) (s : AirCon) (r : bool * AirCon) :
  sq_requestDoCommand now s = Done r -> engine_frame s (snd r).
Proof.
  unfold sq_requestDoCommand. intros H.
  destruct (0 <? bytesLoaded (_outPacket s))%nat.
  - injection H as <-. apply engine_frame_refl.
  - inv_bind H. injection H as <-. simpl.
    apply _fillSetCommand_frame in Hx, Hx0. apply mark_step_frame in Hx1.
    eapply engine_frame_trans; [eassumption|].
    eapply engine_frame_trans; [eassumption|].
    apply strict_engine_frame.
    eapply strict_frame_trans; [eassumption|apply step_advance_frame].
Qed.

Lemma call_frame (f : step_function) (now : Z) (s : AirCon) (r : bool * AirCon) :
  call f now s = Done r -> engine_frame s (snd r).
Proof.
  destruct f; simpl; intros H.
  - apply strict_engine_frame. eapply sq_request_status_frame; eauto.
  - apply strict_engine_frame. eapply sq_control_status_frame; eauto.
  - apply strict_engine_frame. eapply sq_request_status_frame; eauto.
  - apply strict_engine_frame. eapply sq_control_status_frame; eauto.
  - eapply sq_requestDoCommand_frame; eauto.
  - apply strict_engine_frame. eapply sq_controlDoCommand_frame; eauto.
Qed.

(** The sequence engine leaves the link state, the UART, the incoming
    packet and the notification count alone; of the AC state it can only
    clamp the target temperature. *)
Lemma _doSequence_frame (now : Z) (s s' : AirCon) :
  _doSequence now s = Done s' -> engine_frame s s'.
Proof.
  unfold _doSequence. intros H.
  destruct (negb (hasSequence s)); [injection H as <-; apply engine_frame_refl|].
  destruct (AC_SEQUENCE_MAX_LEN <=? _sequence_current_step s)%nat;
    [injection H as <-; apply strict_engine_frame, _clearSequence_frame|].
  inv_bind H.
  destruct (sequence_item_t.item_type x).
  - injection H as <-. apply strict_engine_frame, _clearSequence_frame.
  - inv_bind H. apply put_item_frame in Hx0.
    destruct (_ <=? _); injection H as <-; apply strict_engine_frame; auto.
    eapply strict_frame_trans; [eassumption|apply step_advance_frame].
  - destruct (sequence_item_t.func x) as [f|];
      [|injection H as <-; apply strict_engine_frame, _clearSequence_frame].
    inv_bind H. apply put_item_frame in Hx0.
    destruct (_ <=? _).
    + injection H as <-. apply strict_engine_frame.
      eapply strict_frame_trans; [eassumption|apply _clearSequence_frame].
    + inv_bind H. apply call_frame in Hx1.
      assert (F : engine_frame s (snd x1))
        by (eapply engine_frame_trans; [apply strict_engine_frame|]; eassumption).
      destruct (fst x1); injection H as <-; auto.
      eapply engine_frame_trans; [eassumption|].
      apply strict_engine_frame, _clearSequence_frame.
Qed.

Lemma startupSequence_frame (s : AirCon) (r : bool * AirCon) :
  startupSequence s = Done r -> strict_frame s (snd r).
Proof.
  unfold startupSequence. intros H.
  destruct (hasSequence s); [injection H as <-; apply strict_frame_refl|].
  inv_bind H. injection H as <-. simpl.
  apply load_step_frame in Hx, Hx0, Hx1, Hx2.
  pose proof (_clearSequence_frame s).
  eauto using strict_frame_trans.
Qed.

(** ** The parsing step *)

Lemma _checkCRC_packet (p p' : packet_t) (ok : bool) :
  _checkCRC p = Done (ok, p') ->
  data p' = data p /\ body p' = body p /\ bytesLoaded p' = bytesLoaded p /\
  msec p' = msec p.
Proof.
  unfold _checkCRC. intros H.
  destruct (bytesLoaded p <? AC_HEADER_SIZE)%nat.
  - injection H as <- <-. auto.
  - inv_bind H.
    assert (E : p' = match crc p with
                     | Some _ => p
                     | None => set_crc (Some (crc_offset p)) p
                     end).
    { destruct (x0 =? _); [inv_bind H|]; congruence. }
    subst p'. destruct (crc p); auto.
Qed.

Lemma ping_answer_frame (now : Z) (s s' : AirCon) :
  ping_answer now s = Done s' -> strict_frame s s'.
Proof.
  unfold ping_answer. intros H. inv_bind H. injection H as <-.
  split; reflexivity.
Qed.

Lemma commit_status_frame (r : bool * ac_state_t) (s : AirCon) :
  _ac_state (commit_status r s) = _ac_state s /\
  _ac_serial (commit_status r s) = _ac_serial s /\
  uart_tx (commit_status r s) = uart_tx s /\
  _inPacket (commit_status r s) = _inPacket s.
Proof. unfold commit_status. destruct (fst r); auto. Qed.

(** The link state the dispatch leaves, and what it keeps. *)
Lemma parse_dispatch_Done (now : Z) (s s' : AirCon) :
  parse_dispatch now s = Done s' ->
  _ac_state s' =
    (if hdr header.packet_type (_inPacket s) =? AC_PTYPE_PING
     then ACSM_SENDING_PACKET else ACSM_IDLE) /\
  _ac_serial s' = _ac_serial s /\
  uart_tx s' = uart_tx s /\
  (hdr header.packet_type (_inPacket s) <> AC_PTYPE_INFO ->
   _current_ac_state s' = _current_ac_state s /\
   state_changes s' = state_changes s).
Proof.
  unfold parse_dispatch. intros H.
  destruct (Z.eqb_spec (hdr header.packet_type (_inPacket s)) AC_PTYPE_PING) as [E|E].
  - inv_bind H. injection H as <-.
    apply ping_answer_frame in Hx.
    assert (F : _ac_serial x0 = _ac_serial x /\ uart_tx x0 = uart_tx x /\
                _current_ac_state x0 = _current_ac_state x /\
                state_changes x0 = state_changes x).
    { destruct (negb (_startupSequenceComlete x)).
      - inv_bind Hx0. injection Hx0 as <-.
        apply startupSequence_frame in Hx1. destruct Hx1. simpl. auto.
      - injection Hx0 as <-. auto. }
    destruct Hx, F as (? & ? & ? & ?). simpl. repeat split; congruence.
  - destruct (Z.eqb_spec (hdr header.packet_type (_inPacket s)) AC_PTYPE_CMD).
    + injection H as <-. simpl. auto.
    + destruct (Z.eqb_spec (hdr header.packet_type (_inPacket s)) AC_PTYPE_INFO).
      * inv_bind H. injection H as <-. simpl.
        assert (G : _ac_serial x0 = _ac_serial s /\ uart_tx x0 = uart_tx s).
        { destruct (x =? AC_CMD_STATUS_SMALL).
          - inv_bind Hx0. injection Hx0 as <-.
            destruct (commit_status_frame x1 s) as (_ & ? & ? & _). auto.
          - destruct ((x =? AC_CMD_STATUS_BIG) || (x =? AC_CMD_STATUS_PERIODIC)).
            + inv_bind Hx0. injection Hx0 as <-.
              destruct (commit_status_frame x1 s) as (_ & ? & ? & _). auto.
            + injection Hx0 as <-. auto. }
        destruct G. split; [reflexivity|]. split; [assumption|].
        split; [assumption|]. intros C. contradiction.
      * injection H as <-. simpl. auto.
Qed.

(** C4 (as amended). A parsing step that returns leaves the link state
    machine in [ACSM_SENDING_PACKET] when the frame is a ping with a valid
    checksum (the answer is then sent at once), and in [ACSM_IDLE] in every
    other case: checksum failure, command, info, init and unknown types. *)
Theorem C4_parsing_ends_idle_or_sending (now : Z) (s s' : AirCon) (ok : bool)
  (p : packet_t) :
  _checkCRC (_inPacket s) = Done (ok, p) ->
  _doParsingPacket now s = Done s' ->
  _ac_state s' =
    if ok && (hdr header.packet_type (_inPacket s) =? AC_PTYPE_PING)
    then ACSM_SENDING_PACKET else ACSM_IDLE.
Proof.
  intros Hc H. unfold _doParsingPacket in H. rewrite Hc in H.
  cbn [bind fst snd] in H.
  destruct ok; cbn [negb andb] in *.
  - inv_bind H. injection H as <-.
    apply parse_dispatch_Done in Hx as (Hst & _).
    cbn [_inPacket set_inPacket] in Hst.
    apply _checkCRC_packet in Hc as (Hd & _).
    unfold hdr in *. rewrite Hd in Hst.
    assert (F : engine_frame x x0).
    { destruct (hasSequence x).
      - eapply _doSequence_frame; eauto.
      - injection Hx0 as <-. apply engine_frame_refl. }
    destruct F. simpl. congruence.
  - injection H as <-. reflexivity.
Qed.

(** A parsing step changes the AC state or notifies a change only on a
    checksum-valid info frame, the clamp of the stored target temperature
    by the sequence engine apart. *)
Lemma _doParsingPacket_ac_state (now : Z) (s s' : AirCon) :
  _doParsingPacket now s = Done s' ->
  (crc_valid s /\ hdr header.packet_type (_inPacket s) = AC_PTYPE_INFO) \/
  ((_current_ac_state s' = _current_ac_state s \/
    _current_ac_state s' = clamp_temp_target (_current_ac_state s)) /\
   state_changes s' = state_changes s).
Proof.
  intros H. unfold _doParsingPacket in H. inv_bind H.
  destruct x as [ok p]. cbn [fst snd] in H.
  destruct ok; cbn [negb] in H.
  - destruct (Z.eq_dec (hdr header.packet_type (_inPacket s)) AC_PTYPE_INFO) as [E|E].
    + left. split; [exists p; exact Hx|exact E].
    + right. inv_bind H. injection H as <-.
      apply parse_dispatch_Done in Hx0 as (_ & _ & _ & Hac).
      cbn [_inPacket set_inPacket _current_ac_state set_current_ac_state
           state_changes] in Hac.
      apply _checkCRC_packet in Hx as (Hd & _).
      unfold hdr in *. rewrite Hd in Hac. destruct (Hac E) as [Ha Hn].
      assert (F : engine_frame x x0).
      { destruct (hasSequence x).
        - eapply _doSequence_frame; eauto.
        - injection Hx1 as <-. apply engine_frame_refl. }
      destruct F. simpl in *. split; [|congruence].
      destruct ef_ac0 as [G|G]; rewrite G, Ha; auto.
  - right. injection H as <-. simpl. auto.
Qed.

(** ** Timeouts of the sequence engine *)

Lemma hasSequence_true_not (s : AirCon) :
  hasSequence s = true -> negb (hasSequence s) = false.
Proof. intros ->. reflexivity. Qed.

Lemma put_item_ok (i : nat) (it it' : sequence_item_t) (s : AirCon) :
  _sequence s !! i = Some it ->
  put_item i it' s = Done (set_sequence (<[i := it']> (_sequence s)) s).
Proof.
  intros H. unfold put_item.
  apply lookup_lt_Some in H. apply Nat.ltb_lt in H. rewrite H. reflexivity.
Qed.

Lemma stamped_timeout (now : Z) (it : sequence_item_t) :
  sequence_item_t.timeout (stamped now it) =
  if sequence_item_t.timeout it =? 0
  then AC_SEQUENCE_DEFAULT_TIMEOUT else sequence_item_t.timeout it.
Proof.
  unfold stamped.
  destruct (sequence_item_t.msec it =? 0); cbn;
    destruct (sequence_item_t.timeout it =? 0) eqn:E; cbn; rewrite ?E; reflexivity.
Qed.

Lemma stamped_msec (now : Z) (it : sequence_item_t) :
  sequence_item_t.msec (stamped now it) =
  if sequence_item_t.msec it =? 0 then now else sequence_item_t.msec it.
Proof.
  unfold stamped.
  destruct (sequence_item_t.msec it =? 0) eqn:E; cbn;
    destruct (sequence_item_t.timeout it =? 0); cbn; rewrite ?E; reflexivity.
Qed.

(** How [_doSequence] runs an active function step. *)
Lemma _doSequence_function_step (now : Z) (s : AirCon) (it : sequence_item_t)
  (f : step_function) :
  hasSequence s = true ->
  (_sequence_current_step s < AC_SEQUENCE_MAX_LEN)%nat ->
  _sequence s !! _sequence_current_step s = Some it ->
  sequence_item_t.item_type it = AC_SIT_FUNC ->
  sequence_item_t.func it = Some f ->
  let s1 := set_sequence
              (<[_sequence_current_step s := stamped now it]> (_sequence s)) s in
  _doSequence now s =
  if sequence_item_t.timeout (stamped now it)
       <=? u32 (now - sequence_item_t.msec (stamped now it))
  then Done (_clearSequence s)
  else
    r <- call f now s1 ;;
    if fst r then Done (snd r) else Done (_clearSequence (snd r)).
Proof.
  intros Hhas Hlt Hit Hty Hf s1.
  unfold _doSequence. rewrite Hhas. cbn [negb].
  apply Nat.leb_gt in Hlt. rewrite Hlt.
  unfold seq_item. rewrite Hit. cbn [bind]. rewrite Hty, Hf.
  fold (stamped now it).
  rewrite (put_item_ok _ it) by exact Hit. cbn [bind]. fold s1.
  destruct (_ <=? _); reflexivity.
Qed.

(** C5. For an active function step the effective timeout is the stored
    one, 500 when 0 is stored. Once the time elapsed since the start
    timestamp of the step (the present call, when the step was not yet
    started) reaches the effective timeout, [_doSequence] clears the whole
    sequence, every slot empty and the cursor at 0, and nothing else
    changes, so the operation of the step is not invoked; with 0 stored and
    less than 500 elapsed the operation is invoked, on a step that now
    stores 500. *)
Theorem C5_function_step_timeout (now : Z) (s : AirCon) (it : sequence_item_t)
  (f : step_function) :
  hasSequence s = true ->
  (_sequence_current_step s < AC_SEQUENCE_MAX_LEN)%nat ->
  _sequence s !! _sequence_current_step s = Some it ->
  sequence_item_t.item_type it = AC_SIT_FUNC ->
  sequence_item_t.func it = Some f ->
  let start :=
    if sequence_item_t.msec it =? 0 then now else sequence_item_t.msec it in
  let elapsed := u32 (now - start) in
  let effective :=
    if sequence_item_t.timeout it =? 0 then 500 else sequence_item_t.timeout it in
  (effective <= elapsed ->
   _doSequence now s = Done (_clearSequence s) /\
   _sequence (_clearSequence s) = repeat empty_item AC_SEQUENCE_MAX_LEN /\
   _sequence_current_step (_clearSequence s) = 0%nat /\
   _outPacket (_clearSequence s) = _outPacket s /\
   _current_ac_state (_clearSequence s) = _current_ac_state s) /\
  (sequence_item_t.timeout it = 0 -> elapsed < 500 ->
   let s1 := set_sequence
               (<[_sequence_current_step s := stamped now it]> (_sequence s)) s in
   sequence_item_t.timeout (stamped now it) = 500 /\
   _doSequence now s =
     (r <- call f now s1 ;;
      if fst r then Done (snd r) else Done (_clearSequence (snd r)))).
Proof.
  intros Hhas Hlt Hit Hty Hf start elapsed effective.
  pose proof (_doSequence_function_step now s it f Hhas Hlt Hit Hty Hf) as H.
  cbv zeta in H. rewrite stamped_timeout, stamped_msec in H.
  fold start in H. fold elapsed in H.
  change AC_SEQUENCE_DEFAULT_TIMEOUT with 500 in H. fold effective in H.
  split.
  - intros Hto. apply Z.leb_le in Hto. rewrite Hto in H.
    repeat split; auto.
  - intros H0 Hel s1. split.
    + rewrite stamped_timeout, H0. reflexivity.
    + assert (E : effective = 500) by (unfold effective; rewrite H0; reflexivity).
      rewrite E in H. apply Z.leb_gt in Hel. rewrite Hel in H. exact H.
Qed.

(** ** Pings and the confirm operations *)

Lemma control_prologue_ping (s : AirCon) :
  hdr header.packet_type (_inPacket s) = AC_PTYPE_PING ->
  control_prologue s = Done None.
Proof.
  intros H. unfold control_prologue. rewrite H.
  destruct (bytesLoaded (_inPacket s) =? 0)%nat; reflexivity.
Qed.

Lemma confirm_ping (f : step_function) (now : Z) (s : AirCon) :
  is_confirm f = true ->
  hdr header.packet_type (_inPacket s) = AC_PTYPE_PING ->
  call f now s = Done (true, s).
Proof.
  intros Hf Hp. destruct f; try discriminate; cbn;
    unfold sq_controlSmallStatus, sq_controlBigStatus, sq_control_status,
      sq_controlDoCommand;
    rewrite (control_prologue_ping s Hp); reflexivity.
Qed.

Lemma hasSequence_insert (s : AirCon) (i : nat) (it it' : sequence_item_t) :
  _sequence s !! i = Some it ->
  sequence_item_t.item_type it' = sequence_item_t.item_type it ->
  hasSequence (set_sequence (<[i := it']> (_sequence s)) s) = hasSequence s.
Proof.
  intros Hit Hty. unfold hasSequence. cbn [_sequence set_sequence].
  destruct i as [|i].
  - rewrite list_lookup_insert_eq by (eapply lookup_lt_Some; eauto).
    rewrite Hit, Hty. reflexivity.
  - rewrite list_lookup_insert_ne by lia. reflexivity.
Qed.

Lemma stamped_item_type (now : Z) (it : sequence_item_t) :
  sequence_item_t.item_type (stamped now it) = sequence_item_t.item_type it /\
  sequence_item_t.func (stamped now it) = sequence_item_t.func it.
Proof.
  unfold stamped.
  destruct (sequence_item_t.msec it =? 0); cbn;
    destruct (sequence_item_t.timeout it =? 0); cbn; auto.
Qed.

(** C6. With a ping in the incoming packet each of the three confirm
    operations returns success and leaves the component as it is, the step
    cursor included. So a step of the sequence engine on an active confirm
    step that has not timed out keeps the cursor and the sequence loaded:
    the step is stamped, nothing else changes. *)
Theorem C6_ping_neither_advances_nor_aborts (now : Z) (s : AirCon) :
  hdr header.packet_type (_inPacket s) = AC_PTYPE_PING ->
  sq_controlSmallStatus s = Done (true, s) /\
  sq_controlBigStatus s = Done (true, s) /\
  sq_controlDoCommand s = Done (true, s) /\
  forall (it : sequence_item_t) (f : step_function),
    hasSequence s = true ->
    (_sequence_current_step s < AC_SEQUENCE_MAX_LEN)%nat ->
    _sequence s !! _sequence_current_step s = Some it ->
    sequence_item_t.item_type it = AC_SIT_FUNC ->
    sequence_item_t.func it = Some f ->
    is_confirm f = true ->
    u32 (now - sequence_item_t.msec (stamped now it))
      < sequence_item_t.timeout (stamped now it) ->
    exists s',
      _doSequence now s = Done s' /\
      s' = set_sequence
             (<[_sequence_current_step s := stamped now it]> (_sequence s)) s /\
      _sequence_current_step s' = _sequence_current_step s /\
      hasSequence s' = true.
Proof.
  intros Hp.
  split; [exact (confirm_ping ptr_sq_controlSmallStatus now s eq_refl Hp)|].
  split; [exact (confirm_ping ptr_sq_controlBigStatus now s eq_refl Hp)|].
  split; [exact (confirm_ping ptr_sq_controlDoCommand now s eq_refl Hp)|].
  intros it f Hhas Hlt Hit Hty Hf Hc Hto.
  rewrite (_doSequence_function_step now s it f Hhas Hlt Hit Hty Hf).
  apply Z.leb_gt in Hto. rewrite Hto.
  rewrite confirm_ping by (auto; exact Hp). cbn [bind fst snd].
  eexists. split; [reflexivity|]. split; [reflexivity|]. split; [reflexivity|].
  rewrite (hasSequence_insert s _ it); auto.
  apply stamped_item_type.
Qed.

(** ** Decoding the small status packet *)

Lemma rd_ptr_getb (off i : nat) (d : list Z) :
  (off + i < length d)%nat -> rd_ptr (Some off) i d = Done (getb d (off + i)).
Proof.
  intros H. unfold rd_ptr, rd_at, getb.
  destruct (lookup_lt_is_Some_2 d (off + i) H) as [v Hv].
  rewrite Hv. rewrite (nth_lookup_Some _ _ 0 v Hv). reflexivity.
Qed.

(** The fields a small status packet decodes to, byte by byte. *)
Lemma parse_small_status_fields (p : packet_t) (st : ac_state_t) (off : nat) :
  body p = Some off ->
  (off + 12 < length (data p))%nat ->
  let B := fun i => getb (data p) (off + i) in
  exists changed st',
    parse_small_status p st = Done (changed, st') /\
    temp_target st' =
      (inject_Z (8 + Z.shiftr (B 2%nat) 3)
       + (1 # 2) * inject_Z (Z.shiftr (B 4%nat) 7))%Q /\
    temp_target_matter st' = true /\
    louver_v (louver st') = Z.land (B 2%nat) AC_LOUVERV_MASK /\
    louver_h (louver st') = Z.land (B 3%nat) AC_LOUVERH_MASK /\
    fanSpeed st' = Z.land (B 5%nat) AC_FANSPEED_MASK /\
    fanTurbo st' = Z.land (B 6%nat) AC_FANTURBO_MASK /\
    fanMute st' = Z.land (B 6%nat) AC_FANMUTE_MASK /\
    mode st' = Z.land (B 7%nat) AC_MODE_MASK /\
    sleep st' = Z.land (B 7%nat) AC_SLEEP_MASK /\
    iFeel st' = Z.land (B 7%nat) AC_IFEEL_MASK /\
    power st' = Z.land (B 10%nat) AC_POWER_MASK /\
    health st' = Z.land (B 10%nat) AC_HEALTH_MASK /\
    health_status st' = Z.land (B 10%nat) AC_HEALTH_STATUS_MASK /\
    clean st' = Z.land (B 10%nat) AC_CLEAN_MASK /\
    display st' = Z.land (B 12%nat) AC_DISPLAY_MASK /\
    mildew st' = Z.land (B 12%nat) AC_MILDEW_MASK /\
    temp_ambient st' = temp_ambient st /\
    temp_outdoor st' = temp_outdoor st.
Proof.
  intros Hb Hlen B.
  unfold parse_small_status, status_bits. rewrite Hb.
  unfold small_info.target_temp_int_and_v_louver, small_info.h_louver,
    small_info.target_temp_frac, small_info.fan_speed,
    small_info.fan_turbo_and_mute, small_info.mode, small_info.status,
    small_info.display_and_mildew.
  rewrite !rd_ptr_getb by lia. cbn [bind].
  eexists. eexists. split; [reflexivity|].
  cbn. repeat split.
Qed.

Lemma shiftr_7_high_bit (b : Z) :
  0 <= b < 256 -> Z.testbit b 7 = true -> Z.shiftr b 7 = 1.
Proof.
  intros Hb Ht.
  assert (H : 0 <= Z.shiftr b 7 < 2).
  { rewrite Z.shiftr_div_pow2 by lia. split.
    - apply Z.div_pos; lia.
    - apply Z.div_lt_upper_bound; lia. }
  assert (H0 : Z.testbit (Z.shiftr b 7) 0 = true)
    by (rewrite Z.shiftr_spec by lia; exact Ht).
  assert (E : Z.shiftr b 7 = 0 \/ Z.shiftr b 7 = 1) by lia.
  destruct E as [E|E]; [rewrite E in H0; discriminate|exact E].
Qed.

(** C7. A small status body with byte 2 equal to [0x98] and the high bit
    of byte 4 set decodes to the target temperature 27.5 degrees, which is
    [8 + (byte2 >> 3) + 0.5 * (byte4 >> 7)], and to the vertical louver
    state swing. *)
Theorem C7_small_status_27_5_and_swing (p : packet_t) (st : ac_state_t)
  (off : nat) :
  body p = Some off ->
  (off + 12 < length (data p))%nat ->
  getb (data p) (off + 2) = 0x98 ->
  0 <= getb (data p) (off + 4) < 256 ->
  Z.testbit (getb (data p) (off + 4)) 7 = true ->
  exists changed st',
    parse_small_status p st = Done (changed, st') /\
    (temp_target st' == 55 # 2)%Q /\
    (temp_target st' ==
       inject_Z (8 + Z.shiftr (getb (data p) (off + 2)) 3)
       + (1 # 2) * inject_Z (Z.shiftr (getb (data p) (off + 4)) 7))%Q /\
    temp_target_matter st' = true /\
    louver_v (louver st') = AC_LOUVERV_SWING_UPDOWN.
Proof.
  intros Hb Hlen H2 H4 Hbit.
  destruct (parse_small_status_fields p st off Hb Hlen)
    as (changed & st' & Hp & Ht & Hm & Hv & _).
  cbv beta in Ht, Hv.
  exists changed, st'. split; [exact Hp|].
  rewrite Ht, Hv, H2, (shiftr_7_high_bit _ H4 Hbit).
  repeat split; reflexivity || exact Hm.
Qed.

(** ** The receiving step *)

Lemma receive_byte_msec (b : Z) (p : packet_t) :
  msec (snd (receive_byte b p)) = msec p.
Proof.
  unfold receive_byte.
  destruct (AC_BUFFER_SIZE <=? bytesLoaded p)%nat; [reflexivity|].
  cbn [bytesLoaded set_bytesLoaded set_data].
  destruct (S (bytesLoaded p) =? AC_HEADER_SIZE)%nat.
  - destruct (0 <? _); destruct (_ =? _); reflexivity.
  - destruct (_ =? _); reflexivity.
Qed.

Lemma receive_loop_serial (l : list Z) :
  forall (s : AirCon) (x : list Z),
    receive_loop l (set_ac_serial x s) = receive_loop l s.
Proof.
  induction l as [|a l IH]; intros s x; cbn [receive_loop].
  - reflexivity.
  - cbn [_inPacket set_ac_serial].
    destruct (receive_byte a (_inPacket s)) as [[| |] p]; try reflexivity.
    apply (IH (set_inPacket p s) x).
Qed.

Lemma receive_loop_app (pre l : list Z) :
  forall s : AirCon,
    takes_in pre s ->
    receive_loop (pre ++ l) s = receive_loop l (snd (receive_loop pre s)).
Proof.
  unfold takes_in.
  induction pre as [|a pre IH]; intros s H.
  - cbn [app receive_loop snd]. symmetry. apply receive_loop_serial.
  - cbn [app receive_loop] in *.
    destruct (receive_byte a (_inPacket s)) as [[| |] p];
      cbn [fst] in H; try discriminate.
    apply IH. exact H.
Qed.

Lemma receive_loop_frame (l : list Z) :
  forall s : AirCon,
    takes_in l s ->
    let s' := snd (receive_loop l s) in
    _ac_state s' = _ac_state s /\
    msec (_inPacket s') = msec (_inPacket s) /\
    _ac_serial s' = [].
Proof.
  unfold takes_in.
  induction l as [|a l IH]; intros s H; cbn [receive_loop] in *.
  - cbn. auto.
  - pose proof (receive_byte_msec a (_inPacket s)) as Hm.
    destruct (receive_byte a (_inPacket s)) as [[| |] p];
      cbn [fst] in H; try discriminate.
    destruct (IH _ H) as (A & B & C). cbn [snd] in Hm.
    cbn zeta. cbn [_ac_state set_inPacket _inPacket] in *.
    repeat split; congruence.
Qed.

(** C9 (as amended). In the receiving step, (a) when the bytes read so
    far in this step have filled the incoming buffer to its 34 bytes
    without completing the frame and one more byte is pending, the step
    discards the buffer and returns the machine to [ACSM_IDLE], the pending
    byte left unread; (b) when the input runs out before the frame is
    complete and at least 150 ms have passed since the first byte, the step
    discards the buffer and returns the machine to [ACSM_IDLE]. *)
Theorem C9_overflow_and_timeout_discard (now : Z) (s : AirCon) :
  (forall (pre : list Z) (b : Z) (rest : list Z),
     _ac_serial s = pre ++ b :: rest ->
     takes_in pre s ->
     (AC_BUFFER_SIZE <= bytesLoaded (_inPacket (snd (receive_loop pre s))))%nat ->
     let s' := _doReceivingPacketState now s in
     _ac_state s' = ACSM_IDLE /\ _inPacket s' = _clearPacket /\
     _ac_serial s' = b :: rest) /\
  (takes_in (_ac_serial s) s ->
   AC_PACKET_TIMEOUT <= u32 (now - msec (_inPacket s)) ->
   let s' := _doReceivingPacketState now s in
   _ac_state s' = ACSM_IDLE /\ _inPacket s' = _clearPacket /\
   _ac_serial s' = []).
Proof.
  split.
  - intros pre b rest Hs Hpre Hfull s'. subst s'.
    unfold _doReceivingPacketState. rewrite Hs.
    rewrite (receive_loop_app pre (b :: rest) s Hpre).
    cbn [receive_loop]. unfold receive_byte.
    apply Nat.leb_le in Hfull. rewrite Hfull. cbn. auto.
  - intros Hin Hto s'. subst s'.
    unfold _doReceivingPacketState. rewrite Hin.
    destruct (receive_loop_frame _ s Hin) as (_ & Hm & Hser).
    cbv zeta in Hm, Hser. rewrite Hm.
    apply Z.leb_le in Hto. rewrite Hto. cbn. auto.
Qed.

(** When the receiving step hands over to parsing, the packet holds
    exactly header, announced body and checksum, and the announced body has
    at most 24 bytes. *)
Lemma receive_byte_complete (b : Z) (p p' : packet_t) :
  receive_byte b p = (round_complete, p') ->
  (bytesLoaded p' <= AC_BUFFER_SIZE)%nat /\
  Z.of_nat (bytesLoaded p')
    = Z.of_nat AC_HEADER_SIZE + hdr header.body_length p' + 2.
Proof.
  unfold receive_byte.
  destruct (AC_BUFFER_SIZE <=? bytesLoaded p)%nat eqn:E; [discriminate|].
  apply Nat.leb_gt in E.
  match goal with
  | |- (if ?c then _ else _) = _ -> _ => destruct c eqn:C; [|discriminate]
  end.
  intros H. injection H as <-. apply Z.eqb_eq in C.
  split; [|exact C].
  unfold AC_BUFFER_SIZE in *.
  clear C.
  repeat match goal with
         | |- context [if ?c then _ else _] => destruct c
         end; cbn; lia.
Qed.

Lemma receive_loop_parsing (l : list Z) :
  forall s : AirCon,
    _ac_state s <> ACSM_PARSING_PACKET ->
    _ac_state (snd (receive_loop l s)) = ACSM_PARSING_PACKET ->
    let p := _inPacket (snd (receive_loop l s)) in
    (bytesLoaded p <= AC_BUFFER_SIZE)%nat /\
    Z.of_nat (bytesLoaded p)
      = Z.of_nat AC_HEADER_SIZE + hdr header.body_length p + 2.
Proof.
  induction l as [|a l IH]; intros s Hs H; cbn [receive_loop] in *.
  - cbn in H. contradiction.
  - destruct (receive_byte a (_inPacket s)) as [[| |] p] eqn:E.
    + cbn in H. discriminate.
    + cbn. eapply receive_byte_complete; eauto.
    + apply IH; auto.
Qed.

Lemma receiving_hands_over_whole_frame (now : Z) (s : AirCon) :
  _ac_state s = ACSM_RECEIVING_PACKET ->
  let s' := _doReceivingPacketState now s in
  _ac_state s' = ACSM_PARSING_PACKET ->
  let p := _inPacket s' in
  Z.of_nat (bytesLoaded p)
    = Z.of_nat AC_HEADER_SIZE + hdr header.body_length p + 2 /\
  (bytesLoaded p <= AC_BUFFER_SIZE)%nat /\
  hdr header.body_length p <= Z.of_nat AC_MAX_BODY_SIZE.
Proof.
  intros Hs s' H p. subst p s'. unfold _doReceivingPacketState in *.
  assert (Hn : _ac_state s <> ACSM_PARSING_PACKET) by congruence.
  pose proof (receive_loop_parsing (_ac_serial s) s Hn) as L.
  destruct (fst (receive_loop (_ac_serial s) s)) eqn:F.
  - destruct (L H) as (A & B). unfold AC_BUFFER_SIZE, AC_HEADER_SIZE,
      AC_MAX_BODY_SIZE in *. lia.
  - destruct (receive_loop_frame _ s F) as (A & _).
    destruct (_ <=? _); cbn in H; [discriminate|]. congruence.
Qed.

(** ** Loading a command transaction *)

(** C3 (what the code does). With a sequence loaded, [commandSequence]
    never turns the request down and never appends: it writes the six
    steps of the command transaction over slots 0 to 5, whatever they
    held, and leaves slots 6 to 14 and the cursor as they were. *)
Theorem C3_commandSequence_overwrites_slots_0_to_5 (cmd : ac_command_t)
  (s : AirCon) :
  hasSequence s = true ->
  length (_sequence s) = AC_SEQUENCE_MAX_LEN ->
  exists s',
    commandSequence cmd s = Done (Some s') /\
    map step_kind (firstn 6 (_sequence s')) = command_transaction /\
    (exists it, _sequence s' !! 2%nat = Some it /\ sequence_item_t.cmd it = cmd) /\
    skipn 6 (_sequence s') = skipn 6 (_sequence s) /\
    length (_sequence s') = AC_SEQUENCE_MAX_LEN /\
    _sequence_current_step s' = _sequence_current_step s.
Proof.
  intros Hhas Hlen.
  unfold commandSequence. rewrite Hhas. cbn [andb].
  destruct s as [st ac ser tx inp outp l cur su ch]. cbn [_sequence] in *.
  do 15 (destruct l as [|? l]; [discriminate|]).
  destruct l; [|discriminate].
  unfold hasSequence in Hhas. cbn in Hhas.
  assert (E : first_loaded_slot 0
                (firstn AC_SEQUENCE_MAX_LEN
                   [t; t0; t1; t2; t3; t4; t5; t6; t7; t8; t9; t10; t11; t12; t13])
              = 0%nat).
  { cbn. destruct (sequence_item_t.item_type t); [discriminate| |]; reflexivity. }
  cbn [_sequence]. rewrite E.
  eexists. split; [reflexivity|].
  cbn. repeat split. eexists. split; reflexivity.
Qed.

Lemma C3_witness :
  exists s',
    commandSequence power_on_command startup_loaded = Done (Some s') /\
    map step_kind (firstn 6 (_sequence s')) = command_transaction /\
    (exists it, _sequence s' !! 2%nat = Some it /\
                sequence_item_t.cmd it = power_on_command) /\
    skipn 6 (_sequence s') = skipn 6 (_sequence startup_loaded) /\
    length (_sequence s') = AC_SEQUENCE_MAX_LEN /\
    _sequence_current_step s' = _sequence_current_step startup_loaded.
Proof.
  apply (C3_commandSequence_overwrites_slots_0_to_5 power_on_command startup_loaded).
  - reflexivity.
  - reflexivity.
Defined.

(** The startup transaction (request and confirm small status, request and
    confirm big status) is loaded; a command arrives. Slots 2 and 3 lose the
    big status steps, nothing is appended behind slot 3. *)
Lemma C3_startup_sequence_overwritten :
  map step_kind (firstn 4 (_sequence startup_loaded)) =
    [ (AC_SIT_FUNC, Some ptr_sq_requestSmallStatus);
      (AC_SIT_FUNC, Some ptr_sq_controlSmallStatus);
      (AC_SIT_FUNC, Some ptr_sq_requestBigStatus);
      (AC_SIT_FUNC, Some ptr_sq_controlBigStatus) ] /\
  exists s',
    commandSequence power_on_command startup_loaded = Done (Some s') /\
    map step_kind (firstn 7 (_sequence s')) =
      command_transaction ++ [(AC_SIT_NONE, None)].
Proof.
  split; [reflexivity|].
  eexists. split; reflexivity.
Qed.

(** ** An info frame without body *)

(** C10 (failing input). The frame [BB 00 07 00 00 00 00 00 3D FF] is an
    info frame that announces an empty body and carries a correct
    checksum. The receiving step hands it to parsing with 10 bytes loaded
    and the body pointer still null; the parsing step then reads
    [body[1]] through that null pointer. *)
Theorem C10_info_frame_with_empty_body_faults :
  let frame := [0xBB; 0; 7; 0; 0; 0; 0; 0; 0x3D; 0xFF] in
  exists s,
    ticks 2 100 1 (set_ac_serial frame initAC) = Done s /\
    _ac_state s = ACSM_PARSING_PACKET /\
    bytesLoaded (_inPacket s) = 10%nat /\
    hdr header.body_length (_inPacket s) = 0 /\
    body (_inPacket s) = None /\
    _checkCRC (_inPacket s) = Done (true, _inPacket s) /\
    _doParsingPacket 102 s = Fault /\
    ticks 3 100 1 (set_ac_serial frame initAC) = Fault.
Proof.
  eexists. split; [vm_compute; reflexivity|].
  vm_compute. repeat split.
Qed.

(** ** Who changes the AC state *)

Lemma receive_loop_ac (l : list Z) :
  forall s : AirCon,
    _current_ac_state (snd (receive_loop l s)) = _current_ac_state s /\
    state_changes (snd (receive_loop l s)) = state_changes s.
Proof.
  induction l as [|b l IH]; intros s; cbn [receive_loop].
  - split; reflexivity.
  - destruct (receive_byte b (_inPacket s)) as [[| |] p]; cbn [snd].
    + split; reflexivity.
    + split; reflexivity.
    + apply (IH (set_inPacket p s)).
Qed.

Lemma _doReceivingPacketState_ac (now : Z) (s : AirCon) :
  _current_ac_state (_doReceivingPacketState now s) = _current_ac_state s /\
  state_changes (_doReceivingPacketState now s) = state_changes s.
Proof.
  unfold _doReceivingPacketState.
  pose proof (receive_loop_ac (_ac_serial s) s) as H.
  destruct (fst (receive_loop (_ac_serial s) s)); [exact H|].
  destruct (_ <=? _); exact H.
Qed.

Lemma idle_drain_ac (l : list Z) :
  forall s : AirCon,
    _current_ac_state (idle_drain l s) = _current_ac_state s /\
    state_changes (idle_drain l s) = state_changes s.
Proof.
  induction l as [|b l IH]; intros s; cbn [idle_drain].
  - split; reflexivity.
  - destruct (b =? AC_PACKET_START_BYTE); [split; reflexivity|].
    cbv zeta. match goal with |- context [idle_drain l ?x] => apply (IH x) end.
Qed.

Lemma _doIdleState_ac (now : Z) (s s' : AirCon) :
  _doIdleState now s = Done s' ->
  (_current_ac_state s' = _current_ac_state s \/
   _current_ac_state s' = clamp_temp_target (_current_ac_state s)) /\
  state_changes s' = state_changes s.
Proof.
  unfold _doIdleState. intros H. inv_bind H.
  apply _doSequence_frame in Hx. destruct Hx.
  assert (E : _current_ac_state s' = _current_ac_state x /\
              state_changes s' = state_changes x).
  { destruct (_ac_serial x) as [|b l].
    - destruct (0 <? _); injection H as <-; split; reflexivity.
    - destruct (b =? AC_PACKET_START_BYTE).
      + injection H as <-. split; reflexivity.
      + assert (E : s' = idle_drain (b :: l) x) by congruence.
        rewrite E. apply idle_drain_ac. }
  destruct E as [E1 E2]. rewrite E1, E2. auto.
Qed.

Lemma _doSendingPacketState_ac (s : AirCon) :
  _current_ac_state (_doSendingPacketState s) = _current_ac_state s /\
  state_changes (_doSendingPacketState s) = state_changes s.
Proof.
  unfold _doSendingPacketState. destruct (_ || _); split; reflexivity.
Qed.

(** C8 (as amended). A frame whose checksum does not match is discarded
    by the parsing step: the incoming packet is cleared, the machine is
    idle, and the AC state, the notification count and everything else
    stay as they were. In any pass of the state machine the AC state
    changes, or a state change is notified, only when a checksum-valid
    info frame is parsed; the one other change is the clamp of the stored
    target temperature into 16..32 by the encoder of the set command. *)
Theorem C8_bad_checksum_discarded_state_kept (now : Z) (s : AirCon) :
  (forall p : packet_t,
     _checkCRC (_inPacket s) = Done (false, p) ->
     _doParsingPacket now s
       = Done (_setStateMachineState ACSM_IDLE (_clearInPacket s)) /\
     _current_ac_state (_setStateMachineState ACSM_IDLE (_clearInPacket s))
       = _current_ac_state s /\
     state_changes (_setStateMachineState ACSM_IDLE (_clearInPacket s))
       = state_changes s /\
     _inPacket (_setStateMachineState ACSM_IDLE (_clearInPacket s))
       = _clearPacket) /\
  (forall s' : AirCon,
     loop_switch now s = Done s' ->
     (_ac_state s = ACSM_PARSING_PACKET /\ crc_valid s /\
      hdr header.packet_type (_inPacket s) = AC_PTYPE_INFO) \/
     ((_current_ac_state s' = _current_ac_state s \/
       _current_ac_state s' = clamp_temp_target (_current_ac_state s)) /\
      state_changes s' = state_changes s)).
Proof.
  split.
  - intros p Hc. unfold _doParsingPacket. rewrite Hc. cbn [bind fst snd negb].
    repeat split.
  - intros s' H. unfold loop_switch in H.
    destruct (_ac_state s) eqn:St.
    + right. eapply _doIdleState_ac; eauto.
    + right. injection H as <-.
      destruct (_doReceivingPacketState_ac now s) as [A B]. auto.
    + destruct (_doParsingPacket_ac_state now s s' H) as [[A B]|C]; auto.
    + right. injection H as <-.
      destruct (_doSendingPacketState_ac s) as [A B]. auto.
Qed.

(** ** Bytes under the masked writes of the encoder *)

Section MaskedBytes.

Lemma testbit_byte_high (b n : Z) :
  0 <= b < 256 -> 8 <= n -> Z.testbit b n = false.
Proof.
  intros Hb Hn. destruct (Z.eq_dec b 0) as [->|Hz].
  - apply Z.testbit_0_l.
  - apply Z.bits_above_log2; [lia|].
    apply Z.log2_lt_pow2; [lia|].
    apply Z.lt_le_trans with (2 ^ 8); [lia|].
    apply Z.pow_le_mono_r; lia.
Qed.

Lemma masked_testbit (m v b n : Z) :
  0 <= n ->
  Z.testbit (masked m v b) n =
  (n <? 8) && ((Z.testbit b n && negb (Z.testbit m n)) || Z.testbit v n).
Proof.
  intros Hn. unfold masked, u8. change 256 with (2 ^ 8).
  rewrite <- Z.land_ones by lia.
  rewrite Z.land_spec, Z.lor_spec, Z.land_spec, Z.lnot_spec by lia.
  rewrite Z.testbit_ones_nonneg by lia.
  apply andb_comm.
Qed.

Lemma masked_byte (m v b : Z) : 0 <= masked m v b < 256.
Proof. unfold masked, u8. apply Z.mod_pos_bound. lia. Qed.

Lemma field_bits (m v n : Z) :
  Z.land v m = v -> Z.testbit v n = Z.testbit v n && Z.testbit m n.
Proof. intros H. rewrite <- H at 1. apply Z.land_spec. Qed.

(** Reading a field back through its own mask gives the value written. *)
Lemma masked_hit (m v b : Z) :
  0 <= m < 256 -> 0 <= v -> Z.land v m = v ->
  Z.land (masked m v b) m = v.
Proof.
  intros Hm Hv Hvm. apply Z.bits_inj'. intros n Hn.
  rewrite Z.land_spec, masked_testbit by lia.
  rewrite (field_bits m v n Hvm).
  destruct (Z.ltb_spec n 8) as [L|L].
  - destruct (Z.testbit b n), (Z.testbit m n), (Z.testbit v n); reflexivity.
  - rewrite (testbit_byte_high m n Hm L), !andb_false_r. reflexivity.
Qed.

(** Reading through a mask disjoint from the written one gives what was
    there before. *)
Lemma masked_miss (m m' v b : Z) :
  0 <= b < 256 -> Z.land m m' = 0 -> Z.land v m = v ->
  Z.land (masked m v b) m' = Z.land b m'.
Proof.
  intros Hb Hd Hvm. apply Z.bits_inj'. intros n Hn.
  rewrite !Z.land_spec, masked_testbit by lia.
  rewrite (field_bits m v n Hvm).
  assert (D : Z.testbit m n && Z.testbit m' n = false)
    by (rewrite <- Z.land_spec, Hd; apply Z.testbit_0_l).
  destruct (Z.ltb_spec n 8) as [L|L].
  - destruct (Z.testbit b n), (Z.testbit m n), (Z.testbit m' n),
      (Z.testbit v n); try reflexivity; discriminate.
  - rewrite (testbit_byte_high b n Hb L). reflexivity.
Qed.

Lemma overlaid_byte (m v u b : Z) :
  0 <= b < 256 -> 0 <= overlaid m v u b < 256.
Proof.
  intros Hb. unfold overlaid. destruct (v =? u); [exact Hb|apply masked_byte].
Qed.

Lemma overlaid_hit (m v b : Z) :
  0 <= m < 256 -> field_ok m v ->
  Z.land (overlaid m v 0xFF b) m = if v =? 0xFF then Z.land b m else v.
Proof.
  intros Hm Hv. unfold overlaid.
  destruct (Z.eqb_spec v 0xFF) as [E|E]; [reflexivity|].
  destruct Hv as [Hv|[Hv0 Hv]]; [contradiction|].
  apply masked_hit; assumption.
Qed.

Lemma overlaid_miss (m m' v b : Z) :
  0 <= b < 256 -> Z.land m m' = 0 -> field_ok m v ->
  Z.land (overlaid m v 0xFF b) m' = Z.land b m'.
Proof.
  intros Hb Hd Hv. unfold overlaid.
  destruct (Z.eqb_spec v 0xFF) as [E|E]; [reflexivity|].
  destruct Hv as [Hv|[Hv0 Hv]]; [contradiction|].
  apply masked_miss; assumption.
Qed.

End MaskedBytes.

(** ** The encoder of the set command, byte by byte *)

Section Encoder.

Lemma ready_upd (i : nat) (f : Z -> Z) (p : packet_t) :
  ready p -> ready (upd i f p).
Proof.
  intros [Hb Hl]. split; [exact Hb|].
  unfold upd. cbn [data set_data]. rewrite length_insert. exact Hl.
Qed.

Lemma ready_set_bytesLoaded (n : nat) (p : packet_t) :
  ready p -> ready (set_bytesLoaded n p).
Proof. intros [Hb Hl]. split; assumption. Qed.

Lemma ready_set_crc (c : option nat) (p : packet_t) :
  ready p -> ready (set_crc c p).
Proof. intros [Hb Hl]. split; assumption. Qed.

Lemma getb_upd (i j : nat) (f : Z -> Z) (p : packet_t) :
  ready p -> (i < AC_BUFFER_SIZE)%nat ->
  getb (data (upd i f p)) j =
  if (i =? j)%nat then f (getb (data p) i) else getb (data p) j.
Proof.
  intros [_ Hl] Hi. unfold upd. cbn [data set_data].
  destruct (Nat.eqb_spec i j) as [<-|N].
  - apply getb_insert_eq. lia.
  - apply getb_insert_ne. exact N.
Qed.

Lemma set_body_byte_upd (i : nat) (v : Z) (p : packet_t) :
  ready p -> (i < 26)%nat ->
  set_body_byte i v p = Done (upd (AC_HEADER_SIZE + i) (fun _ => v) p).
Proof.
  intros [Hb Hl] Hi. unfold set_body_byte, wr_ptr, wr_at. rewrite Hb, Hl.
  destruct (AC_HEADER_SIZE + i <? AC_BUFFER_SIZE)%nat eqn:E;
    [reflexivity|].
  apply Nat.ltb_ge in E. unfold AC_HEADER_SIZE, AC_BUFFER_SIZE in E. lia.
Qed.

Lemma mask_body_byte_upd (i : nat) (m v : Z) (p : packet_t) :
  ready p -> (i < 26)%nat ->
  mask_body_byte i m v p = Done (upd (AC_HEADER_SIZE + i) (masked m v) p).
Proof.
  intros R Hi. unfold mask_body_byte.
  destruct R as [Hb Hl]. rewrite Hb.
  rewrite rd_ptr_getb
    by (rewrite Hl; unfold AC_HEADER_SIZE, AC_BUFFER_SIZE; lia).
  cbn [bind]. rewrite set_body_byte_upd by first [split; assumption | lia].
  reflexivity.
Qed.

Lemma upd_id (i : nat) (p : packet_t) :
  (i < length (data p))%nat -> upd i (fun b => b) p = p.
Proof.
  intros Hi. unfold upd.
  rewrite list_insert_id.
  - destruct p; reflexivity.
  - unfold getb. destruct (lookup_lt_is_Some_2 _ _ Hi) as [v Hv].
    rewrite (nth_lookup_Some _ _ 0 v Hv). exact Hv.
Qed.

Lemma overlay_upd (i : nat) (m v u : Z) (p : packet_t) :
  ready p -> (i < 26)%nat ->
  overlay i m v u p = Done (upd (AC_HEADER_SIZE + i) (overlaid m v u) p).
Proof.
  intros R Hi. unfold overlay, overlaid.
  destruct (v =? u).
  - rewrite upd_id; [reflexivity|].
    destruct R as [_ ->]. unfold AC_HEADER_SIZE, AC_BUFFER_SIZE. lia.
  - apply mask_body_byte_upd; assumption.
Qed.

Lemma if_mask_body_byte (c : bool) (i : nat) (m x y : Z) (p : packet_t) :
  (if c then mask_body_byte i m x p else mask_body_byte i m y p)
  = mask_body_byte i m (if c then x else y) p.
Proof. destruct c; reflexivity. Qed.

(** The clamp touches the temperature only. *)
Lemma clamp_temp_target_fields (c : ac_command_t) :
  let c' := clamp_temp_target c in
  power c' = power c /\ clean c' = clean c /\ health c' = health c /\
  health_status c' = health_status c /\ mode c' = mode c /\
  sleep c' = sleep c /\ iFeel c' = iFeel c /\ louver c' = louver c /\
  fanSpeed c' = fanSpeed c /\ fanTurbo c' = fanTurbo c /\
  fanMute c' = fanMute c /\ display c' = display c /\ mildew c' = mildew c /\
  temp_target_matter c' = temp_target_matter c.
Proof.
  unfold clamp_temp_target.
  destruct (Qlt_bool (temp_target c) _); cbn;
    destruct (Qlt_bool _ _); cbn; repeat split.
Qed.

Lemma command_header_ready (now : Z) (p : packet_t) :
  length (data p) = AC_BUFFER_SIZE ->
  ready (command_header now p) /\
  hdr header.body_length (command_header now p) = 15 /\
  forall k, (AC_HEADER_SIZE <= k)%nat ->
            getb (data (command_header now p)) k = getb (data p) k.
Proof.
  intros Hl. unfold command_header, set_hdr, setb, hdr, ready.
  cbn [data set_data set_body set_msec body].
  unfold AC_HEADER_SIZE, AC_BUFFER_SIZE in *.
  split; [split; [reflexivity|rewrite !length_insert; exact Hl]|].
  split.
  - apply getb_insert_eq. rewrite !length_insert, Hl.
    unfold header.body_length. lia.
  - intros k Hk.
    unfold header.body_length, header.packet_type, header.wifi,
      header.start_byte.
    rewrite !getb_insert_ne by lia. reflexivity.
Qed.

End Encoder.

Section EncoderBytes.

Ltac ready_tac :=
  repeat lazymatch goal with
         | |- ready (upd _ _ _) => apply ready_upd
         | |- ready (set_bytesLoaded _ _) => apply ready_set_bytesLoaded
         | |- ready (set_crc _ _) => apply ready_set_crc
         end;
  assumption.

Ltac upd_side :=
  first [ ready_tac | unfold AC_BUFFER_SIZE, AC_HEADER_SIZE; lia ].

Lemma data_set_crc (c : option nat) (p : packet_t) :
  data (set_crc c p) = data p.
Proof. reflexivity. Qed.

Lemma data_set_bytesLoaded (n : nat) (p : packet_t) :
  data (set_bytesLoaded n p) = data p.
Proof. reflexivity. Qed.

Lemma data_set_data (d : list Z) (p : packet_t) : data (set_data d p) = d.
Proof. reflexivity. Qed.

Lemma body_set_data (d : list Z) (p : packet_t) :
  body (set_data d p) = body p.
Proof. reflexivity. Qed.

Lemma body_set_crc (c : option nat) (p : packet_t) :
  body (set_crc c p) = body p.
Proof. reflexivity. Qed.

Lemma crc_set_crc (c : option nat) (p : packet_t) : crc (set_crc c p) = c.
Proof. reflexivity. Qed.

Lemma getb_upd_other (i j : nat) (f : Z -> Z) (p : packet_t) :
  i <> j -> getb (data (upd i f p)) j = getb (data p) j.
Proof. intros N. unfold upd. rewrite data_set_data. apply getb_insert_ne, N. Qed.

Lemma getb_upd_same (i : nat) (f : Z -> Z) (p : packet_t) :
  ready p -> (i < AC_BUFFER_SIZE)%nat ->
  getb (data (upd i f p)) i = f (getb (data p) i).
Proof.
  intros [_ Hl] Hi. unfold upd. rewrite data_set_data.
  apply getb_insert_eq. lia.
Qed.

Ltac read_cell :=
  repeat first
    [ rewrite data_set_crc
    | rewrite data_set_bytesLoaded
    | rewrite data_set_data
    | rewrite getb_insert_ne by (unfold AC_HEADER_SIZE; lia)
    | rewrite getb_upd_other
        by (unfold AC_HEADER_SIZE, header.body_length; lia)
    | rewrite getb_upd_same by upd_side ].

(** The body bytes [fill_from_command] leaves, in terms of those it
    found. *)
Lemma fill_from_command_bytes (now : Z) (c : ac_command_t) (p : packet_t) :
  length (data p) = AC_BUFFER_SIZE ->
  let c' := if temp_target_matter c then clamp_temp_target c else c in
  let T := temp_target c' in
  let B := fun k => getb (data p) (AC_HEADER_SIZE + k) in
  exists p',
    fill_from_command now c p = Done (p', c') /\
    ready p' /\
    let B' := fun k => getb (data p') (AC_HEADER_SIZE + k) in
    B' 2%nat =
      overlaid AC_LOUVERV_MASK (louver_v (louver c)) AC_LOUVERV_UNTOUCHED
        (if temp_target_matter c
         then masked AC_TEMP_TARGET_INT_PART_MASK
                (Z.shiftl (temp_int T - 8) 3) (B 2%nat)
         else B 2%nat) /\
    B' 3%nat =
      overlaid AC_LOUVERH_MASK (louver_h (louver c)) AC_LOUVERH_UNTOUCHED
        (B 3%nat) /\
    B' 4%nat =
      (if temp_target_matter c
       then masked AC_TEMP_TARGET_FRAC_PART_MASK
              (if Qlt_bool 0 (T - inject_Z (temp_int T)) then 1 else 0)
              (B 4%nat)
       else B 4%nat) /\
    B' 5%nat =
      overlaid AC_FANSPEED_MASK (fanSpeed c) AC_FANSPEED_UNTOUCHED (B 5%nat) /\
    B' 6%nat =
      overlaid AC_FANMUTE_MASK (fanMute c) AC_FANMUTE_UNTOUCHED
        (overlaid AC_FANTURBO_MASK (fanTurbo c) AC_FANTURBO_UNTOUCHED
           (B 6%nat)) /\
    B' 7%nat =
      overlaid AC_IFEEL_MASK (iFeel c) AC_IFEEL_UNTOUCHED
        (overlaid AC_SLEEP_MASK (sleep c) AC_SLEEP_UNTOUCHED
           (overlaid AC_MODE_MASK (mode c) AC_MODE_UNTOUCHED (B 7%nat))) /\
    B' 10%nat =
      overlaid AC_HEALTH_MASK (health c) AC_HEALTH_UNTOUCHED
        (overlaid AC_CLEAN_MASK (clean c) AC_CLEAN_UNTOUCHED
           (overlaid AC_POWER_MASK (power c) AC_POWER_UNTOUCHED (B 10%nat))) /\
    B' 12%nat =
      overlaid AC_MILDEW_MASK (mildew c) AC_MILDEW_UNTOUCHED
        (overlaid AC_DISPLAY_MASK (display c) AC_DISPLAY_UNTOUCHED
           (B 12%nat)).
Proof.
  intros Hl c' T B.
  destruct (command_header_ready now p Hl) as (R0 & H6 & HB).
  unfold fill_from_command. fold (command_header now p).
  set (P0 := command_header now p) in *. clearbody P0.
  cbv zeta.
  rewrite (set_body_byte_upd 0 _ P0) by upd_side. cbn [bind].
  rewrite set_body_byte_upd by upd_side. cbn [bind].
  set (P1 := set_bytesLoaded _ _).
  assert (R1 : ready P1) by (subst P1; ready_tac).
  assert (r :
    (if temp_target_matter c
     then
       pack <- mask_body_byte small_info.target_temp_int_and_v_louver
                 AC_TEMP_TARGET_INT_PART_MASK
                 (Z.shiftl (temp_int (temp_target (clamp_temp_target c)) - 8) 3)
                 P1 ;;
       pack0 <- (if Qlt_bool 0
                      (temp_target (clamp_temp_target c)
                       - inject_Z (temp_int (temp_target (clamp_temp_target c))))
                 then mask_body_byte small_info.target_temp_frac
                        AC_TEMP_TARGET_FRAC_PART_MASK 1 pack
                 else mask_body_byte small_info.target_temp_frac
                        AC_TEMP_TARGET_FRAC_PART_MASK 0 pack) ;;
       Done (pack0, clamp_temp_target c)
     else Done (P1, c))
    = Done
        (upd (AC_HEADER_SIZE + 4)
           (fun b => if temp_target_matter c
                     then masked AC_TEMP_TARGET_FRAC_PART_MASK
                            (if Qlt_bool 0 (T - inject_Z (temp_int T))
                             then 1 else 0) b
                     else b)
           (upd (AC_HEADER_SIZE + 2)
              (fun b => if temp_target_matter c
                        then masked AC_TEMP_TARGET_INT_PART_MASK
                               (Z.shiftl (temp_int T - 8) 3) b
                        else b) P1), c')).
  { subst c' T. destruct (temp_target_matter c).
    - unfold small_info.target_temp_int_and_v_louver,
        small_info.target_temp_frac.
      rewrite mask_body_byte_upd by upd_side. cbn [bind].
      rewrite if_mask_body_byte.
      rewrite mask_body_byte_upd by upd_side. cbn [bind]. reflexivity.
    - destruct R1 as [_ Hl1].
      rewrite !upd_id; [reflexivity| |];
        unfold upd; cbn [data set_data]; rewrite ?length_insert, Hl1;
        unfold AC_HEADER_SIZE, AC_BUFFER_SIZE; lia. }
  rewrite r. clear r. cbn [bind fst snd].
  assert (Ec : louver c' = louver c /\ fanSpeed c' = fanSpeed c /\
               fanTurbo c' = fanTurbo c /\ fanMute c' = fanMute c /\
               mode c' = mode c /\ sleep c' = sleep c /\ iFeel c' = iFeel c /\
               power c' = power c /\ clean c' = clean c /\
               health c' = health c /\ display c' = display c /\
               mildew c' = mildew c).
  { subst c'. destruct (temp_target_matter c); [|repeat split].
    pose proof (clamp_temp_target_fields c) as F. cbv zeta in F.
    repeat split; apply F. }
  destruct Ec as (E1 & E2 & E3 & E4 & E5 & E6 & E7 & E8 & E9 & E10 & E11 & E12).
  rewrite E1, E2, E3, E4, E5, E6, E7, E8, E9, E10, E11, E12.
  unfold small_info.target_temp_int_and_v_louver, small_info.h_louver,
    small_info.fan_speed, small_info.fan_turbo_and_mute, small_info.mode,
    small_info.status, small_info.display_and_mildew.
  do 13 (rewrite overlay_upd by upd_side; cbn [bind]).
  match goal with
  | |- context [_setCRC16 ?q] => set (Q := q)
  end.
  assert (RQ : ready Q) by (subst Q; ready_tac).
  assert (HQ6 : hdr header.body_length Q = Z.of_nat 15).
  { subst Q. unfold hdr, header.body_length. read_cell.
    subst P1. read_cell. exact H6. }
  assert (HQc : crc Q = Some (AC_HEADER_SIZE + 15)%nat).
  { subst Q. rewrite crc_set_crc. f_equal.
    match goal with
    | |- crc_offset ?x = _ =>
        assert (Hx : hdr header.body_length x = 15);
        [|unfold crc_offset; rewrite Hx; reflexivity]
    end.
    unfold hdr, header.body_length. read_cell. subst P1. read_cell. exact H6. }
  rewrite (_setCRC16_bytes Q 15)
    by (first [ unfold AC_MAX_BODY_SIZE; lia | exact (proj2 RQ) | exact HQ6
              | right; exact HQc ]).
  cbn [bind].
  eexists. split; [reflexivity|].
  destruct RQ as [RQb RQl].
  split.
  { split; [rewrite body_set_data, body_set_crc; exact RQb|].
    rewrite data_set_data, !length_insert. exact RQl. }
  cbv zeta beta.
  subst Q. unfold B.
  repeat split; read_cell; subst P1; read_cell;
    rewrite ?HB by (unfold AC_HEADER_SIZE; lia); reflexivity.
Qed.

End EncoderBytes.

(** ** Temperatures *)

Section Temperatures.

Lemma Qlt_bool_true (a b : Q) : Qlt_bool a b = true <-> (a < b)%Q.
Proof.
  unfold Qlt_bool. rewrite negb_true_iff. split.
  - intros H. apply Qnot_le_lt. intros L.
    apply Qle_bool_iff in L. congruence.
  - intros H. destruct (Qle_bool b a) eqn:E; [|reflexivity].
    apply Qle_bool_iff in E. exfalso. exact (Qlt_not_le _ _ H E).
Qed.

Lemma Qlt_bool_false (a b : Q) : Qlt_bool a b = false <-> (b <= a)%Q.
Proof.
  unfold Qlt_bool. rewrite negb_false_iff. apply Qle_bool_iff.
Qed.

(** The clamp on a whole number of degrees. *)
Lemma clamp_temp_target_whole (c : ac_command_t) (n : Z) :
  (temp_target c == inject_Z n)%Q ->
  (temp_target (clamp_temp_target c) == inject_Z (clampZ n))%Q.
Proof.
  intros H. unfold clamp_temp_target, clampZ.
  change (inject_Z AC_MIN_TEMPERATURE) with (inject_Z 16).
  change (inject_Z AC_MAX_TEMPERATURE) with (inject_Z 32).
  destruct (Qlt_bool (temp_target c) (inject_Z 16)) eqn:A.
  - apply Qlt_bool_true in A. rewrite H in A. rewrite <- Zlt_Qlt in A.
    cbn [temp_target set_temp_target].
    replace (Qlt_bool (inject_Z 32) (inject_Z 16)) with false by reflexivity.
    cbn [temp_target set_temp_target].
    replace (Z.max 16 (Z.min 32 n)) with 16 by lia. reflexivity.
  - apply Qlt_bool_false in A. rewrite H in A. rewrite <- Zle_Qle in A.
    destruct (Qlt_bool (inject_Z 32) (temp_target c)) eqn:B.
    + apply Qlt_bool_true in B. rewrite H in B. rewrite <- Zlt_Qlt in B.
      cbn [temp_target set_temp_target].
      replace (Z.max 16 (Z.min 32 n)) with 32 by lia. reflexivity.
    + apply Qlt_bool_false in B. rewrite H in B. rewrite <- Zle_Qle in B.
      replace (Z.max 16 (Z.min 32 n)) with n by lia. exact H.
Qed.

(** The clamp lands in the range of the unit. *)
Lemma clamp_temp_target_range (c : ac_command_t) :
  (inject_Z 16 <= temp_target (clamp_temp_target c) <= inject_Z 32)%Q.
Proof.
  unfold clamp_temp_target.
  change (inject_Z AC_MIN_TEMPERATURE) with (inject_Z 16).
  change (inject_Z AC_MAX_TEMPERATURE) with (inject_Z 32).
  destruct (Qlt_bool (temp_target c) (inject_Z 16)) eqn:A.
  - cbn [temp_target set_temp_target].
    replace (Qlt_bool (inject_Z 32) (inject_Z 16)) with false by reflexivity.
    cbn [temp_target set_temp_target]. split; [apply Qle_refl|].
    rewrite <- Zle_Qle. lia.
  - apply Qlt_bool_false in A.
    destruct (Qlt_bool (inject_Z 32) (temp_target c)) eqn:B.
    + cbn [temp_target set_temp_target]. split; [|apply Qle_refl].
      rewrite <- Zle_Qle. lia.
    + apply Qlt_bool_false in B. split; assumption.
Qed.

Lemma temp_int_clamped (c : ac_command_t) :
  let t := temp_int (temp_target (clamp_temp_target c)) in
  t = Qfloor (temp_target (clamp_temp_target c)) /\ 16 <= t <= 32.
Proof.
  destruct (clamp_temp_target_range c) as [L U].
  apply Qfloor_resp_le in L, U. rewrite Qfloor_Z in L, U.
  cbv zeta. unfold temp_int, u8. rewrite Z.mod_small by lia. auto.
Qed.

Lemma int_part_in_mask (k : Z) :
  16 <= k <= 32 ->
  0 <= Z.shiftl (k - 8) 3 /\
  Z.land (Z.shiftl (k - 8) 3) AC_TEMP_TARGET_INT_PART_MASK = Z.shiftl (k - 8) 3 /\
  Z.shiftr (Z.shiftl (k - 8) 3) 3 = k - 8.
Proof.
  intros H.
  assert (E : k = 16 \/ k = 17 \/ k = 18 \/ k = 19 \/ k = 20 \/ k = 21 \/
              k = 22 \/ k = 23 \/ k = 24 \/ k = 25 \/ k = 26 \/ k = 27 \/
              k = 28 \/ k = 29 \/ k = 30 \/ k = 31 \/ k = 32) by lia.
  repeat destruct E as [E|E]; subst k; repeat split; discriminate.
Qed.

(** Bits 3 to 7 of a byte are those of the byte under the mask of the
    integer part. *)
Lemma shiftr_3_mask (b : Z) :
  0 <= b < 256 ->
  Z.shiftr b 3 = Z.shiftr (Z.land b AC_TEMP_TARGET_INT_PART_MASK) 3.
Proof.
  intros Hb. apply Z.bits_inj'. intros n Hn.
  rewrite !Z.shiftr_spec, Z.land_spec by lia.
  destruct (Z.ltb_spec (n + 3) 8) as [L|L].
  - assert (E : n = 0 \/ n = 1 \/ n = 2 \/ n = 3 \/ n = 4) by lia.
    repeat destruct E as [E|E]; subst n; cbn; rewrite andb_true_r; reflexivity.
  - rewrite (testbit_byte_high b (n + 3) Hb L). reflexivity.
Qed.

(** Whatever flag below bit 7 the encoder writes under the mask of the
    fractional part, bit 7 of the byte ends up clear. *)
Lemma masked_frac_clears_bit_7 (x b : Z) :
  0 <= x < 128 ->
  Z.shiftr (masked AC_TEMP_TARGET_FRAC_PART_MASK x b) 7 = 0.
Proof.
  intros Hx. apply Z.bits_inj'. intros n Hn.
  rewrite Z.shiftr_spec, masked_testbit, Z.testbit_0_l by lia.
  destruct (Z.ltb_spec (n + 7) 8) as [L|L]; [|reflexivity].
  assert (n = 0) by lia. subst n. change (0 + 7) with 7.
  assert (Hx7 : Z.testbit x 7 = false).
  { destruct (Z.eq_dec x 0) as [->|Hz]; [reflexivity|].
    apply Z.bits_above_log2; [lia|]. apply Z.log2_lt_pow2; lia. }
  rewrite Hx7. change (Z.testbit AC_TEMP_TARGET_FRAC_PART_MASK 7) with true.
  cbn. rewrite andb_false_r. reflexivity.
Qed.

End Temperatures.

(** ** Encoding a command and decoding the body as a small status *)

Section RoundTrip.

(** [_fillSetCommand(true, &_outPacket, &_sequence[i].cmd)] as two passes of
    [fill_from_command] over a cleared packet: the state first, then the
    command. *)
Lemma _fillSetCommand_two_passes (now : Z) (s : AirCon) (i : nat)
  (it : sequence_item_t) (p1 p2 : packet_t) (a1 c2 : ac_command_t) :
  _sequence s !! i = Some it ->
  fill_from_command now (_current_ac_state s) _clearPacket = Done (p1, a1) ->
  fill_from_command now (sequence_item_t.cmd it) p1 = Done (p2, c2) ->
  exists s',
    _fillSetCommand true ptr_outPacket (ptr_sequence_cmd i) now s = Done s' /\
    _outPacket s' = p2 /\ _current_ac_state s' = a1.
Proof.
  intros Hit H1 H2.
  unfold _fillSetCommand, fill_pass.
  cbn [store_packet load_packet load_command store_command bind
       _outPacket set_outPacket _current_ac_state].
  rewrite H1. cbn [bind fst snd _outPacket set_outPacket set_current_ac_state].
  unfold seq_item. cbn [_sequence set_outPacket set_current_ac_state].
  rewrite Hit. cbn [bind].
  rewrite H2. cbn [bind fst snd _sequence set_outPacket set_current_ac_state].
  rewrite ?Hit. cbn [bind].
  unfold put_item. cbn [_sequence set_outPacket set_current_ac_state].
  pose proof (lookup_lt_Some _ _ _ Hit) as Hlt.
  apply Nat.ltb_lt in Hlt. rewrite Hlt.
  eexists. split; [reflexivity|]. split; reflexivity.
Qed.

Ltac byte_tac :=
  repeat first [ apply overlaid_byte | apply masked_byte
               | match goal with
                 | |- 0 <= (if ?c then _ else _) < 256 => destruct c
                 end ];
  lia.

Ltac field_tac :=
  repeat first
    [ rewrite overlaid_miss by first [ byte_tac | reflexivity | assumption ]
    | rewrite overlaid_hit by first [ unfold AC_POWER_MASK, AC_CLEAN_MASK,
                                        AC_HEALTH_MASK, AC_MODE_MASK,
                                        AC_SLEEP_MASK, AC_IFEEL_MASK,
                                        AC_LOUVERV_MASK, AC_LOUVERH_MASK,
                                        AC_FANSPEED_MASK, AC_FANTURBO_MASK,
                                        AC_FANMUTE_MASK, AC_DISPLAY_MASK,
                                        AC_MILDEW_MASK; lia
                                    | assumption ] ].

(** The integer part bits of byte 2 after one pass. *)
Lemma int_part_after_pass (c : ac_command_t) (lv b : Z) :
  0 <= b < 256 -> field_ok AC_LOUVERV_MASK lv ->
  let c' := if temp_target_matter c then clamp_temp_target c else c in
  let b' := overlaid AC_LOUVERV_MASK lv AC_LOUVERV_UNTOUCHED
              (if temp_target_matter c
               then masked AC_TEMP_TARGET_INT_PART_MASK
                      (Z.shiftl (temp_int (temp_target c') - 8) 3) b
               else b) in
  0 <= b' < 256 /\
  Z.shiftr b' 3 =
    (if temp_target_matter c
     then Qfloor (temp_target (clamp_temp_target c)) - 8
     else Z.shiftr b 3) /\
  Z.land b' AC_LOUVERV_MASK =
    if lv =? 0xFF then Z.land b AC_LOUVERV_MASK else lv.
Proof.
  intros Hb Hlv c' b'.
  assert (Hb' : 0 <= b' < 256) by (subst b'; byte_tac).
  split; [exact Hb'|]. subst b' c'.
  destruct (temp_target_matter c).
  - destruct (temp_int_clamped c) as [Ei Hr]. cbv zeta in Ei, Hr.
    destruct (int_part_in_mask _ Hr) as (K0 & K1 & K2).
    split.
    + rewrite shiftr_3_mask by exact Hb'.
      rewrite overlaid_miss by first [apply masked_byte|reflexivity|assumption].
      rewrite masked_hit by first [unfold AC_TEMP_TARGET_INT_PART_MASK; lia
                                  | assumption].
      rewrite K2, Ei. reflexivity.
    + rewrite overlaid_hit
        by first [unfold AC_LOUVERV_MASK; lia | assumption].
      rewrite masked_miss by first [assumption | reflexivity].
      reflexivity.
  - split.
    + rewrite shiftr_3_mask by exact Hb'.
      rewrite overlaid_miss by first [assumption|reflexivity].
      symmetry. apply shiftr_3_mask. exact Hb.
    + apply overlaid_hit; [unfold AC_LOUVERV_MASK; lia|assumption].
Qed.

(** Bit 7 of byte 4 after one pass. *)
Lemma frac_bit_after_pass (c : ac_command_t) (b : Z) :
  let c' := if temp_target_matter c then clamp_temp_target c else c in
  let T := temp_target c' in
  let b' := if temp_target_matter c
            then masked AC_TEMP_TARGET_FRAC_PART_MASK
                   (if Qlt_bool 0 (T - inject_Z (temp_int T)) then 1 else 0) b
            else b in
  (0 <= b < 256 -> 0 <= b' < 256) /\
  Z.shiftr b' 7 = if temp_target_matter c then 0 else Z.shiftr b 7.
Proof.
  cbv zeta. destruct (temp_target_matter c).
  - split; [intros _; apply masked_byte|].
    apply masked_frac_clears_bit_7. destruct (Qlt_bool _ _); lia.
  - auto.
Qed.

(** C2 (as amended). [_fillSetCommand] on a cleared outgoing packet,
    decoded as a small status: each of the thirteen parameters the encoder
    writes (power, clean, health, mode, sleep, iFeel, the two louvers, fan
    speed, turbo, mute, display, mildew) decodes to the value the command
    sets, and where the command leaves it untouched to the value of the AC
    state (0 where the state holds the sentinel too); [health_status] is
    not encoded and decodes as off; a target temperature of a whole number
    of degrees decodes to that number clamped into 16..32, taken from the
    command when it sets one and else from the AC state. *)
Theorem C2_round_trip_of_encoded_fields (now : Z) (s : AirCon) (i : nat)
  (it : sequence_item_t) (st0 : ac_state_t) :
  _sequence s !! i = Some it ->
  command_ok (sequence_item_t.cmd it) ->
  command_ok (_current_ac_state s) ->
  let c := sequence_item_t.cmd it in
  let a := _current_ac_state s in
  exists s' changed st',
    _fillSetCommand true ptr_outPacket (ptr_sequence_cmd i) now s = Done s' /\
    parse_small_status (_outPacket s') st0 = Done (changed, st') /\
    power st' = merged (power c) (power a) /\
    clean st' = merged (clean c) (clean a) /\
    health st' = merged (health c) (health a) /\
    mode st' = merged (mode c) (mode a) /\
    sleep st' = merged (sleep c) (sleep a) /\
    iFeel st' = merged (iFeel c) (iFeel a) /\
    louver_v (louver st') = merged (louver_v (louver c)) (louver_v (louver a)) /\
    louver_h (louver st') = merged (louver_h (louver c)) (louver_h (louver a)) /\
    fanSpeed st' = merged (fanSpeed c) (fanSpeed a) /\
    fanTurbo st' = merged (fanTurbo c) (fanTurbo a) /\
    fanMute st' = merged (fanMute c) (fanMute a) /\
    display st' = merged (display c) (display a) /\
    mildew st' = merged (mildew c) (mildew a) /\
    health_status st' = AC_HEALTH_STATUS_OFF /\
    (forall n : Z,
       temp_target_matter c = true ->
       (temp_target c == inject_Z n)%Q ->
       (temp_target st' == inject_Z (clampZ n))%Q) /\
    (forall n : Z,
       temp_target_matter c = false ->
       temp_target_matter a = true ->
       (temp_target a == inject_Z n)%Q ->
       (temp_target st' == inject_Z (clampZ n))%Q).
Proof.
  intros Hit Hc Ha c a.
  destruct (fill_from_command_bytes now a _clearPacket eq_refl)
    as (p1 & H1 & R1 & F1).
  destruct (fill_from_command_bytes now c p1 (proj2 R1))
    as (p2 & H2 & R2 & F2).
  destruct (_fillSetCommand_two_passes now s i it p1 p2 _ _ Hit H1 H2)
    as (s' & Hs & Ho & _).
  assert (Hlen : (AC_HEADER_SIZE + 12 < length (data p2))%nat)
    by (rewrite (proj2 R2); unfold AC_HEADER_SIZE, AC_BUFFER_SIZE; lia).
  destruct (parse_small_status_fields p2 st0 AC_HEADER_SIZE (proj1 R2) Hlen)
    as (changed & st' & Hp & D).
  exists s', changed, st'. rewrite Ho.
  split; [exact Hs|]. split; [exact Hp|].
  cbv zeta beta in F1, F2, D.
  destruct F1 as (A2 & A3 & A4 & A5 & A6 & A7 & A10 & A12).
  destruct F2 as (C2 & C3 & C4 & C5 & C6 & C7 & C10 & C12).
  destruct D as (Dt & _ & Dlv & Dlh & Dfs & Dft & Dfm & Dmo & Dsl & Dif & Dpo
                 & Dhe & Dhs & Dcl & Ddi & Dmi & _).
  change (getb (data _clearPacket) (AC_HEADER_SIZE + 2)) with 0 in A2.
  change (getb (data _clearPacket) (AC_HEADER_SIZE + 3)) with 0 in A3.
  change (getb (data _clearPacket) (AC_HEADER_SIZE + 4)) with 0 in A4.
  change (getb (data _clearPacket) (AC_HEADER_SIZE + 5)) with 0 in A5.
  change (getb (data _clearPacket) (AC_HEADER_SIZE + 6)) with 0 in A6.
  change (getb (data _clearPacket) (AC_HEADER_SIZE + 7)) with 0 in A7.
  change (getb (data _clearPacket) (AC_HEADER_SIZE + 10)) with 0 in A10.
  change (getb (data _clearPacket) (AC_HEADER_SIZE + 12)) with 0 in A12.
  destruct Hc, Ha. fold c in ok_power0, ok_clean0, ok_health0, ok_mode0,
    ok_sleep0, ok_iFeel0, ok_louver_v0, ok_louver_h0, ok_fanSpeed0,
    ok_fanTurbo0, ok_fanMute0, ok_display0, ok_mildew0.
  fold a in ok_power1, ok_clean1, ok_health1, ok_mode1, ok_sleep1,
    ok_iFeel1, ok_louver_v1, ok_louver_h1, ok_fanSpeed1, ok_fanTurbo1,
    ok_fanMute1, ok_display1, ok_mildew1.
  unfold AC_POWER_UNTOUCHED, AC_CLEAN_UNTOUCHED, AC_HEALTH_UNTOUCHED,
    AC_MODE_UNTOUCHED, AC_SLEEP_UNTOUCHED, AC_IFEEL_UNTOUCHED,
    AC_LOUVERV_UNTOUCHED, AC_LOUVERH_UNTOUCHED, AC_FANSPEED_UNTOUCHED,
    AC_FANTURBO_UNTOUCHED, AC_FANMUTE_UNTOUCHED, AC_DISPLAY_UNTOUCHED,
    AC_MILDEW_UNTOUCHED in *.
  (* byte 2: temperature and vertical louver *)
  destruct (int_part_after_pass a (louver_v (louver a)) 0 ltac:(lia)
              ok_louver_v1) as (Ab & Ash & Alv).
  cbv zeta in Ab, Ash, Alv. unfold AC_LOUVERV_UNTOUCHED in Ab, Ash, Alv.
  fold a in A2. rewrite <- A2 in Ab, Ash, Alv.
  destruct (int_part_after_pass c (louver_v (louver c)) _ Ab ok_louver_v0)
    as (Cb & Csh & Clv).
  cbv zeta in Cb, Csh, Clv. unfold AC_LOUVERV_UNTOUCHED in Cb, Csh, Clv.
  fold c in C2. rewrite <- C2 in Cb, Csh, Clv.
  (* byte 4: the fractional flag *)
  destruct (frac_bit_after_pass a 0) as (Afb & Afr).
  cbv zeta in Afb, Afr. fold a in A4. rewrite <- A4 in Afb, Afr.
  destruct (frac_bit_after_pass c (getb (data p1) (AC_HEADER_SIZE + 4)))
    as (Cfb & Cfr).
  cbv zeta in Cfb, Cfr. fold c in C4. rewrite <- C4 in Cfr.
  repeat match goal with |- _ /\ _ => split end.
  - rewrite Dpo, C10, A10. field_tac. reflexivity.
  - rewrite Dcl, C10, A10. field_tac. reflexivity.
  - rewrite Dhe, C10, A10. field_tac. reflexivity.
  - rewrite Dmo, C7, A7. field_tac. reflexivity.
  - rewrite Dsl, C7, A7. field_tac. reflexivity.
  - rewrite Dif, C7, A7. field_tac. reflexivity.
  - rewrite Dlv, Clv, Alv. reflexivity.
  - rewrite Dlh, C3, A3. field_tac. reflexivity.
  - rewrite Dfs, C5, A5. field_tac. reflexivity.
  - rewrite Dft, C6, A6. field_tac. reflexivity.
  - rewrite Dfm, C6, A6. field_tac. reflexivity.
  - rewrite Ddi, C12, A12. field_tac. reflexivity.
  - rewrite Dmi, C12, A12. field_tac. reflexivity.
  - rewrite Dhs, C10, A10. field_tac. reflexivity.
  - intros n Hm Hn. rewrite Dt, Csh, Cfr, Hm.
    pose proof (clamp_temp_target_whole c n Hn) as Hw.
    rewrite (Qfloor_comp _ _ Hw), Qfloor_Z.
    replace (8 + (clampZ n - 8)) with (clampZ n) by lia.
    ring.
  - intros n Hm Hma Hn. rewrite Dt, Csh, Cfr, Hm, Ash, Afr, Hma.
    pose proof (clamp_temp_target_whole a n Hn) as Hw.
    rewrite (Qfloor_comp _ _ Hw), Qfloor_Z.
    replace (8 + (clampZ n - 8)) with (clampZ n) by lia.
    ring.
Qed.

End RoundTrip.

(** ** The theorems at concrete inputs *)

Lemma C2_witness :
  exists st',
    encode_then_decode (with_command heat_22_command sample_state) = Done st' /\
    mode st' = AC_MODE_HEAT /\
    power st' = AC_POWER_ON /\
    fanSpeed st' = AC_FANSPEED_AUTO /\
    health_status st' = AC_HEALTH_STATUS_OFF /\
    (temp_target st' == inject_Z 22)%Q.
Proof.
  assert (Hit : exists it,
             _sequence (with_command heat_22_command sample_state) !! 2%nat
               = Some it /\
             sequence_item_t.cmd it = heat_22_command).
  { eexists. split; reflexivity. }
  destruct Hit as (it & Hit & Hcmd).
  assert (Hc : command_ok (sequence_item_t.cmd it)).
  { rewrite Hcmd.
    constructor;
      first [ left; reflexivity
            | right; split; [vm_compute; discriminate|reflexivity] ]. }
  assert (Ha : command_ok
                 (_current_ac_state (with_command heat_22_command sample_state))).
  { constructor;
      first [ left; reflexivity
            | right; split; [vm_compute; discriminate|reflexivity] ]. }
  destruct (C2_round_trip_of_encoded_fields 0
              (with_command heat_22_command sample_state) 2 it _clearCommand
              Hit Hc Ha)
    as (s' & changed & st' & He & Hd & Hpo & _ & _ & Hmo & _ & _ & _ & _ & Hfs
        & _ & _ & _ & _ & Hhs & Ht & _).
  exists st'. unfold encode_then_decode. rewrite He. cbn [bind].
  rewrite Hd. cbn [bind snd]. split; [reflexivity|].
  rewrite Hcmd in *.
  split; [exact Hmo|]. split; [exact Hpo|]. split; [exact Hfs|].
  split; [exact Hhs|].
  apply (Ht 22); reflexivity.
Defined.

(** C2 as claimed fails where the code deliberately does not encode: an
    explicitly set [health_status] is not reproduced (the set command has no
    place for it), and a field the command leaves untouched does not decode
    to the value of the AC state while that state still holds the
    sentinel. *)
Lemma C2_counterexample :
  (exists st',
     encode_then_decode (with_command health_status_command sample_state)
       = Done st' /\
     health_status health_status_command = AC_HEALTH_STATUS_ON /\
     health_status st' = AC_HEALTH_STATUS_OFF /\
     health_status st' <> health_status health_status_command) /\
  (exists st',
     encode_then_decode (with_command power_on_command _clearCommand)
       = Done st' /\
     mode power_on_command = AC_MODE_UNTOUCHED /\
     mode (_current_ac_state (with_command power_on_command _clearCommand))
       = AC_MODE_UNTOUCHED /\
     mode st' = AC_MODE_AUTO /\
     mode st'
       <> mode (_current_ac_state (with_command power_on_command _clearCommand))).
Proof.
  split; eexists; (split; [vm_compute; reflexivity|]);
    cbn; repeat split; discriminate.
Qed.

(** The half degree. The encoder sets bit 0 of byte 4 of the body where
    the decoder, and the layout of [packet_small_info_body_t], have the
    flag in bit 7: a command for 22.5 degrees decodes as 22. *)
Lemma half_degree_flag_written_to_bit_0 :
  exists s' st',
    _fillSetCommand true ptr_outPacket (ptr_sequence_cmd 2) 0
      (with_command half_degree_command sample_state) = Done s' /\
    getb (data (_outPacket s')) (AC_HEADER_SIZE + small_info.target_temp_frac)
      = 1 /\
    encode_then_decode (with_command half_degree_command sample_state)
      = Done st' /\
    (temp_target half_degree_command == 45 # 2)%Q /\
    (temp_target st' == inject_Z 22)%Q /\
    ~ (temp_target st' == temp_target half_degree_command)%Q.
Proof.
  eexists. eexists.
  split; [vm_compute; reflexivity|].
  split; [reflexivity|].
  split; [vm_compute; reflexivity|].
  cbn. repeat split; discriminate.
Qed.

(** C4 as claimed fails on a ping: the parsing step ends in
    [ACSM_SENDING_PACKET], with the answer queued. *)
Lemma C4_counterexample :
  exists s',
    _ac_state (received ping_frame) = ACSM_PARSING_PACKET /\
    _doParsingPacket 102 (received ping_frame) = Done s' /\
    _ac_state s' = ACSM_SENDING_PACKET /\
    _ac_state s' <> ACSM_IDLE /\
    firstn 18 (data (_outPacket s'))
      = [0xBB; 0; 1; 0x80; 1; 0; 8; 0; 0x1C; 0x27; 0; 0; 0; 0; 0; 0; 0x1E; 0x58].
Proof.
  eexists. split; [reflexivity|].
  split; [vm_compute; reflexivity|].
  cbn. repeat split. discriminate.
Qed.

Lemma C4_witness :
  _ac_state (done_or initAC (_doParsingPacket 102 (received ping_frame)))
    = ACSM_SENDING_PACKET /\
  _ac_state (done_or initAC (_doParsingPacket 102 (received init_frame)))
    = ACSM_IDLE /\
  _ac_state (done_or initAC (_doParsingPacket 102 (received corrupt_frame)))
    = ACSM_IDLE.
Proof.
  split; [|split].
  - apply (C4_parsing_ends_idle_or_sending 102 (received ping_frame) _ true
             (_inPacket (received ping_frame)));
      vm_compute; reflexivity.
  - apply (C4_parsing_ends_idle_or_sending 102 (received init_frame) _ true
             (_inPacket (received init_frame)));
      vm_compute; reflexivity.
  - apply (C4_parsing_ends_idle_or_sending 102 (received corrupt_frame) _ false
             (_inPacket (received corrupt_frame)));
      vm_compute; reflexivity.
Defined.

Lemma C5_witness :
  _doSequence 700 startup_waiting = Done (_clearSequence startup_waiting) /\
  _sequence (_clearSequence startup_waiting)
    = repeat empty_item AC_SEQUENCE_MAX_LEN /\
  (exists s1,
     _doSequence 102 startup_requested =
       (r <- call ptr_sq_controlSmallStatus 102 s1 ;;
        if fst r then Done (snd r) else Done (_clearSequence (snd r))) /\
     exists it, _sequence s1 !! 1%nat = Some it /\
                sequence_item_t.timeout it = 500).
Proof.
  assert (W : exists it,
            _sequence startup_waiting !! _sequence_current_step startup_waiting
              = Some it /\
            sequence_item_t.item_type it = AC_SIT_FUNC /\
            sequence_item_t.func it = Some ptr_sq_controlSmallStatus /\
            sequence_item_t.msec it = 102 /\
            sequence_item_t.timeout it = 500).
  { eexists. split; [vm_compute; reflexivity|]. repeat split. }
  destruct W as (it & Hit & Hty & Hf & Hms & Hto).
  assert (Hhas : hasSequence startup_waiting = true)
    by (vm_compute; reflexivity).
  assert (Hlt : (_sequence_current_step startup_waiting
                 < AC_SEQUENCE_MAX_LEN)%nat)
    by (vm_compute; lia).
  pose proof (C5_function_step_timeout 700 startup_waiting it
                ptr_sq_controlSmallStatus Hhas Hlt Hit Hty Hf) as A.
  rewrite Hms, Hto in A. destruct A as [A _].
  destruct (A ltac:(vm_compute; discriminate)) as (A1 & A2 & _).
  split; [exact A1|]. split; [exact A2|].
  assert (R : exists it,
            _sequence startup_requested
              !! _sequence_current_step startup_requested = Some it /\
            sequence_item_t.item_type it = AC_SIT_FUNC /\
            sequence_item_t.func it = Some ptr_sq_controlSmallStatus /\
            sequence_item_t.msec it = 0 /\
            sequence_item_t.timeout it = 0).
  { eexists. split; [vm_compute; reflexivity|]. repeat split. }
  destruct R as (it' & Hit' & Hty' & Hf' & Hms' & Hto').
  assert (Hhas' : hasSequence startup_requested = true)
    by (vm_compute; reflexivity).
  assert (Hlt' : (_sequence_current_step startup_requested
                  < AC_SEQUENCE_MAX_LEN)%nat)
    by (vm_compute; lia).
  pose proof (C5_function_step_timeout 102 startup_requested it'
                ptr_sq_controlSmallStatus Hhas' Hlt' Hit' Hty' Hf') as B.
  rewrite Hms' in B. destruct B as [_ B].
  destruct (B Hto' ltac:(vm_compute; reflexivity)) as (B1 & B2).
  eexists. split; [exact B2|].
  exists (stamped 102 it'). split; [|exact B1].
  replace (_sequence_current_step startup_requested) with 1%nat
    by (vm_compute; reflexivity).
  apply list_lookup_insert_eq.
  apply lookup_lt_Some with (x := it').
  replace 1%nat with (_sequence_current_step startup_requested)
    by (vm_compute; reflexivity).
  exact Hit'.
Defined.

Lemma C6_witness :
  hdr header.packet_type (_inPacket ping_while_waiting) = AC_PTYPE_PING /\
  sq_controlSmallStatus ping_while_waiting = Done (true, ping_while_waiting) /\
  exists s',
    _doSequence 105 ping_while_waiting = Done s' /\
    _sequence_current_step s' = 1%nat /\
    hasSequence s' = true.
Proof.
  assert (Hp : hdr header.packet_type (_inPacket ping_while_waiting)
               = AC_PTYPE_PING) by (vm_compute; reflexivity).
  destruct (C6_ping_neither_advances_nor_aborts 105 ping_while_waiting Hp)
    as (A & _ & _ & D).
  split; [exact Hp|]. split; [exact A|].
  assert (W : exists it,
            _sequence ping_while_waiting
              !! _sequence_current_step ping_while_waiting = Some it /\
            sequence_item_t.item_type it = AC_SIT_FUNC /\
            sequence_item_t.func it = Some ptr_sq_controlSmallStatus /\
            sequence_item_t.msec it = 102 /\
            sequence_item_t.timeout it = 500).
  { eexists. split; [vm_compute; reflexivity|]. repeat split. }
  destruct W as (it & Hit & Hty & Hf & Hms & Hto).
  assert (Hst : stamped 105 it = it).
  { unfold stamped. rewrite Hms. cbn [Z.eqb]. rewrite Hto. reflexivity. }
  destruct (D it ptr_sq_controlSmallStatus
              ltac:(vm_compute; reflexivity) ltac:(vm_compute; lia)
              Hit Hty Hf eq_refl
              ltac:(rewrite Hst, Hms, Hto; vm_compute; reflexivity))
    as (s' & D1 & _ & D3 & D4).
  exists s'. split; [exact D1|]. split; [|exact D4].
  rewrite D3. vm_compute. reflexivity.
Defined.

Lemma C7_witness :
  exists changed st',
    parse_small_status (_inPacket (received small_status_27_5)) _clearCommand
      = Done (changed, st') /\
    (temp_target st' == 55 # 2)%Q /\
    louver_v (louver st') = AC_LOUVERV_SWING_UPDOWN.
Proof.
  destruct (C7_small_status_27_5_and_swing
              (_inPacket (received small_status_27_5)) _clearCommand
              AC_HEADER_SIZE
              ltac:(vm_compute; reflexivity) ltac:(vm_compute; lia)
              ltac:(vm_compute; reflexivity)
              ltac:(vm_compute; split; [discriminate|reflexivity])
              ltac:(vm_compute; reflexivity))
    as (changed & st' & A & B & _ & _ & E).
  exists changed, st'. auto.
Defined.

Lemma C8_witness :
  _ac_state (received corrupt_frame) = ACSM_PARSING_PACKET /\
  _doParsingPacket 102 (received corrupt_frame)
    = Done (_setStateMachineState ACSM_IDLE
              (_clearInPacket (received corrupt_frame))) /\
  _current_ac_state
    (_setStateMachineState ACSM_IDLE (_clearInPacket (received corrupt_frame)))
    = _current_ac_state (received corrupt_frame).
Proof.
  split; [vm_compute; reflexivity|].
  destruct (C8_bad_checksum_discarded_state_kept 102 (received corrupt_frame))
    as [A _].
  assert (E : exists p,
            _checkCRC (_inPacket (received corrupt_frame)) = Done (false, p)).
  { eexists. vm_compute. reflexivity. }
  destruct E as (p & E).
  destruct (A p E) as (A1 & A2 & _).
  split; [exact A1|exact A2].
Defined.

(** C8 as claimed fails in its last part: with a command queued and the
    unit having reported a target of 8 degrees, the idle pass that builds
    the set command raises the stored target to 16 degrees; no frame is
    being parsed and no state change is notified. *)
Lemma C8_counterexample :
  exists s',
    _ac_state after_status_8_degrees = ACSM_IDLE /\
    loop_switch 105 after_status_8_degrees = Done s' /\
    (temp_target (_current_ac_state after_status_8_degrees) == inject_Z 8)%Q /\
    (temp_target (_current_ac_state s') == inject_Z 16)%Q /\
    _current_ac_state s' <> _current_ac_state after_status_8_degrees /\
    state_changes s' = state_changes after_status_8_degrees.
Proof.
  eexists. split; [vm_compute; reflexivity|].
  split; [vm_compute; reflexivity|].
  split; [vm_compute; reflexivity|].
  split; [vm_compute; reflexivity|].
  split; [vm_compute; discriminate|vm_compute; reflexivity].
Qed.

Lemma C9_witness :
  (let s' := _doReceivingPacketState 101
               (receiving (oversized_frame ++ [0x55])) in
   _ac_state s' = ACSM_IDLE /\ _inPacket s' = _clearPacket /\
   _ac_serial s' = [0x55]) /\
  (let s' := _doReceivingPacketState 250 (receiving [0xBB; 0; 7]) in
   _ac_state s' = ACSM_IDLE /\ _inPacket s' = _clearPacket /\
   _ac_serial s' = []).
Proof.
  split.
  - destruct (C9_overflow_and_timeout_discard 101
                (receiving (oversized_frame ++ [0x55]))) as [A _].
    apply (A oversized_frame 0x55 []).
    + vm_compute. reflexivity.
    + vm_compute. reflexivity.
    + vm_compute. lia.
  - destruct (C9_overflow_and_timeout_discard 250
                (receiving [0xBB; 0; 7])) as [_ B].
    apply B.
    + vm_compute. reflexivity.
    + vm_compute. discriminate.
Defined.

(** C9 as claimed fails on overflow: 34 bytes that do not complete a
    frame fill the buffer, and with no further byte pending the receiving
    step keeps the full buffer and stays in [ACSM_RECEIVING_PACKET]. *)
Lemma C9_counterexample :
  let s' := _doReceivingPacketState 101 (receiving oversized_frame) in
  _ac_state (receiving oversized_frame) = ACSM_RECEIVING_PACKET /\
  length oversized_frame = AC_BUFFER_SIZE /\
  bytesLoaded (_inPacket s') = AC_BUFFER_SIZE /\
  _ac_state s' = ACSM_RECEIVING_PACKET /\
  _ac_state s' <> ACSM_IDLE /\
  _inPacket s' <> _clearPacket /\
  _doReceivingPacketState 102 s' = s'.
Proof.
  vm_compute. repeat split; discriminate.
Qed.

(* ================================================================== *)
(** * Further properties of the code *)

(** ** Sealing and verifying a packet *)

Section SealAndVerify.

Lemma crc_offset_of_length (p : packet_t) (n : nat) :
  hdr header.body_length p = Z.of_nat n ->
  crc_offset p = (AC_HEADER_SIZE + n)%nat.
Proof.
  intros H. unfold crc_offset. rewrite H, Nat2Z.id. reflexivity.
Qed.

Lemma crc_len_of_length (p : packet_t) (n : nat) :
  (n <= AC_MAX_BODY_SIZE)%nat ->
  hdr header.body_length p = Z.of_nat n ->
  crc_len p = (AC_HEADER_SIZE + n)%nat.
Proof.
  intros Hn H. unfold crc_len, u8, AC_HEADER_SIZE, AC_MAX_BODY_SIZE in *.
  rewrite H, Z.mod_small by lia. lia.
Qed.

Lemma packet_crc_t_crc_bytes (c : Z) :
  0 <= c < 2 ^ 16 ->
  packet_crc_t_crc target_byte_order c 1 = c / 256 /\
  packet_crc_t_crc target_byte_order c 0 = c mod 256.
Proof.
  intros H. unfold target_byte_order, packet_crc_t_crc.
  rewrite !byte_of_land, Z.shiftr_div_pow2 by lia.
  change (2 ^ 8) with 256. split; [|reflexivity].
  apply Z.mod_small.
  split; [apply Z.div_pos; lia | apply Z.div_lt_upper_bound; lia].
Qed.

(** The verdict of [_checkCRC] on a packet with at least a header: both
    stored bytes are compared with the computed checksum, high byte
    first. *)
Lemma _checkCRC_verdict (p : packet_t) (n : nat) :
  (n <= AC_MAX_BODY_SIZE)%nat ->
  length (data p) = AC_BUFFER_SIZE ->
  hdr header.body_length p = Z.of_nat n ->
  crc p = None \/ crc p = Some (AC_HEADER_SIZE + n)%nat ->
  (AC_HEADER_SIZE <= bytesLoaded p)%nat ->
  let off := (AC_HEADER_SIZE + n)%nat in
  let c := checksum_spec (firstn off (data p)) in
  _checkCRC p =
    Done ((getb (data p) off =? c / 256) && (getb (data p) (S off) =? c mod 256),
          set_crc (Some off) p).
Proof.
  intros Hn Hlen Hbl Hcrc Hld off c.
  unfold _checkCRC.
  apply Nat.ltb_ge in Hld. rewrite Hld.
  assert (Hp : (match crc p with
                | Some _ => p
                | None => set_crc (Some (crc_offset p)) p
                end) = set_crc (Some off) p).
  { destruct Hcrc as [-> | Hc];
      [rewrite (crc_offset_of_length p n Hbl); reflexivity|].
    rewrite Hc. destruct p; simpl in *. subst; reflexivity. }
  rewrite Hp.
  assert (Hl : crc_len (set_crc (Some off) p) = off)
    by (apply crc_len_of_length; assumption).
  rewrite Hl. cbn [data set_crc crc].
  unfold AC_MAX_BODY_SIZE, AC_BUFFER_SIZE, AC_HEADER_SIZE in *.
  rewrite _CRC16_spec by (unfold AC_BUFFER_SIZE, off; lia).
  fold c. cbn [bind].
  pose proof (checksum_spec_range (firstn off (data p))) as Hc. fold c in Hc.
  destruct (packet_crc_t_crc_bytes c Hc) as [-> ->].
  rewrite rd_ptr_getb by (unfold off; lia). cbn [bind].
  replace (off + 0)%nat with off by lia.
  destruct (getb (data p) off =? c / 256); cbn [andb]; [|reflexivity].
  rewrite rd_ptr_getb by (unfold off; lia). cbn [bind].
  replace (off + 1)%nat with (S off) by lia. reflexivity.
Qed.

(** [_checkCRC] after [_setCRC16]. *)
Lemma _setCRC16_checkCRC (p : packet_t) (n : nat) :
  (n <= AC_MAX_BODY_SIZE)%nat ->
  length (data p) = AC_BUFFER_SIZE ->
  hdr header.body_length p = Z.of_nat n ->
  crc p = None \/ crc p = Some (AC_HEADER_SIZE + n)%nat ->
  (AC_HEADER_SIZE <= bytesLoaded p)%nat ->
  exists p',
    _setCRC16 p = Done p' /\
    _checkCRC p' = Done (true, p').
Proof.
  intros Hn Hlen Hbl Hcrc Hld.
  rewrite (_setCRC16_bytes p n Hn Hlen Hbl Hcrc). cbv zeta.
  set (off := (AC_HEADER_SIZE + n)%nat).
  set (c := checksum_spec (firstn off (data p))).
  eexists. split; [reflexivity|].
  set (p' := set_data _ _).
  assert (Hoff : (off + 1 < 34)%nat)
    by (unfold off, AC_HEADER_SIZE, AC_MAX_BODY_SIZE in *; lia).
  assert (Hoff8 : (8 <= off)%nat) by (unfold off, AC_HEADER_SIZE; lia).
  unfold AC_BUFFER_SIZE in Hlen.
  assert (Hlen' : length (data p') = AC_BUFFER_SIZE)
    by (unfold p'; cbn [data set_data]; rewrite !length_insert; exact Hlen).
  assert (Hbl' : hdr header.body_length p' = Z.of_nat n).
  { unfold hdr, p'. cbn [data set_data]. unfold header.body_length.
    rewrite !getb_insert_ne by lia. exact Hbl. }
  rewrite (_checkCRC_verdict p' n Hn Hlen' Hbl' (or_intror eq_refl) Hld).
  fold off.
  assert (Hf : firstn off (data p') = firstn off (data p)).
  { unfold p'. cbn [data set_data]. rewrite !take_insert_ge by lia.
    reflexivity. }
  rewrite Hf. fold c.
  assert (H0 : getb (data p') off = c / 256).
  { unfold p'. cbn [data set_data]. rewrite getb_insert_ne by lia.
    apply getb_insert_eq. lia. }
  assert (H1 : getb (data p') (S off) = c mod 256).
  { unfold p'. cbn [data set_data]. apply getb_insert_eq.
    rewrite length_insert. lia. }
  rewrite H0, H1, !Z.eqb_refl. cbn [andb].
  f_equal.
Qed.

(** X1. Sealing and checking agree: [_setCRC16] leaves header, body and
    the count of loaded bytes as they are, and the packet it returns passes
    [_checkCRC], which hands it back unchanged. *)
Theorem sealed_packet_verifies (p : packet_t) (n : nat) :
  (n <= AC_MAX_BODY_SIZE)%nat ->
  length (data p) = AC_BUFFER_SIZE ->
  hdr header.body_length p = Z.of_nat n ->
  crc p = None \/ crc p = Some (AC_HEADER_SIZE + n)%nat ->
  (AC_HEADER_SIZE <= bytesLoaded p)%nat ->
  exists p',
    _setCRC16 p = Done p' /\
    _checkCRC p' = Done (true, p') /\
    firstn (AC_HEADER_SIZE + n) (data p') = firstn (AC_HEADER_SIZE + n) (data p) /\
    bytesLoaded p' = bytesLoaded p.
Proof.
  intros Hn Hlen Hbl Hcrc Hld.
  destruct (_setCRC16_checkCRC p n Hn Hlen Hbl Hcrc Hld) as (p' & A & B).
  exists p'. split; [exact A|]. split; [exact B|].
  rewrite (_setCRC16_bytes p n Hn Hlen Hbl Hcrc) in A. cbv zeta in A.
  injection A as <-. cbn [data set_data bytesLoaded set_crc]. split.
  - rewrite !take_insert_ge by (unfold AC_HEADER_SIZE; lia). reflexivity.
  - reflexivity.
Qed.

End SealAndVerify.

(** ** What the checksum detects *)

Section Corruption.

Lemma sum_words_insert (l : list Z) :
  forall (i : nat) (v : Z),
    (i < length l)%nat ->
    sum_words (be_words (<[i := v]> l))
    = sum_words (be_words l) + (v - getb l i) * cell_weight i.
Proof.
  induction l as [|b|hi lo l IH] using list_pair_ind; intros i v Hi.
  - simpl in Hi. lia.
  - destruct i as [|i]; [|simpl in Hi; lia].
    unfold cell_weight, getb. simpl. lia.
  - destruct i as [|[|i]].
    + unfold cell_weight, getb. simpl. lia.
    + unfold cell_weight, getb. simpl. lia.
    + change (<[S (S i) := v]> (hi :: lo :: l)) with (hi :: lo :: <[i := v]> l).
      cbn [be_words sum_words fold_right]. fold (sum_words (be_words (<[i := v]> l))).
      fold (sum_words (be_words l)).
      rewrite IH by (simpl in Hi; lia).
      unfold cell_weight, getb. cbn [nth Nat.even]. lia.
Qed.

Lemma sum_words_bound (l : list Z) :
  Forall is_byte l ->
  0 <= sum_words (be_words l) <= 65535 * Z.of_nat (length l).
Proof.
  induction l as [|b|hi lo l IH] using list_pair_ind; intros H.
  - simpl. lia.
  - inversion H as [|? ? Hb _]; subst. unfold is_byte in Hb. simpl. lia.
  - inversion H as [|? ? Hh H']; subst. inversion H' as [|? ? Hl H'']; subst.
    specialize (IH H''). unfold is_byte in *.
    cbn [be_words sum_words fold_right length]. fold (sum_words (be_words l)).
    lia.
Qed.

Lemma checksum_spec_folded (l : list Z) :
  checksum_spec l =
  65535 - (let acc := sum_words (be_words l) mod 2 ^ 32 in
           (acc / 2 ^ 16 + acc mod 2 ^ 16) mod 2 ^ 32) mod 65536.
Proof.
  unfold checksum_spec. cbv zeta.
  set (f := (_ / _ + _) mod 2 ^ 32).
  change 65535 with (Z.ones 16) at 1. rewrite Z.land_ones by lia.
  unfold Z.lnot, Z.pred.
  change (2 ^ 16) with 65536.
  pose proof (Z.mod_pos_bound f 65536 ltac:(lia)).
  pose proof (Z.mod_pos_bound (- f + -1) 65536 ltac:(lia)).
  pose proof (Z.div_mod f 65536 ltac:(lia)).
  pose proof (Z.div_mod (- f + -1) 65536 ltac:(lia)).
  lia.
Qed.

(** Two sums of at most 32 bytes that differ by one cell have different
    checksums. *)
Lemma folded_sum_differs (s d w : Z) :
  0 <= s <= 65535 * 32 -> 0 <= s + d * w <= 65535 * 32 ->
  w = 256 \/ w = 1 -> -255 <= d <= 255 -> d <> 0 ->
  (s / 65536 + s mod 65536) mod 65536
  <> ((s + d * w) / 65536 + (s + d * w) mod 65536) mod 65536.
Proof.
  intros Hs Hs' Hw Hd Hd0.
  assert (Hdw : -65280 <= d * w <= 65280 /\ d * w <> 0) by (destruct Hw; subst w; lia).
  set (t := d * w) in *. clearbody t. clear Hw Hd Hd0 d w.
  pose proof (Z.div_mod s 65536 ltac:(lia)).
  pose proof (Z.mod_pos_bound s 65536 ltac:(lia)).
  pose proof (Z.div_mod (s + t) 65536 ltac:(lia)).
  pose proof (Z.mod_pos_bound (s + t) 65536 ltac:(lia)).
  set (q := s / 65536) in *. set (r := s mod 65536) in *.
  set (q' := (s + t) / 65536) in *. set (r' := (s + t) mod 65536) in *.
  clearbody q r q' r'.
  assert (0 <= q <= 32 /\ 0 <= q' <= 32) by lia.
  pose proof (Z.div_mod (q + r) 65536 ltac:(lia)).
  pose proof (Z.mod_pos_bound (q + r) 65536 ltac:(lia)).
  pose proof (Z.div_mod (q' + r') 65536 ltac:(lia)).
  pose proof (Z.mod_pos_bound (q' + r') 65536 ltac:(lia)).
  assert (0 <= (q + r) / 65536 < 2)
    by (split; [apply Z.div_pos; lia | apply Z.div_lt_upper_bound; lia]).
  assert (0 <= (q' + r') / 65536 < 2)
    by (split; [apply Z.div_pos; lia | apply Z.div_lt_upper_bound; lia]).
  lia.
Qed.

Lemma checksum_spec_insert (l : list Z) (i : nat) (v : Z) :
  Forall is_byte l -> (length l <= 32)%nat -> (i < length l)%nat ->
  is_byte v -> v <> getb l i ->
  checksum_spec (<[i := v]> l) <> checksum_spec l.
Proof.
  intros Hl Hlen Hi Hv Hne.
  rewrite !checksum_spec_folded. cbv zeta.
  rewrite (sum_words_insert l i v Hi).
  pose proof (sum_words_bound l Hl) as Hb.
  assert (Hl' : Forall is_byte (<[i := v]> l)).
  { apply Forall_insert; assumption. }
  pose proof (sum_words_bound _ Hl') as Hb'.
  rewrite length_insert, (sum_words_insert l i v Hi) in Hb'.
  assert (Hg : is_byte (getb l i)).
  { unfold getb. destruct (lookup_lt_is_Some_2 l i Hi) as [x Hx].
    rewrite (nth_lookup_Some _ _ 0 x Hx).
    exact (Forall_lookup_1 _ _ _ _ Hl Hx). }
  unfold is_byte in Hv, Hg.
  set (s := sum_words (be_words l)) in *.
  set (d := v - getb l i) in *.
  assert (Hw : cell_weight i = 256 \/ cell_weight i = 1)
    by (unfold cell_weight; destruct (Nat.even i); auto).
  change (2 ^ 32) with 4294967296. change (2 ^ 16) with 65536.
  rewrite (Z.mod_small s) by lia.
  rewrite (Z.mod_small (s + d * cell_weight i)) by lia.
  pose proof (folded_sum_differs s d (cell_weight i) ltac:(lia) ltac:(lia) Hw
                ltac:(unfold d; lia) ltac:(unfold d; lia)) as Hf.
  assert (B1 : 0 <= s / 65536 + s mod 65536 < 4294967296).
  { pose proof (Z.mod_pos_bound s 65536 ltac:(lia)).
    assert (0 <= s / 65536 <= 32)
      by (split; [apply Z.div_pos; lia | apply Z.div_le_upper_bound; lia]).
    lia. }
  assert (B2 : 0 <= (s + d * cell_weight i) / 65536
                    + (s + d * cell_weight i) mod 65536 < 4294967296).
  { pose proof (Z.mod_pos_bound (s + d * cell_weight i) 65536 ltac:(lia)).
    assert (0 <= (s + d * cell_weight i) / 65536 <= 32)
      by (split; [apply Z.div_pos; lia | apply Z.div_le_upper_bound; lia]).
    lia. }
  rewrite (Z.mod_small _ 4294967296 B1), (Z.mod_small _ 4294967296 B2).
  lia.
Qed.

(** X2. A packet that passes [_checkCRC] no longer does once a single byte of
    its header or body, the length byte apart, is replaced by another
    one. *)
Theorem single_corrupted_byte_is_rejected (p ok : packet_t) (n i : nat)
  (v : Z) :
  (n <= AC_MAX_BODY_SIZE)%nat ->
  length (data p) = AC_BUFFER_SIZE ->
  hdr header.body_length p = Z.of_nat n ->
  crc p = None \/ crc p = Some (AC_HEADER_SIZE + n)%nat ->
  (AC_HEADER_SIZE <= bytesLoaded p)%nat ->
  Forall is_byte (data p) ->
  _checkCRC p = Done (true, ok) ->
  (i < AC_HEADER_SIZE + n)%nat -> i <> header.body_length ->
  is_byte v -> v <> getb (data p) i ->
  exists q, _checkCRC (set_data (<[i := v]> (data p)) p) = Done (false, q).
Proof.
  intros Hn Hlen Hbl Hcrc Hld Hby Hok Hi Hi6 Hv Hne.
  rewrite (_checkCRC_verdict p n Hn Hlen Hbl Hcrc Hld) in Hok.
  cbv zeta in Hok.
  set (off := (AC_HEADER_SIZE + n)%nat) in *.
  assert (Hv0 : (getb (data p) off =? checksum_spec (firstn off (data p)) / 256)
                && (getb (data p) (S off)
                    =? checksum_spec (firstn off (data p)) mod 256) = true)
    by congruence.
  apply andb_true_iff in Hv0 as [H0 H1].
  apply Z.eqb_eq in H0. apply Z.eqb_eq in H1.
  set (p' := set_data (<[i := v]> (data p)) p).
  assert (Hlen' : length (data p') = AC_BUFFER_SIZE)
    by (unfold p'; cbn [data set_data]; rewrite length_insert; exact Hlen).
  assert (Hbl' : hdr header.body_length p' = Z.of_nat n).
  { unfold hdr, p'. cbn [data set_data].
    rewrite getb_insert_ne by exact Hi6. exact Hbl. }
  rewrite (_checkCRC_verdict p' n Hn Hlen' Hbl' Hcrc Hld). cbv zeta. fold off.
  eexists. f_equal. f_equal.
  unfold p'. cbn [data set_data].
  rewrite !getb_insert_ne by (unfold off in *; lia).
  rewrite take_insert_lt by exact Hi.
  set (l := firstn off (data p)) in *.
  unfold AC_MAX_BODY_SIZE, AC_BUFFER_SIZE, AC_HEADER_SIZE in *.
  assert (Hll : length l = off) by (unfold l; rewrite length_firstn; unfold off; lia).
  assert (Hgi : getb l i = getb (data p) i).
  { unfold l, getb. rewrite !nth_lookup, lookup_take_lt by (fold off; lia).
    reflexivity. }
  assert (Hd : checksum_spec (<[i := v]> l) <> checksum_spec l).
  { apply checksum_spec_insert.
    - unfold l. apply Forall_take. exact Hby.
    - rewrite Hll. unfold off. lia.
    - rewrite Hll. exact Hi.
    - exact Hv.
    - rewrite Hgi. exact Hne. }
  pose proof (checksum_spec_range l) as R.
  pose proof (checksum_spec_range (<[i := v]> l)) as R'.
  apply andb_false_iff.
  destruct (Z.eqb_spec (getb (data p) off) (checksum_spec (<[i := v]> l) / 256)) as [E0|E0];
    [|left; reflexivity].
  right. apply Z.eqb_neq. intros E1.
  apply Hd.
  rewrite (Z.div_mod (checksum_spec (<[i := v]> l)) 256) by lia.
  rewrite (Z.div_mod (checksum_spec l) 256) by lia.
  congruence.
Qed.

End Corruption.

(** ** The incoming packet along the link state machine *)

Section LinkInvariant.

Lemma idle_inv_clear : idle_inv _clearPacket.
Proof. split; [reflexivity|]. vm_compute. lia. Qed.

Lemma Forall_is_byte_clear : Forall is_byte _clearBuffer.
Proof.
  unfold _clearBuffer, AC_BUFFER_SIZE. cbn [repeat].
  repeat (constructor; [unfold is_byte; lia|]). constructor.
Qed.

Lemma rx_inv_fresh (now : Z) : rx_inv (set_msec now _clearPacket).
Proof.
  split; cbn.
  - reflexivity.
  - apply Forall_is_byte_clear.
  - unfold AC_BUFFER_SIZE. lia.
  - unfold AC_HEADER_SIZE. lia.
  - unfold AC_HEADER_SIZE. lia.
Qed.

Lemma rx_inv_clear : rx_inv _clearPacket.
Proof. exact (rx_inv_fresh 0). Qed.

Lemma is_byte_getb (d : list Z) (i : nat) :
  Forall is_byte d -> is_byte (getb d i).
Proof.
  intros H. unfold getb. rewrite nth_lookup.
  destruct (d !! i) as [x|] eqn:E; cbn.
  - exact (Forall_lookup_1 _ _ _ _ H E).
  - unfold is_byte. lia.
Qed.

(** One byte taken in keeps the invariant; a completed packet is
    handed over whole. *)
Lemma receive_byte_inv (b : Z) (p p' : packet_t) (r : receive_round) :
  rx_inv p -> is_byte b ->
  receive_byte b p = (r, p') ->
  rx_inv p' /\ (r = round_complete -> handed_over p').
Proof.
  intros [Hd Hb Hl Hc Hbo] Hbyte. unfold receive_byte.
  destruct (AC_BUFFER_SIZE <=? bytesLoaded p)%nat eqn:E.
  - intros H. injection H as <- <-. split; [split; assumption|discriminate].
  - apply Nat.leb_gt in E.
    cbn [bytesLoaded set_bytesLoaded set_data data].
    set (d1 := setb (data p) (bytesLoaded p) b).
    set (p1 := set_bytesLoaded (S (bytesLoaded p)) (set_data d1 p)).
    assert (Hd1 : length d1 = AC_BUFFER_SIZE)
      by (unfold d1, setb; rewrite length_insert; exact Hd).
    assert (Hb1 : Forall is_byte d1)
      by (unfold d1, setb; apply Forall_insert; assumption).
    assert (Hlen6 : (AC_HEADER_SIZE <= bytesLoaded p)%nat ->
                    hdr header.body_length p1 = hdr header.body_length p).
    { intros H8. unfold hdr, p1, d1, setb. cbn [data set_bytesLoaded set_data].
      apply getb_insert_ne. unfold header.body_length, AC_HEADER_SIZE in *. lia. }
    assert (Hoff : (AC_HEADER_SIZE <= bytesLoaded p)%nat ->
                   crc_offset p1 = crc_offset p).
    { intros H8. unfold crc_offset. rewrite (Hlen6 H8). reflexivity. }
    set (p2 := if (S (bytesLoaded p) =? AC_HEADER_SIZE)%nat
               then let q := set_crc (Some (crc_offset p1)) p1 in
                    if 0 <? hdr header.body_length q
                    then set_body (Some AC_HEADER_SIZE) q else q
               else p1).
    assert (D2 : data p2 = d1 /\ bytesLoaded p2 = S (bytesLoaded p)).
    { unfold p2. destruct (_ =? _)%nat; [|split; reflexivity].
      cbv zeta. destruct (0 <? _); split; reflexivity. }
    destruct D2 as [D2 L2].
    assert (H2 : hdr header.body_length p2 = hdr header.body_length p1)
      by (unfold hdr; rewrite D2; reflexivity).
    assert (O2 : crc_offset p2 = crc_offset p1)
      by (unfold crc_offset; rewrite H2; reflexivity).
    assert (I2 : rx_inv p2).
    { split.
      - rewrite D2. exact Hd1.
      - rewrite D2. exact Hb1.
      - rewrite L2. lia.
      - rewrite L2, O2. intros H8. unfold p2.
        destruct (Nat.eqb_spec (S (bytesLoaded p)) AC_HEADER_SIZE) as [E8|E8].
        + cbv zeta. destruct (0 <? _); reflexivity.
        + assert (H8' : (AC_HEADER_SIZE <= bytesLoaded p)%nat) by lia.
          rewrite (Hoff H8'). exact (Hc H8').
      - rewrite L2, H2. intros H8 Hpos. unfold p2.
        destruct (Nat.eqb_spec (S (bytesLoaded p)) AC_HEADER_SIZE) as [E8|E8].
        + cbv zeta.
          assert (Hq : hdr header.body_length (set_crc (Some (crc_offset p1)) p1)
                       = hdr header.body_length p1) by reflexivity.
          rewrite Hq. apply Z.ltb_lt in Hpos. rewrite Hpos. reflexivity.
        + assert (H8' : (AC_HEADER_SIZE <= bytesLoaded p)%nat) by lia.
          rewrite (Hlen6 H8') in Hpos. exact (Hbo H8' Hpos). }
    fold d1. fold p1. fold p2.
    destruct (Z.eqb_spec (Z.of_nat (bytesLoaded p2))
                (Z.of_nat AC_HEADER_SIZE + hdr header.body_length p2 + 2))
      as [C|C]; intros H; injection H as <- <-.
    + split; [exact I2|]. intros _.
      destruct I2 as [Jd Jb Jl Jc Jbo].
      pose proof (is_byte_getb (data p2) header.body_length Jb) as H6.
      fold (hdr header.body_length p2) in H6. unfold is_byte in H6.
      assert (J8 : (AC_HEADER_SIZE <= bytesLoaded p2)%nat)
        by (unfold AC_HEADER_SIZE in *; lia).
      split.
      * exact Jd.
      * unfold AC_BUFFER_SIZE, AC_HEADER_SIZE, AC_MAX_BODY_SIZE in *. lia.
      * exact C.
      * exact (Jc J8).
      * exact (Jbo J8).
    + split; [exact I2|discriminate].
Qed.

Lemma receive_loop_inv (l : list Z) :
  forall s : AirCon,
    _ac_state s = ACSM_RECEIVING_PACKET ->
    rx_inv (_inPacket s) -> Forall is_byte l ->
    link_inv (snd (receive_loop l s)) /\
    (fst (receive_loop l s) = false ->
     _ac_state (snd (receive_loop l s)) = ACSM_RECEIVING_PACKET /\
     rx_inv (_inPacket (snd (receive_loop l s)))).
Proof.
  induction l as [|b l IH]; intros s Hs Hi Hl; cbn [receive_loop].
  - cbn [fst snd]. unfold link_inv. cbn. rewrite Hs. auto.
  - inversion Hl as [|? ? Hb Hl']; subst.
    destruct (receive_byte b (_inPacket s)) as [r p] eqn:E.
    destruct (receive_byte_inv b _ p r Hi Hb E) as [I H].
    destruct r.
    + cbn [fst snd]. split; [|discriminate].
      unfold link_inv. cbn. exact idle_inv_clear.
    + cbn [fst snd]. split; [|discriminate].
      unfold link_inv. cbn. exact (H eq_refl).
    + apply IH; [exact Hs|exact I|exact Hl'].
Qed.

Lemma _doReceivingPacketState_inv (now : Z) (s : AirCon) :
  _ac_state s = ACSM_RECEIVING_PACKET ->
  rx_inv (_inPacket s) -> Forall is_byte (_ac_serial s) ->
  link_inv (_doReceivingPacketState now s).
Proof.
  intros Hs Hi Hl. unfold _doReceivingPacketState.
  destruct (receive_loop_inv (_ac_serial s) s Hs Hi Hl) as [A B].
  cbv zeta. destruct (fst (receive_loop (_ac_serial s) s)); [exact A|].
  destruct (B eq_refl) as [B1 B2].
  destruct (_ <=? _).
  - unfold link_inv. cbn. exact idle_inv_clear.
  - exact A.
Qed.

Lemma idle_drain_inv (l : list Z) :
  forall s : AirCon,
    idle_inv (_inPacket s) ->
    idle_inv (_inPacket (idle_drain l s)) /\
    _ac_state (idle_drain l s) = _ac_state s.
Proof.
  induction l as [|b l IH]; intros s Hi; cbn [idle_drain].
  - cbn. auto.
  - destruct (b =? AC_PACKET_START_BYTE); [cbn; auto|].
    cbv zeta.
    match goal with
    | |- context [idle_drain l (set_inPacket ?q s)] =>
        destruct (IH (set_inPacket q s)) as [A B]
    end.
    + cbn [_inPacket set_inPacket].
      destruct Hi as [Hd Hl].
      cbn [bytesLoaded set_bytesLoaded set_data data].
      destruct (Nat.leb_spec AC_BUFFER_SIZE (S (bytesLoaded (_inPacket s)))).
      * exact idle_inv_clear.
      * split; cbn; [unfold setb; rewrite length_insert; exact Hd|lia].
    + split; [exact A|]. rewrite B. reflexivity.
Qed.

Lemma idle_drain_inv_state (l : list Z) :
  forall s : AirCon, _ac_state (idle_drain l s) = _ac_state s.
Proof.
  induction l as [|b l IH]; intros s; cbn [idle_drain].
  - reflexivity.
  - destruct (b =? AC_PACKET_START_BYTE); [reflexivity|].
    cbv zeta. rewrite IH. reflexivity.
Qed.

Lemma _doParsingPacket_clears (now : Z) (s s' : AirCon) :
  _doParsingPacket now s = Done s' -> _inPacket s' = _clearPacket.
Proof.
  unfold _doParsingPacket. intros H. inv_bind H.
  destruct (negb (fst x)).
  - injection H as <-. reflexivity.
  - inv_bind H. injection H as <-. reflexivity.
Qed.

Lemma _doParsingPacket_next_state (now : Z) (s s' : AirCon) :
  _doParsingPacket now s = Done s' ->
  _ac_state s' = ACSM_IDLE \/ _ac_state s' = ACSM_SENDING_PACKET.
Proof.
  intros H. unfold _doParsingPacket in H. inv_bind H.
  destruct (negb (fst x)).
  - injection H as <-. left. reflexivity.
  - inv_bind H. injection H as <-.
    apply parse_dispatch_Done in Hx0 as (Hst & _).
    assert (F : engine_frame x0 x1).
    { destruct (hasSequence x0).
      - eapply _doSequence_frame; eauto.
      - injection Hx1 as <-. apply engine_frame_refl. }
    destruct F as [E _ _ _ _ _ _]. cbn [_ac_state _clearInPacket set_inPacket].
    rewrite E, Hst. destruct (_ =? _); auto.
Qed.

(** A pass of the state machine that returns keeps the invariant of the
    incoming packet. *)
Lemma loop_switch_link_inv (now : Z) (s s' : AirCon) :
  link_inv s -> Forall is_byte (_ac_serial s) ->
  loop_switch now s = Done s' ->
  link_inv s'.
Proof.
  intros Hi Hb H. unfold loop_switch in H. unfold link_inv in Hi.
  destruct (_ac_state s) eqn:St.
  - (* idle *)
    unfold _doIdleState in H. inv_bind H.
    pose proof (_doSequence_frame now s x Hx) as F. destruct F.
    rewrite <- ef_in0 in Hi.
    destruct (_ac_serial x) as [|b l] eqn:Ser.
    + destruct (0 <? _); injection H as <-; unfold link_inv; cbn;
        rewrite ?ef_state0, ?St; exact Hi.
    + destruct (b =? AC_PACKET_START_BYTE).
      * injection H as <-. unfold link_inv. cbn. apply rx_inv_fresh.
      * assert (E : s' = idle_drain (b :: l) x) by congruence.
        destruct (idle_drain_inv (b :: l) x Hi) as [A B].
        unfold link_inv. rewrite E, B, ef_state0, St. exact A.
  - injection H as <-. apply _doReceivingPacketState_inv; assumption.
  - pose proof (_doParsingPacket_clears now s s' H) as C.
    unfold link_inv. rewrite C.
    destruct (_ac_state s') eqn:St'; try exact idle_inv_clear.
    + exact rx_inv_clear.
    + destruct (_doParsingPacket_next_state now s s' H); congruence.
  - injection H as <-. unfold _doSendingPacketState.
    destruct (_ || _); unfold link_inv; cbn; [exact Hi|exact Hi].
Qed.

End LinkInvariant.

(** ** The invariant along a history *)

Section History.

(** The handlers read the UART from the front: what a pass leaves unread
    is an end of what was there. *)
Lemma idle_drain_unread (l : list Z) :
  forall s : AirCon, exists pre, l = pre ++ _ac_serial (idle_drain l s).
Proof.
  induction l as [|b l IH]; intros s; cbn [idle_drain].
  - exists []. reflexivity.
  - destruct (b =? AC_PACKET_START_BYTE).
    + exists []. reflexivity.
    + cbv zeta.
      match goal with
      | |- context [idle_drain l ?s0] => destruct (IH s0) as [pre E]
      end.
      exists (b :: pre). cbn [app]. f_equal. exact E.
Qed.

Lemma receive_loop_unread (l : list Z) :
  forall s : AirCon, exists pre, l = pre ++ _ac_serial (snd (receive_loop l s)).
Proof.
  induction l as [|b l IH]; intros s; cbn [receive_loop].
  - exists []. reflexivity.
  - destruct (receive_byte b (_inPacket s)) as [[| |] p].
    + exists []. reflexivity.
    + exists [b]. reflexivity.
    + destruct (IH (set_inPacket p s)) as [pre E].
      exists (b :: pre). cbn [app]. f_equal. exact E.
Qed.

Lemma _doParsingPacket_serial (now : Z) (s s' : AirCon) :
  _doParsingPacket now s = Done s' -> _ac_serial s' = _ac_serial s.
Proof.
  unfold _doParsingPacket. intros H. inv_bind H.
  destruct (negb (fst x)).
  - injection H as <-. reflexivity.
  - inv_bind H. injection H as <-.
    apply parse_dispatch_Done in Hx0 as (_ & E & _).
    cbn [_ac_serial _clearInPacket set_inPacket] in *.
    destruct (hasSequence x0).
    + apply _doSequence_frame in Hx1. destruct Hx1. congruence.
    + injection Hx1 as <-. exact E.
Qed.

Lemma loop_switch_unread (now : Z) (s s' : AirCon) :
  loop_switch now s = Done s' ->
  exists pre, _ac_serial s = pre ++ _ac_serial s'.
Proof.
  unfold loop_switch. intros H. destruct (_ac_state s).
  - unfold _doIdleState in H. inv_bind H.
    apply _doSequence_frame in Hx. destruct Hx as [_ _ Es _ _ _ _].
    rewrite <- Es.
    destruct (_ac_serial x) as [|b l] eqn:Ser.
    + exists []. destruct (0 <? _); injection H as <-; cbn; rewrite Ser;
        reflexivity.
    + destruct (b =? AC_PACKET_START_BYTE).
      * exists []. injection H as <-. cbn. rewrite Ser. reflexivity.
      * assert (E : s' = idle_drain (b :: l) x) by congruence.
        rewrite E. apply idle_drain_unread.
  - injection H as <-. unfold _doReceivingPacketState. cbv zeta.
    destruct (receive_loop_unread (_ac_serial s) s) as [pre E].
    exists pre. destruct (fst _); [exact E|].
    destruct (_ <=? _); exact E.
  - exists []. rewrite (_doParsingPacket_serial now s s' H). reflexivity.
  - exists []. injection H as <-. unfold _doSendingPacketState. cbv zeta.
    destruct (_ || _); reflexivity.
Qed.

Lemma link_inv_transfer (s s' : AirCon) :
  _ac_state s' = _ac_state s -> _inPacket s' = _inPacket s ->
  link_inv s -> link_inv s'.
Proof. unfold link_inv. intros -> ->. exact id. Qed.

Lemma commandSequence_frame (cmd : ac_command_t) (s : AirCon)
  (r : option AirCon) :
  commandSequence cmd s = Done r -> strict_frame s (default s r).
Proof.
  unfold commandSequence. intros H.
  destruct (_ && _); [injection H as <-; apply strict_frame_refl|].
  inv_bind H. injection H as <-. cbn [default].
  apply load_step_frame in Hx, Hx0, Hx1, Hx3, Hx4, Hx5.
  apply load_step_cmd_frame in Hx2.
  eauto 10 using strict_frame_trans.
Qed.

Lemma happen_link_inv (e : event) (s s' : AirCon) :
  delivers_bytes e ->
  link_inv s /\ Forall is_byte (_ac_serial s) ->
  happen e s = Done s' ->
  link_inv s' /\ Forall is_byte (_ac_serial s').
Proof.
  intros He [Hi Hb] H. destruct e as [bs|now| |cmd]; cbn [happen] in H.
  - injection H as <-. split.
    + exact (link_inv_transfer s _ eq_refl eq_refl Hi).
    + cbn. apply Forall_app. split; assumption.
  - split; [exact (loop_switch_link_inv now s s' Hi Hb H)|].
    destruct (loop_switch_unread now s s' H) as [pre E].
    rewrite E in Hb. apply Forall_app in Hb. tauto.
  - inv_bind H. injection H as <-.
    apply startupSequence_frame in Hx. destruct Hx as [A _ B _ C _ _].
    split; [exact (link_inv_transfer s _ A C Hi)|]. rewrite B. exact Hb.
  - inv_bind H. injection H as <-.
    apply commandSequence_frame in Hx. destruct Hx as [A _ B _ C _ _].
    split; [exact (link_inv_transfer s _ A C Hi)|]. rewrite B. exact Hb.
Qed.

(** X3. The incoming packet stays well formed along every history of the
    component that starts in a state where it is, so after [initAC] in
    particular: whatever bytes arrive and whenever passes are made, a
    startup transaction asked for or a command handed over, no more than
    34 bytes are loaded into the buffer while a frame is received, the
    pointers to body and checksum are set once the header is in, and a
    packet reaches the parsing step only whole. *)
Theorem history_keeps_link_inv (es : list event) (s s' : AirCon) :
  link_inv s -> Forall is_byte (_ac_serial s) ->
  Forall delivers_bytes es ->
  history es s = Done s' ->
  link_inv s' /\ Forall is_byte (_ac_serial s').
Proof.
  intros Hi Hb Hes. revert s Hi Hb.
  induction Hes as [|e es He _ IH]; intros s Hi Hb H; cbn [history] in H.
  - injection H as <-. auto.
  - inv_bind H.
    destruct (happen_link_inv e s x He (conj Hi Hb) Hx) as [Hi' Hb'].
    exact (IH x Hi' Hb' H).
Qed.

End History.

(** ** The steps return *)

Section Returns.

Lemma seq_item_ok (i : nat) (s : AirCon) (it : sequence_item_t) :
  _sequence s !! i = Some it -> seq_item i s = Done it.
Proof. intros H. unfold seq_item. rewrite H. reflexivity. Qed.

Lemma sized_lookup (s : AirCon) (i : nat) :
  sized s -> (i < AC_SEQUENCE_MAX_LEN)%nat ->
  exists it, _sequence s !! i = Some it /\
             length (data (sequence_item_t.packet it)) = AC_BUFFER_SIZE.
Proof.
  intros [Hs _ Hi] Hlt.
  destruct (lookup_lt_is_Some_2 (_sequence s) i ltac:(lia)) as [it Hit].
  exists it. split; [exact Hit|].
  exact (Forall_lookup_1 _ _ _ _ Hi Hit).
Qed.

Lemma sized_put (s : AirCon) (i : nat) (it : sequence_item_t) :
  sized s ->
  length (data (sequence_item_t.packet it)) = AC_BUFFER_SIZE ->
  sized (set_sequence (<[i := it]> (_sequence s)) s).
Proof.
  intros [Hs Ho Hi] Hp. split; cbn.
  - rewrite length_insert. exact Hs.
  - exact Ho.
  - apply Forall_insert; assumption.
Qed.

Lemma sized_set_outPacket (s : AirCon) (p : packet_t) :
  sized s -> length (data p) = AC_BUFFER_SIZE -> sized (set_outPacket p s).
Proof. intros [Hs Ho Hi] Hp. split; cbn; assumption. Qed.

(** What a status request leaves in a packet. *)
Lemma fill_status_request_ok (code now : Z) (p : packet_t) :
  length (data p) = AC_BUFFER_SIZE ->
  exists p',
    fill_status_request code now p = Done p' /\
    length (data p') = AC_BUFFER_SIZE /\
    bytesLoaded p' = 12%nat /\
    msec p' = now /\
    crc p' = Some 10%nat /\
    body p' = Some AC_HEADER_SIZE /\
    hdr header.start_byte p' = AC_PACKET_START_BYTE /\
    hdr header.wifi p' = AC_PACKET_ANSWER /\
    hdr header.packet_type p' = AC_PTYPE_CMD /\
    hdr header.body_length p' = 2 /\
    getb (data p') 8 = code /\
    getb (data p') 9 = 0x01 /\
    _checkCRC p' = Done (true, p').
Proof.
  intros Hl. unfold fill_status_request.
  set (p0 := set_body _ _).
  assert (R0 : ready p0).
  { split; [reflexivity|]. unfold p0, set_hdr, setb.
    cbn [data set_data set_body set_msec]. rewrite !length_insert. exact Hl. }
  rewrite set_body_byte_upd by (exact R0 || lia). cbn [bind].
  set (p1 := upd _ _ p0).
  assert (R1 : ready p1) by (apply ready_upd; exact R0).
  rewrite set_body_byte_upd by (exact R1 || lia). cbn [bind].
  set (p2 := upd _ _ p1).
  assert (R2 : ready p2) by (apply ready_upd; exact R1).
  assert (H6 : hdr header.body_length p2 = Z.of_nat 2).
  { unfold hdr, p2, p1, upd, p0, set_hdr, setb.
    cbn [data set_data set_body set_msec].
    unfold AC_HEADER_SIZE, header.body_length, header.packet_type,
      header.wifi, header.start_byte.
    rewrite !getb_insert_ne by lia.
    apply getb_insert_eq. rewrite !length_insert, Hl.
    unfold AC_BUFFER_SIZE. lia. }
  assert (Ho : crc_offset p2 = 10%nat)
    by (rewrite (crc_offset_of_length p2 2 H6); reflexivity).
  set (p3 := set_crc _ (set_bytesLoaded _ p2)).
  assert (H6' : hdr header.body_length p3 = Z.of_nat 2) by exact H6.
  assert (Hl3 : length (data p3) = AC_BUFFER_SIZE) by exact (proj2 R2).
  assert (Hc3 : crc p3 = Some (AC_HEADER_SIZE + 2)%nat).
  { unfold p3. cbn [crc set_crc].
    change (crc_offset (set_bytesLoaded (crc_offset p2 + 2) p2))
      with (crc_offset p2).
    rewrite Ho. reflexivity. }
  assert (Hb3 : (AC_HEADER_SIZE <= bytesLoaded p3)%nat).
  { unfold p3. cbn [bytesLoaded set_crc set_bytesLoaded]. rewrite Ho.
    unfold AC_HEADER_SIZE. lia. }
  destruct (_setCRC16_checkCRC p3 2
              ltac:(unfold AC_MAX_BODY_SIZE; lia) Hl3 H6' (or_intror Hc3) Hb3)
    as (p' & Hs & Hv).
  exists p'. split; [exact Hs|].
  pose proof (_setCRC16_bytes p3 2 ltac:(unfold AC_MAX_BODY_SIZE; lia)
                Hl3 H6' (or_intror Hc3)) as Hs'.
  cbv zeta in Hs'.
  set (hi := checksum_spec _ / 256) in Hs'.
  set (lo := checksum_spec _ mod 256) in Hs'.
  assert (E : p' = set_data (<[S (AC_HEADER_SIZE + 2) := lo]>
                               (<[(AC_HEADER_SIZE + 2)%nat := hi]> (data p3)))
                     (set_crc (Some (AC_HEADER_SIZE + 2)%nat) p3))
    by congruence.
  clear Hs Hs'. clearbody hi lo.
  assert (L0 : length (data p0) = 34%nat) by exact (proj2 R0).
  assert (D3 : data p3 = <[9%nat := 0x01]> (<[8%nat := code]> (data p0)))
    by reflexivity.
  assert (G : forall k, (k < 8)%nat ->
                getb (data p') k = getb (data p0) k).
  { intros k Hk. rewrite E. cbn [data set_data]. rewrite D3.
    unfold AC_HEADER_SIZE. rewrite !getb_insert_ne by lia. reflexivity. }
  assert (D0 : data p0 =
               <[6%nat := 2]> (<[2%nat := AC_PTYPE_CMD]>
                 (<[3%nat := AC_PACKET_ANSWER]>
                    (<[0%nat := AC_PACKET_START_BYTE]> (data p)))))
    by reflexivity.
  unfold AC_BUFFER_SIZE in Hl.
  split; [rewrite E; cbn [data set_data]; rewrite !length_insert; exact Hl3|].
  split; [rewrite E; cbn [bytesLoaded set_data set_crc]; unfold p3;
          cbn [bytesLoaded set_crc set_bytesLoaded]; rewrite Ho; reflexivity|].
  split; [rewrite E; reflexivity|].
  split; [rewrite E; reflexivity|].
  split; [rewrite E; exact (proj1 R2)|].
  unfold hdr, header.start_byte, header.wifi, header.packet_type,
    header.body_length.
  rewrite !G by lia. rewrite D0.
  split; [rewrite !getb_insert_ne by lia; apply getb_insert_eq; lia|].
  split; [rewrite !getb_insert_ne by lia; apply getb_insert_eq;
          rewrite ?length_insert; lia|].
  split; [rewrite !getb_insert_ne by lia; apply getb_insert_eq;
          rewrite ?length_insert; lia|].
  split; [apply getb_insert_eq; rewrite ?length_insert; lia|].
  split.
  { rewrite E. cbn [data set_data]. rewrite D3. unfold AC_HEADER_SIZE.
    rewrite !getb_insert_ne by lia. apply getb_insert_eq. lia. }
  split.
  { rewrite E. cbn [data set_data]. rewrite D3. unfold AC_HEADER_SIZE.
    rewrite !getb_insert_ne by lia. apply getb_insert_eq.
    rewrite length_insert. lia. }
  exact Hv.
Qed.

End Returns.

(** ** The operations of the sequence engine return *)

Section EngineReturns.

Lemma mark_step_ok (t : sequence_packet_type_t) (s : AirCon)
  (it : sequence_item_t) :
  _sequence s !! _sequence_current_step s = Some it ->
  mark_step t s
  = Done (set_sequence
            (<[_sequence_current_step s := sequence_item_t.set_packet_type t it]>
               (_sequence s)) s).
Proof.
  intros H. unfold mark_step. rewrite (seq_item_ok _ _ _ H). cbn [bind].
  apply (put_item_ok _ it). exact H.
Qed.

Lemma store_packet_slot_ok (i : nat) (v : packet_t) (s : AirCon)
  (it : sequence_item_t) :
  _sequence s !! i = Some it ->
  store_packet (ptr_sequence_packet i) v s
  = Done (set_sequence (<[i := sequence_item_t.set_packet v it]> (_sequence s)) s).
Proof.
  intros H. cbn [store_packet]. rewrite (seq_item_ok _ _ _ H). cbn [bind].
  apply (put_item_ok _ it). exact H.
Qed.

Lemma lookup_put (s : AirCon) (i : nat) (it it' : sequence_item_t) :
  _sequence s !! i = Some it ->
  _sequence (set_sequence (<[i := it']> (_sequence s)) s) !! i = Some it'.
Proof.
  intros H. cbn. apply list_lookup_insert_eq. eapply lookup_lt_Some; eauto.
Qed.

(** A request for a status. With an outgoing packet pending the step
    waits; else it seals the request in the outgoing packet, keeps a copy
    in its slot and moves the cursor on. *)
Lemma sq_request_status_ok (code now : Z) (s : AirCon) :
  sized s -> (_sequence_current_step s < AC_SEQUENCE_MAX_LEN)%nat ->
  exists s',
    sq_request_status code now s = Done (true, s') /\
    if (0 <? bytesLoaded (_outPacket s))%nat
    then s' = s
    else fill_status_request code now (_outPacket s) = Done (_outPacket s') /\
         _sequence_current_step s' = S (_sequence_current_step s) /\
         sized s'.
Proof.
  intros Hz Hc. unfold sq_request_status.
  destruct (0 <? bytesLoaded (_outPacket s))%nat; [exists s; auto|].
  destruct (fill_status_request_ok code now (_outPacket s) (sz_out s Hz))
    as (out & Ho & Hol & _).
  rewrite Ho. cbn [bind].
  destruct (sized_lookup s _ Hz Hc) as (it & Hit & Hitl).
  cbn [load_packet _sequence_current_step set_outPacket].
  unfold seq_item at 1. cbn [_sequence set_outPacket]. rewrite Hit. cbn [bind].
  destruct (fill_status_request_ok code now (sequence_item_t.packet it) Hitl)
    as (pk & Hp & Hpl & _).
  rewrite Hp. cbn [bind].
  pose proof (sized_set_outPacket s out Hz Hol) as Hz1.
  set (s1 := set_outPacket out s) in *.
  assert (Hit1 : _sequence s1 !! _sequence_current_step s1 = Some it)
    by exact Hit.
  change (_sequence_current_step s) with (_sequence_current_step s1).
  rewrite (store_packet_slot_ok _ pk s1 it Hit1). cbn [bind].
  pose proof (sized_put s1 (_sequence_current_step s1)
                (sequence_item_t.set_packet pk it) Hz1 Hpl) as Hz2.
  pose proof (lookup_put s1 _ it (sequence_item_t.set_packet pk it) Hit1) as Hit2.
  set (s2 := set_sequence _ s1) in *.
  change (_sequence_current_step s1) with (_sequence_current_step s2) in Hit2.
  rewrite (mark_step_ok _ s2 _ Hit2). cbn [bind].
  eexists. split; [reflexivity|].
  split; [reflexivity|]. split; [reflexivity|].
  unfold step_advance.
  pose proof (sized_put s2 (_sequence_current_step s2)
                (sequence_item_t.set_packet_type AC_SPT_SENT_PACKET
                   (sequence_item_t.set_packet pk it)) Hz2 Hpl) as Hz3.
  destruct Hz3 as [A B C]. split; assumption.
Qed.

(** The head of the confirm operations. *)
Lemma control_prologue_ok (s : AirCon) (it : sequence_item_t) :
  _sequence s !! _sequence_current_step s = Some it ->
  control_prologue s =
    Done (if (bytesLoaded (_inPacket s) =? 0)%nat
             || (hdr header.packet_type (_inPacket s) =? AC_PTYPE_PING)
          then None
          else Some (set_sequence
                       (<[_sequence_current_step s :=
                            sequence_item_t.set_packet_type AC_SPT_RECEIVED_PACKET
                              (sequence_item_t.set_packet
                                 (_copyPacket (sequence_item_t.packet it)
                                    (_inPacket s)) it)]>
                          (_sequence s)) s)).
Proof.
  intros Hit. unfold control_prologue.
  destruct (bytesLoaded (_inPacket s) =? 0)%nat; [reflexivity|].
  destruct (hdr header.packet_type (_inPacket s) =? AC_PTYPE_PING);
    [reflexivity|].
  cbn [orb load_packet]. rewrite (seq_item_ok _ _ _ Hit). cbn [bind].
  rewrite (store_packet_slot_ok _ _ s it Hit). cbn [bind].
  set (it1 := sequence_item_t.set_packet _ it).
  pose proof (lookup_put s _ it it1 Hit) as Hit1.
  set (s1 := set_sequence _ s) in *.
  change (_sequence_current_step s) with (_sequence_current_step s1) in Hit1.
  rewrite (mark_step_ok _ s1 _ Hit1). cbn [bind].
  f_equal. f_equal. unfold s1. cbn.
  rewrite list_insert_insert_eq. reflexivity.
Qed.

Lemma body_is_ok (i : nat) (v : Z) (p : packet_t) :
  handed_over p -> 0 < hdr header.body_length p -> (i < 26)%nat ->
  exists b, body_is i v p = Done b.
Proof.
  intros H Hpos Hi. unfold body_is.
  rewrite (ho_body p H Hpos).
  rewrite rd_ptr_getb
    by (rewrite (ho_data p H); unfold AC_HEADER_SIZE, AC_BUFFER_SIZE; lia).
  eexists. reflexivity.
Qed.

Lemma and_then_body_is (a : bool) (i : nat) (v : Z) (p : packet_t) :
  (a = true -> handed_over p /\ 0 < hdr header.body_length p) ->
  (i < 26)%nat ->
  exists b, and_then a (body_is i v p) = Done b /\ (b = true -> a = true).
Proof.
  intros H Hi. destruct a; cbn [and_then].
  - destruct (H eq_refl) as [Ho Hpos].
    destruct (body_is_ok i v p Ho Hpos Hi) as [b Hb].
    exists b. auto.
  - exists false. auto.
Qed.

Lemma in_packet_ready_body (p : packet_t) (len : Z) :
  in_packet_ready p -> bytesLoaded p <> 0%nat -> 0 < len ->
  (hdr header.packet_type p =? AC_PTYPE_INFO)
  && (hdr header.body_length p =? len) = true ->
  handed_over p /\ 0 < hdr header.body_length p.
Proof.
  intros [H0|[Ho Hi]] Hn Hlen Hr; [contradiction|].
  apply andb_true_iff in Hr as [Ht Hl].
  apply Z.eqb_eq in Ht. auto.
Qed.

(** The confirm operations of the status requests return. *)
Lemma sq_control_status_ok (len code : Z) (s : AirCon) :
  0 < len ->
  sized s -> (_sequence_current_step s < AC_SEQUENCE_MAX_LEN)%nat ->
  in_packet_ready (_inPacket s) ->
  exists r, sq_control_status len code s = Done r.
Proof.
  intros Hlen Hz Hc Hin. unfold sq_control_status.
  destruct (sized_lookup s _ Hz Hc) as (it & Hit & _).
  rewrite (control_prologue_ok s it Hit). cbn [bind].
  destruct (Nat.eqb_spec (bytesLoaded (_inPacket s)) 0) as [E|E];
    [eexists; reflexivity|].
  cbn [orb].
  destruct (hdr header.packet_type (_inPacket s) =? AC_PTYPE_PING);
    [eexists; reflexivity|].
  cbv zeta. cbn [_inPacket set_sequence].
  set (rel := (_ =? AC_PTYPE_INFO) && (_ =? len)).
  destruct (and_then_body_is rel 0 0x01 (_inPacket s)
              (in_packet_ready_body _ len Hin E Hlen) ltac:(lia))
    as (b0 & -> & Hb0).
  cbn [bind].
  destruct (and_then_body_is b0 1 code (_inPacket s)
              (fun H => in_packet_ready_body _ len Hin E Hlen (Hb0 H))
              ltac:(lia))
    as (b1 & -> & Hb1).
  cbn [bind]. eexists. reflexivity.
Qed.

Lemma previous_step_crc_ok (i : nat) (s : AirCon) (prev c : nat)
  (it' : sequence_item_t) :
  _sequence_current_step s = S prev ->
  _sequence s !! prev = Some it' ->
  crc (sequence_item_t.packet it') = Some c ->
  (c + 1 < length (data (sequence_item_t.packet it')))%nat ->
  (i <= 1)%nat ->
  exists v, previous_step_crc i s = Done v.
Proof.
  intros Hs Hit Hc Hl Hi. unfold previous_step_crc. rewrite Hs.
  rewrite (seq_item_ok _ _ _ Hit). cbn [bind]. rewrite Hc.
  rewrite rd_ptr_getb by lia. eexists. reflexivity.
Qed.

(** The confirm operation of the set command returns when the step
    before it holds a sealed request. *)
Lemma sq_controlDoCommand_ok (s : AirCon) :
  sized s -> (_sequence_current_step s < AC_SEQUENCE_MAX_LEN)%nat ->
  in_packet_ready (_inPacket s) ->
  (hdr header.packet_type (_inPacket s) = AC_PTYPE_INFO ->
   hdr header.body_length (_inPacket s) = 4 ->
   previous_step_sealed s) ->
  exists r, sq_controlDoCommand s = Done r.
Proof.
  intros Hz Hc Hin Hprev.
  unfold sq_controlDoCommand.
  destruct (sized_lookup s _ Hz Hc) as (it & Hit & _).
  rewrite (control_prologue_ok s it Hit). cbn [bind].
  destruct (Nat.eqb_spec (bytesLoaded (_inPacket s)) 0) as [E|E];
    [eexists; reflexivity|].
  cbn [orb].
  destruct (hdr header.packet_type (_inPacket s) =? AC_PTYPE_PING);
    [eexists; reflexivity|].
  cbv zeta.
  set (s1 := set_sequence _ s).
  change (_inPacket s1) with (_inPacket s).
  set (rel := (_ =? AC_PTYPE_INFO) && (_ =? 4)).
  pose proof (in_packet_ready_body _ 4 Hin E ltac:(lia)) as Hb.
  fold rel in Hb.
  destruct (and_then_body_is rel 0 0x01 (_inPacket s) Hb ltac:(lia))
    as (b0 & -> & Hb0).
  cbn [bind].
  destruct (and_then_body_is b0 1 AC_CMD_SET_PARAMS (_inPacket s)
              (fun H => Hb (Hb0 H)) ltac:(lia))
    as (b1 & -> & Hb1).
  cbn [bind].
  assert (Hp : b1 = true -> forall i, (i <= 1)%nat ->
                 exists v, body_echoes_crc i s1 = Done v).
  { intros Hb1t i Hi. unfold body_echoes_crc.
    change (_inPacket s1) with (_inPacket s).
    pose proof (Hb0 (Hb1 Hb1t)) as Hrel. unfold rel in Hrel.
    apply andb_true_iff in Hrel as [Ht H4].
    apply Z.eqb_eq in Ht. apply Z.eqb_eq in H4.
    destruct (Hprev Ht H4) as (prev & it' & c & Hs & Hit' & Hcrc & Hcl).
    destruct (Nat.eq_dec prev (_sequence_current_step s)) as [Ep|Ep]; [lia|].
    assert (Hit1 : _sequence s1 !! prev = Some it').
    { unfold s1. cbn [_sequence set_sequence].
      rewrite list_lookup_insert_ne by auto. exact Hit'. }
    destruct (previous_step_crc_ok i s1 prev c it' Hs Hit1 Hcrc Hcl Hi)
      as [v Hv].
    destruct (Hb (Hb0 (Hb1 Hb1t))) as [Ho Hpos].
    rewrite (ho_body _ Ho Hpos).
    rewrite rd_ptr_getb
      by (rewrite (ho_data _ Ho); unfold AC_HEADER_SIZE, AC_BUFFER_SIZE; lia).
    cbn [bind]. rewrite Hv. cbn [bind]. eexists. reflexivity. }
  destruct b1; cbn [and_then].
  - destruct (Hp eq_refl 0%nat ltac:(lia)) as [v0 ->]. cbn [bind].
    destruct v0; cbn [and_then].
    + destruct (Hp eq_refl 1%nat ltac:(lia)) as [v1 ->]. cbn [bind].
      eexists. reflexivity.
    + cbn [bind]. eexists. reflexivity.
  - cbn [bind and_then]. eexists. reflexivity.
Qed.

End EngineReturns.

(** ** The encoder of the set command and the whole engine return *)

Section ParseReturns.

Lemma sized_set_current_ac_state (s : AirCon) (c : ac_state_t) :
  sized s -> sized (set_current_ac_state c s).
Proof. intros [A B C]. split; assumption. Qed.

Lemma sized_slot_packet (s : AirCon) (i : nat) (it : sequence_item_t) :
  sized s -> _sequence s !! i = Some it ->
  length (data (sequence_item_t.packet it)) = AC_BUFFER_SIZE.
Proof. intros [_ _ C] H. exact (Forall_lookup_1 _ _ _ _ C H). Qed.

Lemma load_packet_ok (pk : packet_ptr) (s : AirCon) :
  sized s -> packet_ptr_ok pk ->
  exists p, load_packet pk s = Done p /\ length (data p) = AC_BUFFER_SIZE.
Proof.
  intros Hz Hp. destruct pk as [|i]; cbn.
  - exists (_outPacket s). split; [reflexivity|apply Hz].
  - destruct (sized_lookup s i Hz Hp) as (it & Hit & Hl).
    rewrite (seq_item_ok _ _ _ Hit). cbn. eauto.
Qed.

Lemma store_packet_ok (pk : packet_ptr) (v : packet_t) (s : AirCon) :
  sized s -> packet_ptr_ok pk -> length (data v) = AC_BUFFER_SIZE ->
  exists s', store_packet pk v s = Done s' /\ sized s' /\
             _sequence_current_step s' = _sequence_current_step s /\
             _outPacket s' = match pk with
                             | ptr_outPacket => v
                             | _ => _outPacket s
                             end.
Proof.
  intros Hz Hp Hv. destruct pk as [|i].
  - cbn. eexists. split; [reflexivity|].
    split; [apply sized_set_outPacket; assumption|]. split; reflexivity.
  - destruct (sized_lookup s i Hz Hp) as (it & Hit & Hl).
    rewrite (store_packet_slot_ok i v s it Hit).
    eexists. split; [reflexivity|].
    split; [apply sized_put; assumption|]. split; reflexivity.
Qed.

Lemma store_command_ok (cp : command_ptr) (v : ac_command_t) (s : AirCon) :
  sized s -> command_ptr_ok cp ->
  exists s', store_command cp v s = Done s' /\ sized s' /\
             _sequence_current_step s' = _sequence_current_step s /\
             _outPacket s' = _outPacket s.
Proof.
  intros Hz Hp. destruct cp as [| |i]; [contradiction| |].
  - cbn. eexists. split; [reflexivity|].
    split; [apply sized_set_current_ac_state; assumption|].
    split; reflexivity.
  - destruct (sized_lookup s i Hz Hp) as (it & Hit & Hl).
    cbn [store_command]. rewrite (seq_item_ok _ _ _ Hit). cbn [bind].
    rewrite (put_item_ok _ it _ _ Hit).
    eexists. split; [reflexivity|].
    split; [apply sized_put; assumption|]. split; reflexivity.
Qed.

Lemma load_command_ok (cp : command_ptr) (s : AirCon) :
  sized s -> command_ptr_ok cp -> exists c, load_command cp s = Done c.
Proof.
  intros Hz Hp. destruct cp as [| |i]; [contradiction| |]; cbn.
  - eauto.
  - destruct (sized_lookup s i Hz Hp) as (it & Hit & Hl).
    rewrite (seq_item_ok _ _ _ Hit). cbn. eauto.
Qed.

Lemma fill_pass_ok (now : Z) (pk : packet_ptr) (cp : command_ptr) (s : AirCon) :
  sized s -> packet_ptr_ok pk -> command_ptr_ok cp ->
  exists s', fill_pass now pk cp s = Done s' /\ sized s' /\
             _sequence_current_step s' = _sequence_current_step s.
Proof.
  intros Hz Hpk Hcp. unfold fill_pass.
  destruct (load_packet_ok pk s Hz Hpk) as (p & -> & Hl). cbn [bind].
  destruct (load_command_ok cp s Hz Hcp) as (c & ->). cbn [bind].
  destruct (fill_from_command_bytes now c p Hl) as (p' & -> & [_ Hl'] & _).
  cbn [bind fst snd].
  destruct (store_packet_ok pk p' s Hz Hpk Hl') as (s1 & -> & Hz1 & Hc1 & _).
  cbn [bind].
  destruct (store_command_ok cp
              (if temp_target_matter c then clamp_temp_target c else c)
              s1 Hz1 Hcp) as (s2 & -> & Hz2 & Hc2 & _).
  exists s2. split; [reflexivity|]. split; [exact Hz2|]. congruence.
Qed.

Lemma _fillSetCommand_ok (clr : bool) (pk : packet_ptr) (cp : command_ptr)
  (now : Z) (s : AirCon) :
  sized s -> packet_ptr_ok pk -> command_ptr_ok cp ->
  exists s', _fillSetCommand clr pk cp now s = Done s' /\ sized s' /\
             _sequence_current_step s' = _sequence_current_step s.
Proof.
  intros Hz Hpk Hcp. unfold _fillSetCommand.
  assert (H0 : exists s0,
             (if clr then store_packet pk _clearPacket s else Done s) = Done s0 /\
             sized s0 /\ _sequence_current_step s0 = _sequence_current_step s).
  { destruct clr; [|eauto].
    destruct (store_packet_ok pk _clearPacket s Hz Hpk eq_refl)
      as (s0 & E & Hz0 & Hc0 & _). eauto. }
  destruct H0 as (s0 & -> & Hz0 & Hc0). cbn [bind].
  assert (H1 : exists s1,
             match cp with
             | ptr_current_ac_state => Done s0
             | _ => fill_pass now pk ptr_current_ac_state s0
             end = Done s1 /\
             sized s1 /\ _sequence_current_step s1 = _sequence_current_step s0).
  { destruct cp; [contradiction|eauto|];
      apply fill_pass_ok; cbn; auto. }
  destruct H1 as (s1 & -> & Hz1 & Hc1). cbn [bind].
  destruct cp as [| |i]; [contradiction| |];
    destruct (fill_pass_ok now pk _ s1 Hz1 Hpk Hcp) as (s2 & E & Hz2 & Hc2);
    exists s2; (split; [exact E|]); (split; [exact Hz2|]); congruence.
Qed.

Lemma sq_requestDoCommand_ok (now : Z) (s : AirCon) :
  sized s -> (_sequence_current_step s < AC_SEQUENCE_MAX_LEN)%nat ->
  exists r, sq_requestDoCommand now s = Done r.
Proof.
  intros Hz Hc. unfold sq_requestDoCommand.
  destruct (0 <? bytesLoaded (_outPacket s))%nat; [eauto|].
  cbv zeta.
  destruct (_fillSetCommand_ok true ptr_outPacket
              (ptr_sequence_cmd (_sequence_current_step s)) now s Hz I Hc)
    as (s1 & -> & Hz1 & Hc1).
  cbn [bind].
  destruct (_fillSetCommand_ok true
              (ptr_sequence_packet (_sequence_current_step s))
              (ptr_sequence_cmd (_sequence_current_step s)) now s1 Hz1 Hc Hc)
    as (s2 & -> & Hz2 & Hc2).
  cbn [bind].
  assert (Hlt : (_sequence_current_step s2 < AC_SEQUENCE_MAX_LEN)%nat)
    by congruence.
  destruct (sized_lookup s2 _ Hz2 Hlt) as (it & Hit & _).
  rewrite (mark_step_ok _ s2 it Hit). cbn [bind]. eauto.
Qed.

(** An operation of the sequence engine returns. *)
Lemma call_ok (f : step_function) (now : Z) (s : AirCon) :
  sized s -> (_sequence_current_step s < AC_SEQUENCE_MAX_LEN)%nat ->
  in_packet_ready (_inPacket s) ->
  (f = ptr_sq_controlDoCommand ->
   hdr header.packet_type (_inPacket s) = AC_PTYPE_INFO ->
   hdr header.body_length (_inPacket s) = 4 ->
   previous_step_sealed s) ->
  exists r, call f now s = Done r.
Proof.
  intros Hz Hc Hin Hf. destruct f; cbn [call].
  - destruct (sq_request_status_ok AC_CMD_STATUS_SMALL now s Hz Hc)
      as (s' & E & _). eauto.
  - apply sq_control_status_ok; auto. lia.
  - destruct (sq_request_status_ok AC_CMD_STATUS_BIG now s Hz Hc)
      as (s' & E & _). eauto.
  - apply sq_control_status_ok; auto. lia.
  - apply sq_requestDoCommand_ok; auto.
  - apply sq_controlDoCommand_ok; auto.
Qed.

(** A step of the sequence engine returns. *)
Lemma _doSequence_ok (now : Z) (s : AirCon) :
  sized s -> in_packet_ready (_inPacket s) -> confirm_command_ready s ->
  exists s', _doSequence now s = Done s'.
Proof.
  intros Hz Hin Hcc. unfold _doSequence.
  destruct (negb (hasSequence s)); [eauto|].
  destruct (Nat.leb_spec AC_SEQUENCE_MAX_LEN (_sequence_current_step s))
    as [Hc|Hc]; [eauto|].
  destruct (sized_lookup s _ Hz Hc) as (it & Hit & Hl).
  rewrite (seq_item_ok _ _ _ Hit). cbn [bind].
  destruct (sequence_item_t.item_type it); [eauto| |].
  - cbv zeta.
    rewrite (put_item_ok _ it _ s Hit). cbn [bind].
    destruct (_ <=? _); eauto.
  - destruct (sequence_item_t.func it) as [f|] eqn:Hf; [|eauto].
    cbv zeta.
    match goal with
    | |- context [put_item _ ?x s] => set (it1 := x)
    end.
    rewrite (put_item_ok _ it it1 s Hit). cbn [bind].
    destruct (_ <=? _); [eauto|].
    assert (P1 : sequence_item_t.packet it1 = sequence_item_t.packet it).
    { unfold it1. destruct (_ =? 0); destruct (sequence_item_t.msec it =? 0);
        reflexivity. }
    pose proof (sized_put s (_sequence_current_step s) it1 Hz
                  ltac:(rewrite P1; exact Hl)) as Hz1.
    set (s1 := set_sequence _ s) in *.
    assert (C1 : exists r, call f now s1 = Done r).
    { apply call_ok; [exact Hz1|exact Hc|exact Hin|].
      intros -> Ht H4.
      destruct (Hcc it Hit Hf Ht H4) as (prev & it' & c & Hs & Hit' & Hcrc & Hcl).
      exists prev, it', c. split; [exact Hs|]. split; [|auto].
      unfold s1. cbn [_sequence set_sequence].
      rewrite list_lookup_insert_ne by lia. exact Hit'. }
    destruct C1 as [r ->]. cbn [bind]. destruct (fst r); eauto.
Qed.

End ParseReturns.

(** ** The parsing step returns *)

Section ParsingReturns.




(** The answer to a ping: always built, 18 bytes, sealed. *)
Lemma ping_answer_ok (now : Z) (s : AirCon) :
  exists out,
    ping_answer now s = Done (set_outPacket out s) /\
    bytesLoaded out = 18%nat /\
    length (data out) = AC_BUFFER_SIZE /\
    msec out = now /\
    firstn 18 (data out)
      = [0xBB; 0; 1; 0x80; 1; 0; 8; 0; 0x1C; 0x27; 0; 0; 0; 0; 0; 0; 0x1E; 0x58] /\
    crc out = Some 16%nat.
Proof.
  unfold ping_answer, _clearOutPacket.
  destruct s. cbn [_outPacket set_outPacket].
  eexists. split; [reflexivity|]. repeat split.
Qed.

(** Predicates of the sequence engine depend on the sequence, its cursor
    and the two packets only. *)
Lemma engine_ready_transfer (s s' : AirCon) :
  _sequence s' = _sequence s ->
  _sequence_current_step s' = _sequence_current_step s ->
  length (data (_outPacket s')) = AC_BUFFER_SIZE ->
  _inPacket s' = _inPacket s \/ _inPacket s' = _clearPacket ->
  sized s -> confirm_command_ready s ->
  sized s' /\ confirm_command_ready s'.
Proof.
  intros Hs Hc Ho Hi [A B C] Hcc. split.
  - split; [rewrite Hs; exact A|exact Ho|rewrite Hs; exact C].
  - unfold confirm_command_ready, previous_step_sealed in *.
    rewrite Hs, Hc. destruct Hi as [-> | ->]; [exact Hcc|].
    intros it _ _ Ht. vm_compute in Ht. discriminate.
Qed.

Lemma startupSequence_ok (s : AirCon) :
  sized s -> confirm_command_ready s ->
  exists b s',
    startupSequence s = Done (b, s') /\
    sized s' /\ confirm_command_ready s' /\
    _outPacket s' = _outPacket s /\ _inPacket s' = _inPacket s.
Proof.
  intros Hz Hcc. unfold startupSequence.
  destruct (hasSequence s); [exists false, s; auto|].
  destruct s as [st ac ser tx inp outp l cur su ch].
  eexists. eexists. split; [reflexivity|].
  split; [|split; [|split; reflexivity]].
  - split; cbn.
    + reflexivity.
    + apply Hz.
    + repeat constructor.
  - intros it Hit Hf. cbn in Hit. injection Hit as <-. discriminate.
Qed.

Lemma set_inPacket_same (s : AirCon) : set_inPacket (_inPacket s) s = s.
Proof. destruct s; reflexivity. Qed.



End ParsingReturns.

(** ** What is sent *)

Section Sending.

Lemma put_item_out (i : nat) (it : sequence_item_t) (s s' : AirCon) :
  put_item i it s = Done s' ->
  _outPacket s' = _outPacket s /\ _inPacket s' = _inPacket s /\
  _sequence_current_step s' = _sequence_current_step s.
Proof. intros H. apply put_item_Done in H. subst. auto. Qed.

Lemma mark_step_out (t : sequence_packet_type_t) (s s' : AirCon) :
  mark_step t s = Done s' ->
  _outPacket s' = _outPacket s /\ _inPacket s' = _inPacket s /\
  _sequence_current_step s' = _sequence_current_step s.
Proof. unfold mark_step. intros H. inv_bind H. eapply put_item_out; eauto. Qed.

Lemma control_prologue_out (s s' : AirCon) :
  control_prologue s = Done (Some s') ->
  _outPacket s' = _outPacket s /\ _inPacket s' = _inPacket s /\
  _sequence_current_step s' = _sequence_current_step s.
Proof.
  unfold control_prologue. intros H.
  destruct (bytesLoaded (_inPacket s) =? 0)%nat; [discriminate|].
  destruct (hdr header.packet_type (_inPacket s) =? AC_PTYPE_PING);
    [discriminate|].
  inv_bind H. injection H as <-.
  cbn [store_packet] in Hx0. inv_bind Hx0.
  apply put_item_out in Hx0 as (A1 & A2 & A3).
  apply mark_step_out in Hx1 as (B1 & B2 & B3).
  repeat split; congruence.
Qed.

Lemma control_epilogue_out (b : bool) (s : AirCon) :
  _outPacket (snd (control_epilogue b s)) = _outPacket s.
Proof. destruct b; reflexivity. Qed.

(** The confirm operations leave the outgoing packet alone. *)
Lemma confirm_out (f : step_function) (now : Z) (s : AirCon)
  (r : bool * AirCon) :
  is_confirm f = true -> call f now s = Done r ->
  _outPacket (snd r) = _outPacket s.
Proof.
  intros Hf H.
  destruct f; try discriminate; cbn [call] in H;
    unfold sq_controlSmallStatus, sq_controlBigStatus, sq_control_status,
      sq_controlDoCommand in H;
    inv_bind H;
    (destruct x as [s1|]; [|injection H as <-; reflexivity]);
    apply control_prologue_out in Hx as (A & _);
    cbv zeta in H; inv_bind H; injection H as <-;
    rewrite control_epilogue_out; exact A.
Qed.

(** [_doSequence] with an outgoing packet loaded. *)
Lemma _doSequence_out_pending (now : Z) (s s' : AirCon) :
  (0 < bytesLoaded (_outPacket s))%nat ->
  _doSequence now s = Done s' ->
  _outPacket s' = _outPacket s.
Proof.
  intros Ho H. apply Nat.ltb_lt in Ho. unfold _doSequence in H.
  destruct (negb (hasSequence s)); [injection H as <-; reflexivity|].
  destruct (_ <=? _)%nat; [injection H as <-; reflexivity|].
  inv_bind H.
  destruct (sequence_item_t.item_type x).
  - injection H as <-. reflexivity.
  - cbv zeta in H. inv_bind H. apply put_item_out in Hx0 as (A & _).
    destruct (_ <=? _); injection H as <-; exact A.
  - destruct (sequence_item_t.func x) as [f|]; [|injection H as <-; reflexivity].
    cbv zeta in H. inv_bind H. apply put_item_out in Hx0 as (A & _).
    destruct (_ <=? _); [injection H as <-; exact A|].
    inv_bind H.
    match goal with
    | Hc : call f now ?s0 = Done ?r0 |- _ =>
        assert (E : _outPacket (snd r0) = _outPacket s0);
        [ destruct (is_confirm f) eqn:Hf;
          [ eapply confirm_out; eauto
          | destruct f; try discriminate; cbn [call] in Hc;
            unfold sq_requestSmallStatus, sq_requestBigStatus,
              sq_request_status, sq_requestDoCommand in Hc;
            rewrite A, Ho in Hc; injection Hc as <-; reflexivity ]
        | destruct (fst r0); injection H as <-; cbn; congruence ]
    end.
Qed.

(** X5. The sequence engine never touches an outgoing packet that waits
    to be sent: the request steps wait, the confirm steps and the timeouts
    do not write to it. Nothing goes to the UART either, and the incoming
    packet and the state of the link stay as they are. *)
Theorem _doSequence_keeps_pending_packet (now : Z) (s s' : AirCon) :
  (0 < bytesLoaded (_outPacket s))%nat ->
  _doSequence now s = Done s' ->
  _outPacket s' = _outPacket s /\
  uart_tx s' = uart_tx s /\
  _inPacket s' = _inPacket s /\
  _ac_state s' = _ac_state s.
Proof.
  intros Ho H.
  split; [exact (_doSequence_out_pending now s s' Ho H)|].
  destruct (_doSequence_frame now s s' H) as [Hst _ _ Htx Hin _ _].
  split; [exact Htx|]. split; [exact Hin|exact Hst].
Qed.

End Sending.

(** ** A packet stamped with time 0 *)

Section StampedZero.

Lemma idle_drain_out (l : list Z) :
  forall s : AirCon,
    _outPacket (idle_drain l s) = _outPacket s /\
    uart_tx (idle_drain l s) = uart_tx s.
Proof.
  induction l as [|b l IH]; intros s; cbn [idle_drain].
  - split; reflexivity.
  - destruct (b =? AC_PACKET_START_BYTE); [split; reflexivity|].
    cbv zeta. match goal with |- context [idle_drain l ?x] => apply (IH x) end.
Qed.

Lemma receive_loop_out (l : list Z) :
  forall s : AirCon,
    _outPacket (snd (receive_loop l s)) = _outPacket s /\
    uart_tx (snd (receive_loop l s)) = uart_tx s /\
    (_ac_state s <> ACSM_SENDING_PACKET ->
     _ac_state (snd (receive_loop l s)) <> ACSM_SENDING_PACKET).
Proof.
  induction l as [|b l IH]; intros s; cbn [receive_loop].
  - cbn. auto.
  - destruct (receive_byte b (_inPacket s)) as [[| |] p].
    + cbn. repeat split. discriminate.
    + cbn. repeat split. discriminate.
    + apply (IH (set_inPacket p s)).
Qed.

(** X23. The time stamp 0 marks an outgoing packet as absent. A packet
    built while [millis()] reads 0 is therefore never sent: the idle pass
    does not turn to sending, the sending pass writes nothing, and neither
    they nor the receiving pass release the packet, which keeps the
    request steps of the sequence waiting. *)
Theorem packet_stamped_zero_is_never_sent (now : Z) (s s' : AirCon) :
  (0 < bytesLoaded (_outPacket s))%nat ->
  msec (_outPacket s) = 0 ->
  _ac_state s <> ACSM_PARSING_PACKET ->
  loop_switch now s = Done s' ->
  _outPacket s' = _outPacket s /\
  uart_tx s' = uart_tx s /\
  _ac_state s' <> ACSM_SENDING_PACKET.
Proof.
  intros Hl Hm Hst H. unfold loop_switch in H.
  destruct (_ac_state s) eqn:St; [| |congruence|].
  - unfold _doIdleState in H. inv_bind H.
    pose proof (_doSequence_out_pending now s x Hl Hx) as Ho.
    destruct (_doSequence_frame now s x Hx) as [Es _ _ Etx _ _ _].
    destruct (_ac_serial x) as [|b l] eqn:Ser.
    + rewrite Ho, Hm in H. cbn [Z.ltb Z.compare] in H. injection H as <-.
      split; [exact Ho|]. split; [exact Etx|]. rewrite Es, St. discriminate.
    + destruct (b =? AC_PACKET_START_BYTE).
      * injection H as <-. cbn. split; [exact Ho|].
        split; [exact Etx|discriminate].
      * assert (E : s' = idle_drain (b :: l) x) by congruence.
        destruct (idle_drain_out (b :: l) x) as [A B].
        rewrite E, A, B, idle_drain_inv_state, Es, St.
        split; [exact Ho|]. split; [exact Etx|discriminate].
  - injection H as <-. unfold _doReceivingPacketState. cbv zeta.
    destruct (receive_loop_out (_ac_serial s) s) as (A & B & C).
    assert (C' : _ac_state (snd (receive_loop (_ac_serial s) s))
                 <> ACSM_SENDING_PACKET) by (apply C; rewrite St; discriminate).
    destruct (fst _); [auto|].
    destruct (_ <=? _); [|auto].
    cbn. split; [exact A|]. split; [exact B|discriminate].
  - injection H as <-. unfold _doSendingPacketState. cbv zeta.
    rewrite Hm. cbn [Z.eqb orb]. cbn. repeat split. discriminate.
Qed.

End StampedZero.

(** ** Pings are answered *)

Section Ping.

Lemma confirm_command_ready_not_info (s : AirCon) :
  hdr header.packet_type (_inPacket s) <> AC_PTYPE_INFO ->
  confirm_command_ready s.
Proof. intros H it _ _ Ht. contradiction. Qed.

(** X6. A ping with a valid checksum is answered whatever the sequence engine
    is doing: the parsing step leaves the 18-byte answer in the outgoing
    packet, replacing what was there, and the sending step that follows
    writes exactly these bytes to the UART and clears the packet. *)
Theorem ping_is_answered (now : Z) (s : AirCon) :
  sized s -> handed_over (_inPacket s) ->
  _checkCRC (_inPacket s) = Done (true, _inPacket s) ->
  hdr header.packet_type (_inPacket s) = AC_PTYPE_PING ->
  now <> 0 ->
  exists s1,
    _doParsingPacket now s = Done s1 /\
    _ac_state s1 = ACSM_SENDING_PACKET /\
    uart_tx s1 = uart_tx s /\
    let s2 := _doSendingPacketState s1 in
    uart_tx s2 = uart_tx s ++
      [0xBB; 0; 1; 0x80; 1; 0; 8; 0; 0x1C; 0x27; 0; 0; 0; 0; 0; 0; 0x1E; 0x58] /\
    _ac_state s2 = ACSM_IDLE /\
    _outPacket s2 = cleared_out_packet.
Proof.
  intros Hz Ho Hcrc Hp Hnow.
  assert (Hni : hdr header.packet_type (_inPacket s) <> AC_PTYPE_INFO)
    by (rewrite Hp; discriminate).
  pose proof (confirm_command_ready_not_info s Hni) as Hcc.
  assert (Hin : in_packet_ready (_inPacket s))
    by (right; split; [exact Ho|intros; contradiction]).
  unfold _doParsingPacket. rewrite Hcrc. cbn [bind fst snd negb].
  rewrite set_inPacket_same. unfold parse_dispatch.
  rewrite Hp, Z.eqb_refl.
  destruct (ping_answer_ok now s) as (out & -> & Hob & Hol & Hom & Hod & Hoc).
  cbn [bind].
  destruct (engine_ready_transfer s (set_outPacket out s)
              eq_refl eq_refl Hol (or_introl eq_refl) Hz Hcc) as [Hz1 Hcc1].
  set (s1 := set_outPacket out s) in *.
  assert (D : exists s3,
            (if negb (_startupSequenceComlete s1)
             then r <- startupSequence s1 ;;
                  Done (set_startupSequenceComlete (fst r) (snd r))
             else Done s1) = Done s3 /\
            sized s3 /\ confirm_command_ready s3 /\
            _outPacket s3 = out /\ _inPacket s3 = _inPacket s /\
            uart_tx s3 = uart_tx s).
  { destruct (negb (_startupSequenceComlete s1)).
    - destruct (startupSequence_ok s1 Hz1 Hcc1)
        as (b & s2 & E & Hz2 & Hcc2 & Ho2 & Hi2).
      pose proof (startupSequence_frame s1 _ E) as F. destruct F.
      rewrite E. cbn [bind fst snd].
      eexists. split; [reflexivity|].
      destruct (engine_ready_transfer s2 (set_startupSequenceComlete b s2)
                  eq_refl eq_refl (sz_out _ Hz2) (or_introl eq_refl) Hz2 Hcc2)
        as [A B].
      split; [exact A|]. split; [exact B|].
      cbn [_outPacket _inPacket uart_tx set_startupSequenceComlete].
      split; [exact Ho2|]. split; [exact Hi2|]. exact sf_tx0.
    - exists s1. split; [reflexivity|]. split; [exact Hz1|].
      split; [exact Hcc1|]. split; [reflexivity|]. split; reflexivity. }
  destruct D as (s3 & -> & Hz3 & Hcc3 & Ho3 & Hi3 & Ht3). cbn [bind].
  set (s4 := _setStateMachineState ACSM_SENDING_PACKET s3).
  destruct (engine_ready_transfer s3 s4 eq_refl eq_refl (sz_out _ Hz3)
              (or_introl eq_refl) Hz3 Hcc3) as [Hz4 Hcc4].
  assert (Hin4 : in_packet_ready (_inPacket s4))
    by (unfold s4; cbn; rewrite Hi3; exact Hin).
  assert (E5 : exists s5,
             (if hasSequence s4 then _doSequence now s4 else Done s4) = Done s5 /\
             _outPacket s5 = out /\ uart_tx s5 = uart_tx s /\
             _ac_state s5 = ACSM_SENDING_PACKET).
  { destruct (hasSequence s4).
    - destruct (_doSequence_ok now s4 Hz4 Hin4 Hcc4) as [s5 E].
      exists s5. split; [exact E|].
      pose proof (_doSequence_frame now s4 s5 E) as F. destruct F.
      rewrite (_doSequence_out_pending now s4 s5
                 ltac:(unfold s4; cbn; rewrite Ho3, Hob; lia) E).
      unfold s4 in *. cbn in *. repeat split; congruence.
    - exists s4. unfold s4. cbn. auto. }
  destruct E5 as (s5 & -> & Ho5 & Ht5 & Hs5). cbn [bind].
  eexists. split; [reflexivity|].
  split; [exact Hs5|]. split; [exact Ht5|].
  assert (Ho6 : _outPacket (_clearInPacket s5) = out) by exact Ho5.
  assert (Ht6 : uart_tx (_clearInPacket s5) = uart_tx s) by exact Ht5.
  set (s6 := _clearInPacket s5) in *. clearbody s6.
  cbv zeta. unfold _doSendingPacketState.
  rewrite Ho6, Hom, Hoc, Hob.
  apply Z.eqb_neq in Hnow. rewrite Hnow. cbn [orb is_nullptr Nat.eqb].
  cbn [uart_tx _setStateMachineState set_ac_state _clearOutPacket set_outPacket
       set_uart_tx _ac_state _outPacket].
  rewrite Ht6, Hod. auto.
Qed.

End Ping.

(** ** Confirm steps and the frames they meet *)

Section Confirm.

Lemma control_prologue_saves (s : AirCon) (it : sequence_item_t) :
  _sequence s !! _sequence_current_step s = Some it ->
  bytesLoaded (_inPacket s) <> 0%nat ->
  hdr header.packet_type (_inPacket s) <> AC_PTYPE_PING ->
  control_prologue s =
    Done (Some (set_sequence
                  (<[_sequence_current_step s := received_in (_inPacket s) it]>
                     (_sequence s)) s)).
Proof.
  intros Hit Hb Hp. rewrite (control_prologue_ok s it Hit).
  apply Nat.eqb_neq in Hb. apply Z.eqb_neq in Hp. rewrite Hb, Hp.
  reflexivity.
Qed.

(** A confirm operation on a packet that is no info frame of the length
    it waits for: the packet is saved in the slot, the operation fails. *)
Lemma confirm_irrelevant (f : step_function) (now : Z) (s : AirCon)
  (it : sequence_item_t) :
  is_confirm f = true ->
  _sequence s !! _sequence_current_step s = Some it ->
  bytesLoaded (_inPacket s) <> 0%nat ->
  hdr header.packet_type (_inPacket s) <> AC_PTYPE_PING ->
  hdr header.packet_type (_inPacket s) <> AC_PTYPE_INFO \/
  hdr header.body_length (_inPacket s) <> expected_length f ->
  call f now s =
    Done (false,
          set_sequence
            (<[_sequence_current_step s := received_in (_inPacket s) it]>
               (_sequence s)) s).
Proof.
  intros Hf Hit Hb Hp Hrel.
  assert (R : (hdr header.packet_type (_inPacket s) =? AC_PTYPE_INFO)
              && (hdr header.body_length (_inPacket s) =? expected_length f)
              = false).
  { apply andb_false_iff.
    destruct Hrel as [H|H]; [left|right]; apply Z.eqb_neq; exact H. }
  destruct f; try discriminate; cbn [call];
    unfold sq_controlSmallStatus, sq_controlBigStatus, sq_control_status,
      sq_controlDoCommand;
    rewrite (control_prologue_saves s it Hit Hb Hp); cbn [bind];
    cbv zeta; cbn [_inPacket set_sequence];
    cbn [expected_length] in R; rewrite R; reflexivity.
Qed.

(** X7. Any frame but a ping that reaches a confirm step without being the
    info frame of the length the step waits for aborts the sequence: the
    step of the engine clears it. *)
Theorem irrelevant_packet_aborts_sequence (now : Z) (s : AirCon)
  (it : sequence_item_t) (f : step_function) :
  hasSequence s = true ->
  (_sequence_current_step s < AC_SEQUENCE_MAX_LEN)%nat ->
  _sequence s !! _sequence_current_step s = Some it ->
  sequence_item_t.item_type it = AC_SIT_FUNC ->
  sequence_item_t.func it = Some f ->
  is_confirm f = true ->
  u32 (now - sequence_item_t.msec (stamped now it))
    < sequence_item_t.timeout (stamped now it) ->
  bytesLoaded (_inPacket s) <> 0%nat ->
  hdr header.packet_type (_inPacket s) <> AC_PTYPE_PING ->
  hdr header.packet_type (_inPacket s) <> AC_PTYPE_INFO \/
  hdr header.body_length (_inPacket s) <> expected_length f ->
  exists s',
    _doSequence now s = Done s' /\
    _sequence s' = repeat empty_item AC_SEQUENCE_MAX_LEN /\
    _sequence_current_step s' = 0%nat /\
    hasSequence s' = false /\
    _outPacket s' = _outPacket s /\
    _current_ac_state s' = _current_ac_state s.
Proof.
  intros Hhas Hlt Hit Hty Hf Hc Hto Hb Hp Hrel.
  rewrite (_doSequence_function_step now s it f Hhas Hlt Hit Hty Hf).
  apply Z.leb_gt in Hto. rewrite Hto.
  set (s1 := set_sequence _ s).
  assert (Hit1 : _sequence s1 !! _sequence_current_step s1 = Some (stamped now it))
    by exact (lookup_put s _ it _ Hit).
  rewrite (confirm_irrelevant f now s1 (stamped now it) Hc Hit1 Hb Hp Hrel).
  cbn [bind fst snd].
  eexists. split; [reflexivity|]. repeat split.
Qed.

(** X8. A status confirm step that meets the info frame it waits for (the
    right length, [0x01] and the command code at the head of the body)
    saves the frame in its slot and moves the cursor on. *)
Theorem matching_status_frame_advances (now : Z) (s : AirCon)
  (it : sequence_item_t) (f : step_function) :
  hasSequence s = true ->
  (_sequence_current_step s < AC_SEQUENCE_MAX_LEN)%nat ->
  _sequence s !! _sequence_current_step s = Some it ->
  sequence_item_t.item_type it = AC_SIT_FUNC ->
  sequence_item_t.func it = Some f ->
  f = ptr_sq_controlSmallStatus \/ f = ptr_sq_controlBigStatus ->
  u32 (now - sequence_item_t.msec (stamped now it))
    < sequence_item_t.timeout (stamped now it) ->
  bytesLoaded (_inPacket s) <> 0%nat ->
  body (_inPacket s) = Some AC_HEADER_SIZE ->
  length (data (_inPacket s)) = AC_BUFFER_SIZE ->
  hdr header.packet_type (_inPacket s) = AC_PTYPE_INFO ->
  hdr header.body_length (_inPacket s) = expected_length f ->
  getb (data (_inPacket s)) 8 = 0x01 ->
  getb (data (_inPacket s)) 9 = expected_code f ->
  _doSequence now s =
    Done (step_advance
            (set_sequence
               (<[_sequence_current_step s :=
                    received_in (_inPacket s) (stamped now it)]>
                  (_sequence s)) s)).
Proof.
  intros Hhas Hlt Hit Hty Hf Hff Hto Hb Hbody Hlen Ht Hl H8 H9.
  rewrite (_doSequence_function_step now s it f Hhas Hlt Hit Hty Hf).
  apply Z.leb_gt in Hto. rewrite Hto.
  set (s1 := set_sequence _ s).
  assert (Hit1 : _sequence s1 !! _sequence_current_step s1 = Some (stamped now it))
    by exact (lookup_put s _ it _ Hit).
  assert (Hp : hdr header.packet_type (_inPacket s1) <> AC_PTYPE_PING)
    by (change (_inPacket s1) with (_inPacket s); rewrite Ht; discriminate).
  assert (E : call f now s1 =
              Done (true,
                    step_advance
                      (set_sequence
                         (<[_sequence_current_step s1 :=
                              received_in (_inPacket s1) (stamped now it)]>
                            (_sequence s1)) s1))).
  { destruct Hff as [-> | ->]; cbn [call];
      unfold sq_controlSmallStatus, sq_controlBigStatus, sq_control_status;
      rewrite (control_prologue_saves s1 _ Hit1 Hb Hp); cbn [bind];
      cbv zeta; cbn [_inPacket set_sequence];
      change (_inPacket s1) with (_inPacket s);
      cbn [expected_length expected_code] in Hl, H9;
      rewrite Ht, Hl, !Z.eqb_refl; cbn [andb and_then];
      unfold body_is; rewrite Hbody;
      rewrite !rd_ptr_getb
        by (rewrite Hlen; unfold AC_HEADER_SIZE, AC_BUFFER_SIZE; lia);
      cbn [bind];
      change (AC_HEADER_SIZE + 0)%nat with 8%nat;
      change (AC_HEADER_SIZE + 1)%nat with 9%nat;
      rewrite H8, H9; reflexivity. }
  rewrite E. cbn [bind fst snd].
  f_equal. unfold s1, step_advance. cbn.
  rewrite list_insert_insert_eq. reflexivity.
Qed.

(** X9. Bytes collected outside a frame that look like the header of the
    awaited info frame make the confirm step read the body through the
    null pointer the cleared packet holds. *)
Theorem stray_info_header_reads_null_body (now : Z) (s : AirCon)
  (it : sequence_item_t) (f : step_function) :
  hasSequence s = true ->
  (_sequence_current_step s < AC_SEQUENCE_MAX_LEN)%nat ->
  _sequence s !! _sequence_current_step s = Some it ->
  sequence_item_t.item_type it = AC_SIT_FUNC ->
  sequence_item_t.func it = Some f ->
  is_confirm f = true ->
  u32 (now - sequence_item_t.msec (stamped now it))
    < sequence_item_t.timeout (stamped now it) ->
  bytesLoaded (_inPacket s) <> 0%nat ->
  body (_inPacket s) = None ->
  hdr header.packet_type (_inPacket s) = AC_PTYPE_INFO ->
  hdr header.body_length (_inPacket s) = expected_length f ->
  _doSequence now s = Fault.
Proof.
  intros Hhas Hlt Hit Hty Hf Hc Hto Hb Hbody Ht Hl.
  rewrite (_doSequence_function_step now s it f Hhas Hlt Hit Hty Hf).
  apply Z.leb_gt in Hto. rewrite Hto.
  set (s1 := set_sequence _ s).
  assert (Hit1 : _sequence s1 !! _sequence_current_step s1 = Some (stamped now it))
    by exact (lookup_put s _ it _ Hit).
  assert (Hp : hdr header.packet_type (_inPacket s1) <> AC_PTYPE_PING)
    by (change (_inPacket s1) with (_inPacket s); rewrite Ht; discriminate).
  assert (E : call f now s1 = Fault).
  { destruct f; try discriminate; cbn [call];
      unfold sq_controlSmallStatus, sq_controlBigStatus, sq_control_status,
        sq_controlDoCommand;
      rewrite (control_prologue_saves s1 _ Hit1 Hb Hp); cbn [bind];
      cbv zeta; cbn [_inPacket set_sequence];
      change (_inPacket s1) with (_inPacket s);
      cbn [expected_length] in Hl;
      rewrite Ht, Hl, !Z.eqb_refl; cbn [andb and_then];
      unfold body_is; rewrite Hbody; reflexivity. }
  rewrite E. reflexivity.
Qed.

End Confirm.

(** ** The idle step *)

Section Idle.


Lemma idle_drain_noise (noise : list Z) :
  forall (rest : list Z) (s : AirCon),
    Forall (fun b => b <> AC_PACKET_START_BYTE) noise ->
    _ac_serial (idle_drain (noise ++ AC_PACKET_START_BYTE :: rest) s)
      = AC_PACKET_START_BYTE :: rest.
Proof.
  induction noise as [|b l IH]; intros rest s Hn.
  - cbn [app idle_drain]. rewrite Z.eqb_refl. reflexivity.
  - inversion Hn as [|? ? Hb Hl]; subst.
    cbn [app idle_drain]. apply Z.eqb_neq in Hb. rewrite Hb. cbv zeta.
    apply IH. exact Hl.
Qed.

(** X10. Bytes ahead of a start byte are taken off the UART in one idle pass
    and never parsed: the pass stops at the start byte, and the next idle
    pass starts the reception with a cleared packet, the start byte still
    in the UART. *)
Theorem idle_skips_noise (now now' : Z) (s s1 : AirCon) (b : Z)
  (noise rest : list Z) :
  Forall (fun x => x <> AC_PACKET_START_BYTE) (b :: noise) ->
  _doSequence now s = Done s1 ->
  _ac_serial s = b :: noise ++ AC_PACKET_START_BYTE :: rest ->
  exists s2,
    _doIdleState now s = Done s2 /\
    _ac_state s2 = _ac_state s /\
    _ac_serial s2 = AC_PACKET_START_BYTE :: rest /\
    forall s3,
      _doSequence now' s2 = Done s3 ->
      exists s4,
        _doIdleState now' s2 = Done s4 /\
        _ac_state s4 = ACSM_RECEIVING_PACKET /\
        _inPacket s4 = set_msec now' _clearPacket /\
        _ac_serial s4 = AC_PACKET_START_BYTE :: rest.
Proof.
  intros Hn Hs Hser. unfold _doIdleState. rewrite Hs. cbn [bind].
  pose proof (_doSequence_frame now s s1 Hs) as F. destruct F.
  rewrite ef_serial0, Hser.
  inversion Hn as [|? ? Hb Hl]; subst.
  apply Z.eqb_neq in Hb. rewrite Hb.
  change (b :: noise ++ AC_PACKET_START_BYTE :: rest)
    with ((b :: noise) ++ AC_PACKET_START_BYTE :: rest).
  pose proof (idle_drain_noise (b :: noise) rest s1 Hn) as A.
  pose proof (idle_drain_inv_state
                ((b :: noise) ++ AC_PACKET_START_BYTE :: rest) s1) as B.
  eexists. split; [reflexivity|].
  split; [rewrite B; exact ef_state0|]. split; [exact A|].
  intros s3 Hs3. rewrite Hs3. cbn [bind].
  pose proof (_doSequence_frame now' _ s3 Hs3) as F. destruct F.
  rewrite ef_serial1, A, Z.eqb_refl.
  eexists. split; [reflexivity|]. cbn. rewrite ef_serial1, A. auto.
Qed.

(** X11. A status request step with the line free: the idle pass seals the
    request in the outgoing packet, moves the cursor on and turns to
    sending; the sending pass writes the 12 bytes of the frame to the UART
    and clears the packet. *)
Theorem status_request_is_sent (now : Z) (s : AirCon) (it : sequence_item_t)
  (f : step_function) :
  sized s ->
  hasSequence s = true ->
  (_sequence_current_step s < AC_SEQUENCE_MAX_LEN)%nat ->
  _sequence s !! _sequence_current_step s = Some it ->
  sequence_item_t.item_type it = AC_SIT_FUNC ->
  sequence_item_t.func it = Some f ->
  f = ptr_sq_requestSmallStatus \/ f = ptr_sq_requestBigStatus ->
  u32 (now - sequence_item_t.msec (stamped now it))
    < sequence_item_t.timeout (stamped now it) ->
  _outPacket s = cleared_out_packet ->
  _ac_serial s = [] ->
  0 < now ->
  exists s1,
    _doIdleState now s = Done s1 /\
    _ac_state s1 = ACSM_SENDING_PACKET /\
    _sequence_current_step s1 = S (_sequence_current_step s) /\
    let s2 := _doSendingPacketState s1 in
    uart_tx s2 = uart_tx s ++ status_request_frame f /\
    _ac_state s2 = ACSM_IDLE /\
    _outPacket s2 = cleared_out_packet.
Proof.
  intros Hz Hhas Hlt Hit Hty Hf Hff Hto Hout Hser Hnow.
  unfold _doIdleState.
  rewrite (_doSequence_function_step now s it f Hhas Hlt Hit Hty Hf).
  apply Z.leb_gt in Hto. rewrite Hto.
  assert (Pk : sequence_item_t.packet (stamped now it) = sequence_item_t.packet it).
  { unfold stamped. destruct (_ =? 0); destruct (sequence_item_t.msec it =? 0);
      reflexivity. }
  pose proof (sized_put s (_sequence_current_step s) (stamped now it) Hz
                ltac:(rewrite Pk; exact (sized_slot_packet s _ it Hz Hit)))
    as Hz1.
  set (s1 := set_sequence _ s) in *.
  assert (Ho1 : _outPacket s1 = cleared_out_packet) by exact Hout.
  assert (C : exists code, call f now s1 = sq_request_status code now s1 /\
                           (code = 0x11 /\ f = ptr_sq_requestSmallStatus \/
                            code = 0x21 /\ f = ptr_sq_requestBigStatus)).
  { destruct Hff as [-> | ->]; eexists; (split; [reflexivity|]); auto. }
  destruct C as (code & -> & Hcode).
  destruct (sq_request_status_ok code now s1 Hz1 Hlt) as (s2 & E & P).
  rewrite Ho1 in P. change (0 <? bytesLoaded cleared_out_packet)%nat with false in P.
  destruct P as (Pf & Pc & _).
  pose proof (sq_request_status_frame code now s1 _ E) as F. destruct F.
  cbn [snd] in *.
  rewrite E. cbn [bind fst snd].
  change (_ac_serial s1) with (_ac_serial s) in sf_serial0.
  rewrite sf_serial0, Hser.
  assert (Q : msec (_outPacket s2) = now /\
              crc (_outPacket s2) = Some 10%nat /\
              bytesLoaded (_outPacket s2) = 12%nat /\
              firstn 12 (data (_outPacket s2)) = status_request_frame f).
  { remember (_outPacket s2) as o eqn:Eo. clear Eo.
    destruct Hcode as [[-> ->] | [-> ->]];
      vm_compute in Pf; injection Pf as <-; repeat split. }
  destruct Q as (Qm & Qc & Qb & Qd).
  rewrite Qm. apply Z.ltb_lt in Hnow. rewrite Hnow.
  eexists. split; [reflexivity|].
  cbn [_ac_state _setStateMachineState set_ac_state _sequence_current_step].
  split; [reflexivity|]. split; [exact Pc|].
  cbv zeta. unfold _doSendingPacketState.
  cbn [_outPacket _setStateMachineState set_ac_state].
  rewrite Qm, Qc, Qb.
  assert (N : (now =? 0) = false) by (apply Z.eqb_neq; apply Z.ltb_lt in Hnow; lia).
  rewrite N. cbn [orb is_nullptr Nat.eqb].
  cbn [uart_tx _setStateMachineState set_ac_state _clearOutPacket set_outPacket
       set_uart_tx _ac_state _outPacket].
  rewrite Qd, sf_tx0. auto.
Qed.

End Idle.

(** ** The climate front end against the command and the state *)

Section FrontEnd.

Lemma control_fan_mode_keeps (fm : ClimateFanMode) (st : ac_state_t)
  (cmd : ac_command_t) :
  let c := fst (control_fan_mode fm st cmd) in
  power c = power cmd /\ mode c = mode cmd /\ louver c = louver cmd /\
  temp_target c = temp_target cmd /\
  temp_target_matter c = temp_target_matter cmd /\
  clean c = clean cmd /\ health c = health cmd /\ sleep c = sleep cmd /\
  iFeel c = iFeel cmd /\ display c = display cmd /\ mildew c = mildew cmd.
Proof.
  destruct fm; unfold control_fan_mode; try destruct (_ || _ || _ || _);
    try destruct (_ || _); cbn; repeat split.
Qed.

Lemma control_swing_mode_keeps (sw : ClimateSwingMode) (cmd : ac_command_t) :
  let c := control_swing_mode sw cmd in
  power c = power cmd /\ mode c = mode cmd /\
  fanSpeed c = fanSpeed cmd /\ fanTurbo c = fanTurbo cmd /\
  fanMute c = fanMute cmd /\
  temp_target c = temp_target cmd /\
  temp_target_matter c = temp_target_matter cmd /\
  clean c = clean cmd /\ health c = health cmd /\ sleep c = sleep cmd /\
  iFeel c = iFeel cmd /\ display c = display cmd /\ mildew c = mildew cmd.
Proof. destruct sw; cbn; repeat split. Qed.

Lemma control_target_temperature_keeps (t : Q) (cmd : ac_command_t) :
  let c := control_target_temperature t cmd in
  power c = power cmd /\ mode c = mode cmd /\ louver c = louver cmd /\
  fanSpeed c = fanSpeed cmd /\ fanTurbo c = fanTurbo cmd /\
  fanMute c = fanMute cmd /\
  clean c = clean cmd /\ health c = health cmd /\ sleep c = sleep cmd /\
  iFeel c = iFeel cmd /\ display c = display cmd /\ mildew c = mildew cmd.
Proof. cbn. repeat split. Qed.

(** The command [control] builds, block by block. *)
Lemma control_command_cmd (call : ClimateCall) (st : ac_state_t)
  (front : Climate.t) :
  snd (fst (control_command call st front)) =
  let cmd := _clearCommand in
  let cmd := match get_mode call with
             | Some m => control_mode m cmd
             | None => cmd
             end in
  let cmd := match get_fan_mode call with
             | Some fm => fst (control_fan_mode fm st cmd)
             | None => cmd
             end in
  let cmd := match get_swing_mode call with
             | Some sw => control_swing_mode sw cmd
             | None => cmd
             end in
  match get_target_temperature call with
  | Some t => control_target_temperature t cmd
  | None => cmd
  end.
Proof.
  unfold control_command.
  destruct (get_mode call), (get_fan_mode call), (get_swing_mode call),
    (get_target_temperature call); reflexivity.
Qed.

Lemma control_command_front (call : ClimateCall) (st : ac_state_t)
  (front : Climate.t) :
  let f := snd (control_command call st front) in
  (forall m, get_mode call = Some m -> Climate.mode f = m) /\
  (forall sw, get_swing_mode call = Some sw -> Climate.swing_mode f = sw) /\
  Climate.published f = Climate.published front.
Proof.
  unfold control_command.
  destruct (get_mode call), (get_fan_mode call), (get_swing_mode call),
    (get_target_temperature call); cbn;
    repeat split; intros; congruence.
Qed.

Lemma control_command_power_mode (call : ClimateCall) (st : ac_state_t)
  (front : Climate.t) (m : ClimateMode) :
  get_mode call = Some m ->
  power (snd (fst (control_command call st front)))
    = power (control_mode m _clearCommand) /\
  mode (snd (fst (control_command call st front)))
    = mode (control_mode m _clearCommand).
Proof.
  intros Hm. rewrite control_command_cmd, Hm. cbv zeta.
  set (c0 := control_mode m _clearCommand).
  set (c1 := match get_fan_mode call with
             | Some fm => fst (control_fan_mode fm st c0)
             | None => c0
             end).
  assert (E1 : power c1 = power c0 /\ mode c1 = mode c0).
  { unfold c1. destruct (get_fan_mode call) as [fm|]; [|auto].
    destruct (control_fan_mode_keeps fm st c0) as (A & B & _). auto. }
  set (c2 := match get_swing_mode call with
             | Some sw => control_swing_mode sw c1
             | None => c1
             end).
  assert (E2 : power c2 = power c1 /\ mode c2 = mode c1).
  { unfold c2. destruct (get_swing_mode call) as [sw|]; [|auto].
    destruct (control_swing_mode_keeps sw c1) as (A & B & _). auto. }
  destruct E1, E2.
  destruct (get_target_temperature call) as [t|]; cbn; split; congruence.
Qed.

(** X12. The mode the user asks for is the mode published once the unit
    reports the power and, when switched on, the mode of the command. *)
Theorem requested_mode_is_published (call : ClimateCall) (st0 st : ac_state_t)
  (front front' : Climate.t) (m : ClimateMode) :
  get_mode call = Some m ->
  let cmd := snd (fst (control_command call st0 front)) in
  power st = power cmd ->
  (power cmd = AC_POWER_ON -> mode st = mode cmd) ->
  Climate.mode (snd (control_command call st0 front)) = m /\
  Climate.mode (stateChanged_front st front') = m.
Proof.
  intros Hm cmd Hp Hmo.
  destruct (control_command_power_mode call st0 front m Hm) as [Ep Em].
  fold cmd in Ep, Em.
  split; [apply control_command_front; exact Hm|].
  unfold stateChanged_front, stateChanged_mode. cbn [Climate.mode fst].
  rewrite Hp, Ep. rewrite Ep, Em in Hmo.
  destruct m; cbn [control_mode power set_power set_mode _clearCommand] in *;
    try reflexivity; rewrite (Hmo eq_refl); reflexivity.
Qed.

Lemma control_command_louver (call : ClimateCall) (st : ac_state_t)
  (front : Climate.t) (sw : ClimateSwingMode) :
  get_swing_mode call = Some sw ->
  louver (snd (fst (control_command call st front)))
  = louver (control_swing_mode sw _clearCommand).
Proof.
  intros H. rewrite control_command_cmd, H. cbv zeta.
  match goal with
  | |- louver (match _ with Some t => control_target_temperature t ?c | None => _ end) = _ =>
      assert (E : louver (control_swing_mode sw
                            match get_fan_mode call with
                            | Some fm =>
                                fst (control_fan_mode fm st
                                       match get_mode call with
                                       | Some m => control_mode m _clearCommand
                                       | None => _clearCommand
                                       end)
                            | None =>
                                match get_mode call with
                                | Some m => control_mode m _clearCommand
                                | None => _clearCommand
                                end
                            end)
                  = louver (control_swing_mode sw _clearCommand))
  end.
  { destruct sw; reflexivity. }
  destruct (get_target_temperature call); cbn [louver
    control_target_temperature set_temp_target set_temp_target_matter];
    exact E.
Qed.

(** X13. The swing mode the user asks for is the swing mode published
    once the unit reports the two louvers as the command sets them. *)
Theorem requested_swing_is_published (call : ClimateCall) (st0 st : ac_state_t)
  (front front' : Climate.t) (sw : ClimateSwingMode) :
  get_swing_mode call = Some sw ->
  louver st = louver (snd (fst (control_command call st0 front))) ->
  Climate.swing_mode (snd (control_command call st0 front)) = sw /\
  Climate.swing_mode (stateChanged_front st front') = sw.
Proof.
  intros Hs Hl.
  split; [apply control_command_front; exact Hs|].
  rewrite (control_command_louver call st0 front sw Hs) in Hl.
  unfold stateChanged_front, stateChanged_swing_mode. cbn [Climate.swing_mode].
  rewrite Hl. destruct sw; reflexivity.
Qed.

End FrontEnd.

(** ** The builders of sequences *)

Section Builders.

Ltac fifteen_slots l H :=
  do 15 (destruct l as [|? l]; [discriminate H|]);
  destruct l; [|discriminate H].

(** [commandSequence] on any sequence: the six steps land in slots 0 to
    5. *)
Lemma commandSequence_loads (cmd : ac_command_t) (s : AirCon) :
  length (_sequence s) = AC_SEQUENCE_MAX_LEN ->
  exists s',
    commandSequence cmd s = Done (Some s') /\
    map step_kind (firstn 6 (_sequence s')) = command_transaction /\
    (exists it, _sequence s' !! 2%nat = Some it /\
                sequence_item_t.cmd it = cmd) /\
    skipn 6 (_sequence s') = skipn 6 (_sequence s) /\
    length (_sequence s') = AC_SEQUENCE_MAX_LEN /\
    _sequence_current_step s' = _sequence_current_step s /\
    _outPacket s' = _outPacket s /\ _inPacket s' = _inPacket s /\
    _current_ac_state s' = _current_ac_state s /\
    _ac_state s' = _ac_state s /\ uart_tx s' = uart_tx s /\
    _ac_serial s' = _ac_serial s /\ hasSequence s' = true.
Proof.
  intros Hlen. unfold commandSequence.
  destruct s as [st ac ser tx inp outp l cur su ch]. cbn [_sequence] in *.
  fifteen_slots l Hlen.
  assert (E : (if hasSequence
                    (mk_AirCon st ac ser tx inp outp
                       [t; t0; t1; t2; t3; t4; t5; t6; t7; t8; t9; t10; t11;
                        t12; t13] cur su ch)
               then first_loaded_slot 0
                      (firstn AC_SEQUENCE_MAX_LEN
                         [t; t0; t1; t2; t3; t4; t5; t6; t7; t8; t9; t10; t11;
                          t12; t13])
               else 0%nat) = 0%nat).
  { unfold hasSequence. cbn.
    destruct (sequence_item_t.item_type t); reflexivity. }
  cbn [_sequence]. rewrite E.
  replace (hasSequence _ && (AC_SEQUENCE_MAX_LEN - 1 <=? 0)%nat) with false
    by (destruct (hasSequence _); reflexivity).
  eexists. split; [reflexivity|].
  cbn. repeat split. eexists. split; reflexivity.
Qed.

(** X18. [getStatusSmall] and [getStatusBig] load their request and its
    confirm step in slots 0 and 1 when no sequence is loaded, and leave
    the component alone when one is. They rely on the cursor being at 0:
    they do not reset it. *)
Theorem getStatus_loads_two_steps (s : AirCon) :
  length (_sequence s) = AC_SEQUENCE_MAX_LEN ->
  (hasSequence s = true ->
   getStatusSmall s = Done s /\ getStatusBig s = Done s) /\
  (hasSequence s = false ->
   exists s1 s2,
     getStatusSmall s = Done s1 /\ getStatusBig s = Done s2 /\
     map step_kind (firstn 2 (_sequence s1))
       = [(AC_SIT_FUNC, Some ptr_sq_requestSmallStatus);
          (AC_SIT_FUNC, Some ptr_sq_controlSmallStatus)] /\
     map step_kind (firstn 2 (_sequence s2))
       = [(AC_SIT_FUNC, Some ptr_sq_requestBigStatus);
          (AC_SIT_FUNC, Some ptr_sq_controlBigStatus)] /\
     skipn 2 (_sequence s1) = skipn 2 (_sequence s) /\
     skipn 2 (_sequence s2) = skipn 2 (_sequence s) /\
     _sequence_current_step s1 = _sequence_current_step s /\
     _sequence_current_step s2 = _sequence_current_step s /\
     hasSequence s1 = true /\ hasSequence s2 = true).
Proof.
  intros Hlen. unfold getStatusSmall, getStatusBig. split.
  - intros ->. auto.
  - intros ->.
    destruct s as [st ac ser tx inp outp l cur su ch]. cbn [_sequence] in *.
    fifteen_slots l Hlen.
    eexists. eexists. split; [reflexivity|]. split; [reflexivity|].
    cbn. repeat split.
Qed.

(** X19. [powerSequence]: nothing for [AC_POWER_UNTOUCHED] and nothing while a
    sequence is loaded; else the command transaction with the power set
    and every other parameter untouched. *)
Theorem powerSequence_loads_power_command (pwr : Z) (s : AirCon) :
  length (_sequence s) = AC_SEQUENCE_MAX_LEN ->
  (pwr = AC_POWER_UNTOUCHED \/ hasSequence s = true ->
   powerSequence pwr s = Done s) /\
  (pwr <> AC_POWER_UNTOUCHED -> hasSequence s = false ->
   exists s',
     powerSequence pwr s = Done s' /\
     map step_kind (firstn 6 (_sequence s')) = command_transaction /\
     (exists it, _sequence s' !! 2%nat = Some it /\
                 sequence_item_t.cmd it = set_power pwr _clearCommand) /\
     skipn 6 (_sequence s') = skipn 6 (_sequence s) /\
     _sequence_current_step s' = _sequence_current_step s /\
     hasSequence s' = true).
Proof.
  intros Hlen. unfold powerSequence. split.
  - intros [-> | ->]; [reflexivity|].
    destruct (pwr =? AC_POWER_UNTOUCHED); reflexivity.
  - intros Hp Hs. apply Z.eqb_neq in Hp. rewrite Hp, Hs. cbv zeta.
    destruct (commandSequence_loads (set_power pwr _clearCommand) s Hlen)
      as (s' & -> & A & B & C & _ & D & _ & _ & _ & _ & _ & _ & E).
    cbn [bind default]. exists s'. auto 10.
Qed.

End Builders.

(** ** The commands [control] builds *)

Section Control.

Lemma control_command_fan (call : ClimateCall) (st : ac_state_t)
  (front : Climate.t) (fm : ClimateFanMode) :
  get_fan_mode call = Some fm ->
  let c0 := match get_mode call with
            | Some m => control_mode m _clearCommand
            | None => _clearCommand
            end in
  let c := snd (fst (control_command call st front)) in
  fanSpeed c = fanSpeed (fst (control_fan_mode fm st c0)) /\
  fanTurbo c = fanTurbo (fst (control_fan_mode fm st c0)) /\
  fanMute c = fanMute (fst (control_fan_mode fm st c0)) /\
  Climate.fan_mode (snd (control_command call st front))
    = snd (control_fan_mode fm st c0).
Proof.
  intros Hf c0 c. unfold c. rewrite control_command_cmd, Hf. cbv zeta.
  fold c0.
  set (c1 := fst (control_fan_mode fm st c0)).
  set (c2 := match get_swing_mode call with
             | Some sw => control_swing_mode sw c1
             | None => c1
             end).
  assert (E2 : fanSpeed c2 = fanSpeed c1 /\ fanTurbo c2 = fanTurbo c1 /\
               fanMute c2 = fanMute c1).
  { unfold c2. destruct (get_swing_mode call) as [sw|]; [|auto].
    destruct (control_swing_mode_keeps sw c1) as (_ & _ & A & B & C & _).
    auto. }
  destruct E2 as (A & B & C).
  split; [|split; [|split]].
  - destruct (get_target_temperature call); cbn; exact A.
  - destruct (get_target_temperature call); cbn; exact B.
  - destruct (get_target_temperature call); cbn; exact C.
  - unfold control_command. rewrite Hf.
    destruct (get_mode call), (get_swing_mode call),
      (get_target_temperature call); reflexivity.
Qed.

(** X14. A fan speed the user asks for (auto, low, medium, high) is the fan
    mode published once the unit reports the three fan parameters of the
    command; the command switches turbo and mute off. *)
Theorem requested_fan_speed_is_published (call : ClimateCall)
  (st0 st : ac_state_t) (front front' : Climate.t) (fm : ClimateFanMode) :
  get_fan_mode call = Some fm ->
  fm = CLIMATE_FAN_AUTO \/ fm = CLIMATE_FAN_LOW \/
  fm = CLIMATE_FAN_MEDIUM \/ fm = CLIMATE_FAN_HIGH ->
  let cmd := snd (fst (control_command call st0 front)) in
  fanSpeed st = fanSpeed cmd -> fanTurbo st = fanTurbo cmd ->
  fanMute st = fanMute cmd ->
  fanTurbo cmd = AC_FANTURBO_OFF /\ fanMute cmd = AC_FANMUTE_OFF /\
  Climate.fan_mode (snd (control_command call st0 front)) = fm /\
  Climate.fan_mode (stateChanged_front st front') = fm.
Proof.
  intros Hf Hfm cmd Hs Ht Hm.
  destruct (control_command_fan call st0 front fm Hf) as (A & B & C & D).
  cbv zeta in A, B, C, D. fold cmd in A, B, C.
  unfold stateChanged_front, stateChanged_fan_mode. cbn [Climate.fan_mode].
  rewrite Hs, Ht, Hm, A, B, C, D.
  destruct Hfm as [-> | [-> | [-> | ->]]]; cbn; auto.
Qed.

(** X15. Turbo and mute depend on the mode. The turbo request sets the turbo
    flag only when the command or the AC state has the mode cool or heat,
    the mute request the mute flag only with the mode fan; otherwise the
    command leaves the fan parameters untouched. Where the flag is set and
    the unit reports it in such a mode, the request is what is
    published. *)
Theorem turbo_and_mute_depend_on_mode (call : ClimateCall)
  (st0 st : ac_state_t) (front front' : Climate.t) :
  get_mode call = None ->
  let cmd := snd (fst (control_command call st0 front)) in
  (get_fan_mode call = Some CLIMATE_FAN_FOCUS ->
   (if (mode st0 =? AC_MODE_COOL) || (mode st0 =? AC_MODE_HEAT)
    then fanTurbo cmd = AC_FANTURBO_ON
    else fanTurbo cmd = AC_FANTURBO_UNTOUCHED) /\
   fanSpeed cmd = AC_FANSPEED_UNTOUCHED /\
   fanMute cmd = AC_FANMUTE_UNTOUCHED /\
   (fanTurbo st = AC_FANTURBO_ON ->
    mode st = AC_MODE_COOL \/ mode st = AC_MODE_HEAT ->
    Climate.fan_mode (stateChanged_front st front') = CLIMATE_FAN_FOCUS)) /\
  (get_fan_mode call = Some CLIMATE_FAN_DIFFUSE ->
   (if mode st0 =? AC_MODE_FAN
    then fanMute cmd = AC_FANMUTE_ON
    else fanMute cmd = AC_FANMUTE_UNTOUCHED) /\
   fanSpeed cmd = AC_FANSPEED_UNTOUCHED /\
   fanTurbo cmd = AC_FANTURBO_UNTOUCHED /\
   (fanMute st = AC_FANMUTE_ON -> mode st = AC_MODE_FAN ->
    Climate.fan_mode (stateChanged_front st front') = CLIMATE_FAN_DIFFUSE)).
Proof.
  intros Hm cmd. split; intros Hf;
    destruct (control_command_fan call st0 front _ Hf) as (A & B & C & _);
    cbv zeta in A, B, C; fold cmd in A, B, C; rewrite Hm in A, B, C;
    rewrite A, B, C; unfold control_fan_mode;
    cbn [mode _clearCommand Z.eqb AC_MODE_UNTOUCHED AC_MODE_COOL
         AC_MODE_HEAT AC_MODE_FAN orb].
  - split; [destruct (_ || _); reflexivity|].
    split; [destruct (_ || _); reflexivity|].
    split; [destruct (_ || _); reflexivity|].
    intros Ht Hmo. unfold stateChanged_front, stateChanged_fan_mode.
    cbn [Climate.fan_mode]. rewrite Ht.
    destruct Hmo as [-> | ->]; cbn;
      destruct (fanMute st =? AC_FANMUTE_ON); reflexivity.
  - split; [destruct (_ =? _); reflexivity|].
    split; [destruct (_ =? _); reflexivity|].
    split; [destruct (_ =? _); reflexivity|].
    intros Ht Hmo. unfold stateChanged_front, stateChanged_fan_mode.
    cbn [Climate.fan_mode]. rewrite Ht, Hmo. reflexivity.
Qed.

End Control.

(** ** What [control] hands to the encoder *)

Section ControlCommand.

Lemma field_ok_untouched (mask : Z) : field_ok mask 0xFF.
Proof. left. reflexivity. Qed.

Lemma command_ok_clear : command_ok _clearCommand.
Proof. split; apply field_ok_untouched. Qed.

Ltac field_ok_tac :=
  first [ assumption
        | left; reflexivity
        | right; split; [vm_compute; discriminate | reflexivity] ].

Lemma command_ok_control_mode (m : ClimateMode) (cmd : ac_command_t) :
  command_ok cmd -> command_ok (control_mode m cmd).
Proof. intros []. destruct m; split; cbn; field_ok_tac. Qed.

Lemma command_ok_control_fan_mode (fm : ClimateFanMode) (st : ac_state_t)
  (cmd : ac_command_t) :
  command_ok cmd -> command_ok (fst (control_fan_mode fm st cmd)).
Proof.
  intros []. destruct fm; unfold control_fan_mode;
    try destruct (_ || _ || _ || _); try destruct (_ || _);
    split; cbn; field_ok_tac.
Qed.

Lemma command_ok_control_swing_mode (sw : ClimateSwingMode)
  (cmd : ac_command_t) :
  command_ok cmd -> command_ok (control_swing_mode sw cmd).
Proof. intros []. destruct sw; split; cbn; field_ok_tac. Qed.

Lemma command_ok_control_target_temperature (t : Q) (cmd : ac_command_t) :
  command_ok cmd -> command_ok (control_target_temperature t cmd).
Proof. intros []. split; cbn; field_ok_tac. Qed.

Lemma control_target_temperature_range (t : Q) (cmd : ac_command_t) :
  let c := control_target_temperature t cmd in
  temp_target_matter c = true /\
  (inject_Z AC_MIN_TEMPERATURE <= temp_target c)%Q /\
  (temp_target c <= inject_Z AC_MAX_TEMPERATURE)%Q /\
  ((inject_Z AC_MIN_TEMPERATURE <= t)%Q ->
   (t <= inject_Z AC_MAX_TEMPERATURE)%Q -> temp_target c = t).
Proof.
  cbv zeta. unfold control_target_temperature.
  cbn [temp_target temp_target_matter set_temp_target set_temp_target_matter].
  split; [reflexivity|].
  destruct (Qlt_bool (inject_Z AC_MAX_TEMPERATURE) t) eqn:E1.
  - assert (E2 : Qlt_bool (inject_Z AC_MAX_TEMPERATURE)
                   (inject_Z AC_MIN_TEMPERATURE) = false) by reflexivity.
    rewrite E2. apply Qlt_bool_true in E1.
    split; [vm_compute; discriminate|]. split; [apply Qle_refl|].
    intros _ H. exfalso. exact (Qlt_not_le _ _ E1 H).
  - apply Qlt_bool_false in E1.
    destruct (Qlt_bool t (inject_Z AC_MIN_TEMPERATURE)) eqn:E2.
    + apply Qlt_bool_true in E2.
      split; [apply Qle_refl|]. split; [vm_compute; discriminate|].
      intros H _. exfalso. exact (Qlt_not_le _ _ E2 H).
    + apply Qlt_bool_false in E2. auto.
Qed.

(** X16. Every command [control] builds holds, in each parameter, an
    enumerator of its mask or the sentinel, which is what the encoder needs
    for its fields to decode as written; and a target temperature only
    within 16..32, the requested one when that lies in the range. *)
Theorem control_command_is_well_formed (call : ClimateCall)
  (st : ac_state_t) (front : Climate.t) :
  let cmd := snd (fst (control_command call st front)) in
  command_ok cmd /\
  (temp_target_matter cmd = true <-> get_target_temperature call <> None) /\
  (forall t, get_target_temperature call = Some t ->
     (inject_Z AC_MIN_TEMPERATURE <= temp_target cmd)%Q /\
     (temp_target cmd <= inject_Z AC_MAX_TEMPERATURE)%Q /\
     ((inject_Z AC_MIN_TEMPERATURE <= t)%Q ->
      (t <= inject_Z AC_MAX_TEMPERATURE)%Q -> temp_target cmd = t)).
Proof.
  cbv zeta. rewrite control_command_cmd. cbv zeta.
  set (c0 := match get_mode call with
             | Some m => control_mode m _clearCommand
             | None => _clearCommand
             end).
  assert (K0 : command_ok c0 /\ temp_target_matter c0 = false).
  { unfold c0. destruct (get_mode call) as [m|].
    - split; [apply command_ok_control_mode, command_ok_clear|].
      destruct m; reflexivity.
    - split; [apply command_ok_clear|reflexivity]. }
  set (c1 := match get_fan_mode call with
             | Some fm => fst (control_fan_mode fm st c0)
             | None => c0
             end).
  assert (K1 : command_ok c1 /\ temp_target_matter c1 = false).
  { unfold c1. destruct (get_fan_mode call) as [fm|]; [|exact K0].
    split; [apply command_ok_control_fan_mode, K0|].
    destruct (control_fan_mode_keeps fm st c0) as (_ & _ & _ & _ & E & _).
    rewrite E. apply K0. }
  set (c2 := match get_swing_mode call with
             | Some sw => control_swing_mode sw c1
             | None => c1
             end).
  assert (K2 : command_ok c2 /\ temp_target_matter c2 = false).
  { unfold c2. destruct (get_swing_mode call) as [sw|]; [|exact K1].
    split; [apply command_ok_control_swing_mode, K1|].
    destruct (control_swing_mode_keeps sw c1)
      as (_ & _ & _ & _ & _ & _ & E & _).
    rewrite E. apply K1. }
  destruct K2 as [K2 M2].
  destruct (get_target_temperature call) as [t|].
  - split; [apply command_ok_control_target_temperature, K2|].
    destruct (control_target_temperature_range t c2) as (A & B & C & D).
    split; [split; [discriminate|intros _; exact A]|].
    intros t' Ht. injection Ht as <-. auto.
  - split; [exact K2|].
    split; [rewrite M2; split; [discriminate|congruence]|].
    discriminate.
Qed.

(** X17. [control] without a value in the call leaves front end and component
    alone. With a value it publishes once and hands the command to
    [commandSequence], which writes the command transaction into slots 0
    to 5, the command in slot 2, whether a sequence is loaded or not. *)
Theorem control_loads_command_transaction (call : ClimateCall)
  (front : Climate.t) (s : AirCon) :
  length (_sequence s) = AC_SEQUENCE_MAX_LEN ->
  let r := control_command call (_current_ac_state s) front in
  (get_mode call = None -> get_fan_mode call = None ->
   get_swing_mode call = None -> get_target_temperature call = None ->
   control call front s = Done (front, s)) /\
  (get_mode call <> None \/ get_fan_mode call <> None \/
   get_swing_mode call <> None \/ get_target_temperature call <> None ->
   exists s',
     control call front s = Done (Climate.publish_state (snd r), s') /\
     Climate.published (Climate.publish_state (snd r))
       = S (Climate.published front) /\
     map step_kind (firstn 6 (_sequence s')) = command_transaction /\
     (exists it, _sequence s' !! 2%nat = Some it /\
                 sequence_item_t.cmd it = snd (fst r)) /\
     skipn 6 (_sequence s') = skipn 6 (_sequence s) /\
     _sequence_current_step s' = _sequence_current_step s /\
     _current_ac_state s' = _current_ac_state s).
Proof.
  intros Hlen r. split.
  - intros H1 H2 H3 H4. unfold control, control_command.
    rewrite H1, H2, H3, H4. reflexivity.
  - intros Hany.
    assert (Hc : fst (fst r) = true).
    { unfold r, control_command.
      destruct (get_mode call), (get_fan_mode call), (get_swing_mode call),
        (get_target_temperature call); try reflexivity.
      destruct Hany as [H|[H|[H|H]]]; contradiction. }
    assert (Er : r = (true, snd (fst r), snd r))
      by (rewrite <- Hc; destruct r as [[? ?] ?]; reflexivity).
    pose proof (control_command_front call (_current_ac_state s) front)
      as (_ & _ & P). fold r in P.
    unfold control. fold r. clearbody r. rewrite Er. cbn [fst snd].
    destruct (commandSequence_loads (snd (fst r)) s Hlen)
      as (s' & -> & A & B & C & _ & D & _ & _ & E & _).
    cbn [bind default]. exists s'.
    split; [reflexivity|].
    split; [cbn [Climate.published Climate.publish_state]; f_equal; exact P|].
    auto 10.
Qed.

End ControlCommand.

(** ** Decoding a status twice *)

Section DecodeTwice.

Lemma Qeq_bool_same (q : Q) : Qeq_bool q q = true.
Proof. apply Qeq_bool_iff. reflexivity. Qed.

Lemma ac_command_t_ext (a b : ac_command_t) :
  power a = power b -> temp_target a = temp_target b ->
  temp_target_matter a = temp_target_matter b ->
  temp_ambient a = temp_ambient b -> temp_outdoor a = temp_outdoor b ->
  clean a = clean b -> health a = health b ->
  health_status a = health_status b -> mode a = mode b ->
  sleep a = sleep b -> iFeel a = iFeel b ->
  louver_h (louver a) = louver_h (louver b) ->
  louver_v (louver a) = louver_v (louver b) ->
  fanSpeed a = fanSpeed b -> fanTurbo a = fanTurbo b ->
  fanMute a = fanMute b -> display a = display b -> mildew a = mildew b ->
  a = b.
Proof.
  destruct a as [? ? ? ? ? ? ? ? ? ? ? [? ?] ? ? ? ? ?],
           b as [? ? ? ? ? ? ? ? ? ? ? [? ?] ? ? ? ? ?].
  cbn. intros. subst. reflexivity.
Qed.

Ltac split_reads :=
  repeat match goal with
         | |- context [rd_at ?d ?i] =>
             destruct (rd_at d i) eqn:?; cbn [bind]; [|discriminate]
         end.

Ltac command_fields :=
  cbn [temp_target temp_target_matter louver louver_v louver_h fanSpeed
       fanTurbo fanMute mode sleep iFeel power health health_status clean
       display mildew temp_ambient temp_outdoor
       set_temp_target set_temp_target_matter set_louver set_louver_v
       set_louver_h set_fanSpeed set_fanTurbo set_fanMute set_mode
       set_sleep set_iFeel set_power set_health set_health_status
       set_clean set_display set_mildew set_temp_ambient set_temp_outdoor].

(** X20. Decoding a status packet into the state it has produced changes
    nothing and raises no notification: the flag that triggers
    [stateChanged()] is set only by a parameter that differs. *)
Theorem status_decoding_is_idempotent (p : packet_t) (st st' : ac_state_t)
  (changed : bool) :
  (parse_small_status p st = Done (changed, st') ->
   parse_small_status p st' = Done (false, st')) /\
  (parse_big_status p st = Done (changed, st') ->
   parse_big_status p st' = Done (false, st')).
Proof.
  split.
  - unfold parse_small_status, status_bits, rd_ptr.
    destruct (body p) as [off|]; [|discriminate].
    revert st'. split_reads. intros st' H. injection H as _ <-.
    command_fields.
    rewrite Qeq_bool_same, !Z.eqb_refl. cbn [negb orb].
    apply (f_equal Done). apply (f_equal (pair false)).
    apply ac_command_t_ext; command_fields; reflexivity.
  - unfold parse_big_status, rd_ptr.
    destruct (body p) as [off|]; [|discriminate].
    revert st'. split_reads. intros st' H. injection H as _ <-.
    command_fields.
    rewrite !Qeq_bool_same. cbn [negb orb].
    apply (f_equal Done). apply (f_equal (pair false)).
    apply ac_command_t_ext; command_fields; reflexivity.
Qed.

End DecodeTwice.

(** ** Every packet built for sending is sealed *)

Section Sealed.

Lemma body_rewritten_refl (p : packet_t) : body_rewritten p p.
Proof. split; auto. Qed.

Lemma body_rewritten_trans (p q r : packet_t) :
  body_rewritten p q -> body_rewritten q r -> body_rewritten p r.
Proof.
  intros [] []. split; try congruence.
  intros k Hk. rewrite br_head1, br_head0 by exact Hk. reflexivity.
Qed.

Lemma set_body_byte_rewritten (i : nat) (v : Z) (p p' : packet_t) :
  (2 <= i)%nat -> body p = Some AC_HEADER_SIZE ->
  set_body_byte i v p = Done p' -> body_rewritten p p'.
Proof.
  intros Hi Hb H. unfold set_body_byte, wr_ptr, wr_at in H. rewrite Hb in H.
  destruct (_ <? _)%nat; [|discriminate]. injection H as <-.
  split; cbn; auto.
  - apply length_insert.
  - intros k Hk. apply getb_insert_ne. unfold AC_HEADER_SIZE. lia.
Qed.

Lemma mask_body_byte_rewritten (i : nat) (m v : Z) (p p' : packet_t) :
  (2 <= i)%nat -> body p = Some AC_HEADER_SIZE ->
  mask_body_byte i m v p = Done p' -> body_rewritten p p'.
Proof.
  intros Hi Hb H. unfold mask_body_byte in H. inv_bind H.
  eapply set_body_byte_rewritten; eauto.
Qed.

Lemma overlay_rewritten (i : nat) (m v u : Z) (p p' : packet_t) :
  (2 <= i)%nat -> body p = Some AC_HEADER_SIZE ->
  overlay i m v u p = Done p' -> body_rewritten p p'.
Proof.
  intros Hi Hb H. unfold overlay in H. destruct (v =? u).
  - injection H as <-. apply body_rewritten_refl.
  - eapply mask_body_byte_rewritten; eauto.
Qed.

Ltac overlay_step :=
  match goal with
  | H : overlay ?i _ _ _ ?a = Done ?b, Hb : body ?a = Some AC_HEADER_SIZE,
    F : body_rewritten ?p ?a |- _ =>
      let G := fresh "G" in
      pose proof (overlay_rewritten i _ _ _ a b
                    ltac:(vm_compute; lia) Hb H) as G;
      let Hb' := fresh "Hb" in
      assert (Hb' : body b = Some AC_HEADER_SIZE)
        by (rewrite (br_body _ _ G); exact Hb);
      let F' := fresh "F" in
      pose proof (body_rewritten_trans p a b F G) as F';
      clear H G F Hb
  end.

(** X21. The packet of a set command: 25 bytes, the header of a command with a
    body of 15 bytes, [0x01 0x01] at the head of the body, and a checksum
    that [_checkCRC] accepts, whatever the command and whatever the packet
    held before. *)
Theorem set_command_packet_is_sealed (now : Z) (c : ac_command_t)
  (p : packet_t) :
  length (data p) = AC_BUFFER_SIZE ->
  exists p' c',
    fill_from_command now c p = Done (p', c') /\
    _checkCRC p' = Done (true, p') /\
    bytesLoaded p' = 25%nat /\
    msec p' = now /\
    hdr header.start_byte p' = AC_PACKET_START_BYTE /\
    hdr header.wifi p' = AC_PACKET_ANSWER /\
    hdr header.packet_type p' = AC_PTYPE_CMD /\
    hdr header.body_length p' = 15 /\
    getb (data p') 8 = AC_CMD_SET_PARAMS /\
    getb (data p') 9 = 0x01.
Proof.
  intros Hl.
  destruct (fill_from_command_bytes now c p Hl) as (p' & E & _).
  cbv zeta in E. eexists. eexists. split; [exact E|].
  destruct (command_header_ready now p Hl) as (R0 & H6 & _).
  unfold fill_from_command in E. fold (command_header now p) in E.
  set (P0 := command_header now p) in *.
  assert (K0 : hdr header.start_byte P0 = AC_PACKET_START_BYTE /\
               hdr header.wifi P0 = AC_PACKET_ANSWER /\
               hdr header.packet_type P0 = AC_PTYPE_CMD /\
               msec P0 = now).
  { unfold P0, command_header, hdr, set_hdr, setb.
    cbn [data set_data set_body set_msec msec].
    unfold header.start_byte, header.wifi, header.packet_type,
      header.body_length.
    unfold AC_BUFFER_SIZE in Hl.
    repeat split; rewrite ?getb_insert_ne by lia; apply getb_insert_eq;
      rewrite ?length_insert; lia. }
  clearbody P0. cbv zeta in E.
  rewrite (set_body_byte_upd 0 _ P0 R0 ltac:(lia)) in E. cbn [bind] in E.
  assert (R1 : ready (upd (AC_HEADER_SIZE + 0) (fun _ => AC_CMD_SET_PARAMS) P0))
    by (apply ready_upd; exact R0).
  rewrite (set_body_byte_upd 1 _ _ R1 ltac:(lia)) in E. cbn [bind] in E.
  set (X := upd (AC_HEADER_SIZE + 1) _ _) in *.
  assert (RX : ready X) by (apply ready_upd; exact R1).
  assert (KX : (forall k, (k < 8)%nat -> getb (data X) k = getb (data P0) k) /\
               getb (data X) 8 = AC_CMD_SET_PARAMS /\
               getb (data X) 9 = 0x01 /\ msec X = msec P0).
  { unfold X. split; [|split; [|split]].
    - intros k Hk. rewrite !getb_upd_other by (unfold AC_HEADER_SIZE; lia).
      reflexivity.
    - rewrite getb_upd_other by (unfold AC_HEADER_SIZE; lia).
      change 8%nat with (AC_HEADER_SIZE + 0)%nat.
      rewrite (getb_upd_same (AC_HEADER_SIZE + 0) _ P0 R0)
        by (unfold AC_HEADER_SIZE, AC_BUFFER_SIZE; lia).
      reflexivity.
    - change 9%nat with (AC_HEADER_SIZE + 1)%nat.
      rewrite (getb_upd_same (AC_HEADER_SIZE + 1) _ _ R1)
        by (unfold AC_HEADER_SIZE, AC_BUFFER_SIZE; lia).
      reflexivity.
    - reflexivity. }
  clearbody X.
  assert (HX6 : hdr header.body_length X = 15).
  { unfold hdr. rewrite (proj1 KX) by (unfold header.body_length; lia).
    exact H6. }
  assert (OX : crc_offset X = 23%nat)
    by (unfold crc_offset; rewrite HX6; reflexivity).
  rewrite OX in E.
  set (P1 := set_bytesLoaded (23 + 2) X) in *.
  assert (Hb : body P1 = Some AC_HEADER_SIZE) by exact (proj1 RX).
  assert (F : body_rewritten P1 P1) by apply body_rewritten_refl.
  inv_bind E.
  (* the temperature *)
  match goal with
  | H : (if temp_target_matter c then _ else _) = Done ?r |- _ =>
      assert (T : body_rewritten P1 (fst r));
      [ destruct (temp_target_matter c);
        [ inv_bind H; injection H as <-; cbn [fst];
          match goal with
          | H1 : mask_body_byte _ _ _ P1 = Done ?a,
            H2 : (if _ then mask_body_byte _ _ _ ?a
                  else mask_body_byte _ _ _ ?a) = Done ?b |- _ =>
              assert (G1 : body_rewritten P1 a)
                by (eapply mask_body_byte_rewritten;
                    [ | exact Hb | exact H1 ]; vm_compute; lia);
              assert (G2 : body_rewritten a b)
                by (destruct (Qlt_bool _ _);
                    (eapply mask_body_byte_rewritten;
                     [ | rewrite (br_body _ _ G1); exact Hb | exact H2 ];
                     vm_compute; lia));
              exact (body_rewritten_trans _ _ _ G1 G2)
          end
        | injection H as <-; apply body_rewritten_refl ]
      | clear H ]
  end.
  clear F.
  match goal with
  | T : body_rewritten P1 (fst ?r) |- _ =>
      assert (Hb1 : body (fst r) = Some AC_HEADER_SIZE)
        by (rewrite (br_body _ _ T); exact Hb);
      set (A := fst r) in *; clearbody A
  end.
  clear Hb. rename T into F.
  do 13 overlay_step.
  match goal with
  | H : _setCRC16 (set_crc (Some (crc_offset ?q)) ?q) = Done ?r,
    F : body_rewritten P1 ?q |- _ =>
      rename q into Q0; rename r into R; rename H into HS; rename F into FQ
  end.
  injection E as <- _.
  destruct FQ as [Bb Bc Bm Bl Bn Bh].
  assert (Q6 : hdr header.body_length Q0 = Z.of_nat 15).
  { unfold hdr. rewrite Bh by (unfold header.body_length; lia). exact HX6. }
  assert (QO : crc_offset Q0 = (AC_HEADER_SIZE + 15)%nat)
    by (apply crc_offset_of_length; exact Q6).
  rewrite QO in HS.
  set (Q := set_crc (Some (AC_HEADER_SIZE + 15)%nat) Q0) in *.
  assert (QL : length (data Q) = AC_BUFFER_SIZE)
    by (unfold Q; cbn [data set_crc]; rewrite Bn; exact (proj2 RX)).
  destruct (_setCRC16_checkCRC Q 15
              ltac:(unfold AC_MAX_BODY_SIZE; lia) QL Q6 (or_intror eq_refl)
              ltac:(unfold Q; cbn [bytesLoaded set_crc]; rewrite Bl;
                    unfold AC_HEADER_SIZE; cbn; lia))
    as (R' & HS' & HV).
  assert (ER : R' = R) by congruence. subst R'.
  split; [exact HV|].
  rewrite (_setCRC16_bytes Q 15 ltac:(unfold AC_MAX_BODY_SIZE; lia)
             QL Q6 (or_intror eq_refl)) in HS.
  cbv zeta in HS. injection HS as <-.
  unfold hdr. cbn [bytesLoaded msec data set_data set_crc].
  unfold Q. cbn [bytesLoaded msec data set_crc].
  unfold AC_HEADER_SIZE, header.start_byte, header.wifi, header.packet_type,
    header.body_length.
  rewrite !getb_insert_ne by lia.
  rewrite !Bh by lia. rewrite Bl, Bm.
  destruct KX as (K1 & K8 & K9 & Km). destruct K0 as (A0 & A3 & A2 & Am).
  unfold hdr, header.start_byte, header.wifi, header.packet_type,
    header.body_length in *.
  cbn [data set_bytesLoaded bytesLoaded msec].
  rewrite !K1 by lia.
  repeat split; try assumption; try congruence; try reflexivity.
  unfold P1. cbn [msec set_bytesLoaded]. congruence.
Qed.

End Sealed.

(** ** [loop()] *)

Section Loop.

(** X22. [loop()] does nothing before the hardware is initialised. Afterwards
    it makes one pass of the state machine and, once the interval of 7
    seconds is over, asks for the startup transaction: while a sequence is
    loaded this changes nothing of the component (the interval starts
    anew all the same), otherwise the four status steps are loaded with
    the cursor at 0. The counter stays within 0..7. *)
Theorem loop_requests_status_periodically (now t1 t2 : Z) (l : looper)
  (s : AirCon) :
  loop_switch now (component l) = Done s ->
  (get_initialized l = false -> loop now t1 t2 l = Done l) /\
  (get_initialized l = true ->
   exists l',
     loop now t1 t2 l = Done l' /\
     get_initialized l' = true /\
     (0 <= _cnt l <= 7 -> 0 <= _cnt l' <= 7) /\
     (u32 (t1 - _dataMillis l) <= AC_STATES_REQUEST_INTERVAL ->
      l' = mk_looper s true (_dataMillis l) (_cnt l)) /\
     (AC_STATES_REQUEST_INTERVAL < u32 (t1 - _dataMillis l) ->
      _dataMillis l' = t2 /\
      (hasSequence s = true -> component l' = s) /\
      (hasSequence s = false ->
       map step_kind (firstn 4 (_sequence (component l')))
         = [(AC_SIT_FUNC, Some ptr_sq_requestSmallStatus);
            (AC_SIT_FUNC, Some ptr_sq_controlSmallStatus);
            (AC_SIT_FUNC, Some ptr_sq_requestBigStatus);
            (AC_SIT_FUNC, Some ptr_sq_controlBigStatus)] /\
       _sequence_current_step (component l') = 0%nat /\
       _ac_state (component l') = _ac_state s /\
       _inPacket (component l') = _inPacket s /\
       _outPacket (component l') = _outPacket s /\
       _current_ac_state (component l') = _current_ac_state s))).
Proof.
  intros H. unfold loop, get_initialized. split.
  - intros ->. reflexivity.
  - intros Hi. rewrite Hi, H. cbn [negb bind].
    destruct (AC_STATES_REQUEST_INTERVAL <? u32 (t1 - _dataMillis l)) eqn:E.
    + apply Z.ltb_lt in E.
      assert (C : 0 <= (if 7 <? u8 (_cnt l + 1) then 0 else u8 (_cnt l + 1))
                    <= 7).
      { destruct (7 <? u8 (_cnt l + 1)) eqn:E7; [lia|].
        apply Z.ltb_ge in E7. unfold u8 in *.
        pose proof (Z.mod_pos_bound (_cnt l + 1) 256 ltac:(lia)). lia. }
      unfold startupSequence. destruct (hasSequence s) eqn:Hs.
      * cbn [bind snd]. eexists. split; [reflexivity|].
        cbn [_hw_initialized _cnt _dataMillis component].
        split; [reflexivity|]. split; [intros _; exact C|].
        split; [lia|]. intros _. split; [reflexivity|].
        split; [reflexivity|discriminate].
      * destruct s as [st ac ser tx inp outp sq cur su ch].
        eexists. split; [reflexivity|].
        cbn [_hw_initialized _cnt _dataMillis component snd].
        split; [reflexivity|]. split; [intros _; exact C|].
        split; [lia|]. intros _. split; [reflexivity|].
        split; [discriminate|]. intros _. cbn. repeat split.
    + apply Z.ltb_ge in E. eexists. split; [reflexivity|].
      cbn [_hw_initialized _cnt _dataMillis component].
      split; [reflexivity|]. split; [tauto|]. split; [reflexivity|]. lia.
Qed.

End Loop.

(* ------------------------------------------------------------------ *)
(** ** The further properties on examples *)

Ltac run := vm_compute; reflexivity.

(** Bytes and buffer sizes of a concrete component, by evaluation. *)
Lemma bytes_by_check (l : list Z) :
  forallb (fun b => (0 <=? b) && (b <? 256)) l = true -> Forall is_byte l.
Proof.
  induction l as [|b l IH]; cbn [forallb]; intros H; constructor.
  - apply andb_prop in H as [H _]. apply andb_prop in H as [H1 H2].
    unfold is_byte. lia.
  - apply IH. apply andb_prop in H as [_ H]. exact H.
Qed.

Lemma sized_by_check (s : AirCon) :
  length (_sequence s) = AC_SEQUENCE_MAX_LEN ->
  length (data (_outPacket s)) = AC_BUFFER_SIZE ->
  forallb (fun it => length (data (sequence_item_t.packet it))
                     =? AC_BUFFER_SIZE)%nat (_sequence s) = true ->
  sized s.
Proof.
  intros H1 H2 H3. split; [exact H1|exact H2|]. clear H1.
  induction (_sequence s) as [|it l IH]; constructor.
  - cbn [forallb] in H3. apply andb_prop in H3 as [H3 _].
    apply Nat.eqb_eq in H3. exact H3.
  - apply IH. cbn [forallb] in H3. apply andb_prop in H3 as [_ H3]. exact H3.
Qed.

Ltac bytes_of_concrete_list := apply bytes_by_check; run.

Ltac sized_concrete := apply sized_by_check; run.

Lemma sealed_packet_verifies_witness :
  exists p',
    _setCRC16 status_request_unsealed = Done p' /\
    _checkCRC p' = Done (true, p') /\
    firstn 10 (data p') = [0xBB; 0; 6; 0x80; 0; 0; 2; 0; 0x11; 1].
Proof.
  destruct (sealed_packet_verifies status_request_unsealed 2)
    as (p' & A & B & C & _).
  - vm_compute. lia.
  - run.
  - run.
  - left. run.
  - vm_compute. lia.
  - exists p'. split; [exact A|]. split; [exact B|].
    change (firstn (AC_HEADER_SIZE + 2) (data p')
            = firstn 10 (data status_request_unsealed)).
    exact C.
Defined.

Lemma single_corrupted_byte_is_rejected_witness :
  exists q,
    _checkCRC
      (set_data (<[10%nat := 0x99]> (data (_inPacket (received small_status_27_5))))
         (_inPacket (received small_status_27_5)))
    = Done (false, q).
Proof.
  apply (single_corrupted_byte_is_rejected
           (_inPacket (received small_status_27_5))
           (_inPacket (received small_status_27_5)) 15 10 0x99).
  - vm_compute. lia.
  - run.
  - run.
  - right. run.
  - vm_compute. lia.
  - bytes_of_concrete_list.
  - run.
  - vm_compute. lia.
  - vm_compute. lia.
  - split; [discriminate|reflexivity].
  - vm_compute. discriminate.
Defined.

Lemma history_keeps_link_inv_witness :
  exists s',
    history ping_history initAC = Done s' /\
    uart_tx s'
      = [0xBB; 0; 1; 0x80; 1; 0; 8; 0; 0x1C; 0x27; 0; 0; 0; 0; 0; 0; 0x1E; 0x58] /\
    link_inv s'.
Proof.
  assert (E : history ping_history initAC
              = Done (done_or initAC (history ping_history initAC))) by run.
  assert (H1 : link_inv initAC)
    by (split; [reflexivity|vm_compute; lia]).
  assert (H2 : Forall is_byte (_ac_serial initAC)) by constructor.
  assert (H3 : Forall delivers_bytes ping_history).
  { unfold ping_history.
    repeat (apply Forall_cons_2; [try exact I; bytes_of_concrete_list|]).
    constructor. }
  destruct (history_keeps_link_inv ping_history initAC _ H1 H2 H3 E)
    as [A _].
  eexists. split; [exact E|]. split; [run|exact A].
Defined.

Lemma _doSequence_keeps_pending_packet_witness :
  (0 < bytesLoaded (_outPacket ping_answer_pending))%nat /\
  _sequence_current_step ping_answer_pending = 0%nat /\
  exists s',
    _doSequence 103 ping_answer_pending = Done s' /\
    _outPacket s' = _outPacket ping_answer_pending.
Proof.
  assert (A : (0 < bytesLoaded (_outPacket ping_answer_pending))%nat)
    by (vm_compute; lia).
  assert (E : exists s', _doSequence 103 ping_answer_pending = Done s')
    by (eexists; run).
  destruct E as [s' E].
  split; [exact A|]. split; [run|].
  exists s'. split; [exact E|].
  exact (proj1 (_doSequence_keeps_pending_packet 103 ping_answer_pending s'
                  A E)).
Defined.

Lemma ping_is_answered_witness :
  hasSequence ping_while_waiting = true /\
  exists s1,
    _doParsingPacket 105 ping_while_waiting = Done s1 /\
    _ac_state s1 = ACSM_SENDING_PACKET /\
    uart_tx (_doSendingPacketState s1) =
      uart_tx ping_while_waiting ++
      [0xBB; 0; 1; 0x80; 1; 0; 8; 0; 0x1C; 0x27; 0; 0; 0; 0; 0; 0; 0x1E; 0x58] /\
    _outPacket (_doSendingPacketState s1) = cleared_out_packet.
Proof.
  split; [run|].
  destruct (ping_is_answered 105 ping_while_waiting)
    as (s1 & A & B & _ & C & _ & D).
  - sized_concrete.
  - split.
    + run.
    + vm_compute. split; discriminate.
    + run.
    + run.
    + intros H. exfalso. vm_compute in H. discriminate H.
  - run.
  - run.
  - discriminate.
  - exists s1. auto.
Defined.

Lemma irrelevant_packet_aborts_sequence_witness :
  hdr header.packet_type (_inPacket init_while_waiting) = AC_PTYPE_INIT /\
  exists s',
    _doSequence 105 init_while_waiting = Done s' /\
    hasSequence s' = false /\
    _sequence_current_step s' = 0%nat.
Proof.
  split; [run|].
  destruct (irrelevant_packet_aborts_sequence 105 init_while_waiting
              (current_item init_while_waiting) ptr_sq_controlSmallStatus)
    as (s' & A & _ & B & C & _).
  - run.
  - vm_compute. lia.
  - run.
  - run.
  - run.
  - run.
  - run.
  - vm_compute. discriminate.
  - vm_compute. discriminate.
  - left. vm_compute. discriminate.
  - exists s'. auto.
Defined.

Lemma matching_status_frame_advances_witness :
  exists s',
    _doSequence 105 status_while_waiting = Done s' /\
    _sequence_current_step s' = 2%nat /\
    hasSequence s' = true.
Proof.
  eexists. split.
  - apply (matching_status_frame_advances 105 status_while_waiting
             (current_item status_while_waiting) ptr_sq_controlSmallStatus).
    + run.
    + vm_compute. lia.
    + run.
    + run.
    + run.
    + left. reflexivity.
    + run.
    + vm_compute. discriminate.
    + run.
    + run.
    + run.
    + run.
    + run.
    + run.
  - split; run.
Defined.

Lemma stray_info_header_reads_null_body_witness :
  _ac_state noise_while_waiting = ACSM_IDLE /\
  firstn 8 (data (_inPacket noise_while_waiting)) = stray_header /\
  _doSequence 104 noise_while_waiting = Fault /\
  loop_switch 104 noise_while_waiting = Fault.
Proof.
  split; [run|]. split; [run|]. split; [|run].
  apply (stray_info_header_reads_null_body 104 noise_while_waiting
           (current_item noise_while_waiting) ptr_sq_controlSmallStatus).
  - run.
  - vm_compute. lia.
  - run.
  - run.
  - run.
  - run.
  - run.
  - vm_compute. discriminate.
  - run.
  - run.
  - run.
Defined.


Lemma idle_skips_noise_witness :
  exists s2 s4,
    _doIdleState 100 noise_then_ping = Done s2 /\
    _ac_state s2 = ACSM_IDLE /\
    _ac_serial s2 = ping_frame /\
    _doIdleState 101 s2 = Done s4 /\
    _ac_state s4 = ACSM_RECEIVING_PACKET /\
    _inPacket s4 = set_msec 101 _clearPacket /\
    _ac_serial s4 = ping_frame.
Proof.
  destruct (idle_skips_noise 100 101 noise_then_ping noise_then_ping
              0x00 [0x55] (tl ping_frame))
    as (s2 & A & B & C & D).
  - repeat constructor; discriminate.
  - run.
  - run.
  - assert (A' : _doIdleState 100 noise_then_ping
                 = Done (done_or initAC (_doIdleState 100 noise_then_ping)))
      by run.
    assert (E : s2 = done_or initAC (_doIdleState 100 noise_then_ping))
      by congruence.
    destruct (D (done_or initAC (_doSequence 101 s2)))
      as (s4 & D1 & D2 & D3 & D4); [rewrite E; run|].
    exists s2, s4. auto 10.
Defined.

Lemma status_request_is_sent_witness :
  exists s1,
    _doIdleState 100 startup_loaded = Done s1 /\
    _ac_state s1 = ACSM_SENDING_PACKET /\
    _sequence_current_step s1 = 1%nat /\
    uart_tx (_doSendingPacketState s1)
      = [0xBB; 0; 6; 0x80; 0; 0; 2; 0; 0x11; 0x01; 0x2B; 0x7E] /\
    _ac_state (_doSendingPacketState s1) = ACSM_IDLE.
Proof.
  destruct (status_request_is_sent 100 startup_loaded
              (current_item startup_loaded) ptr_sq_requestSmallStatus)
    as (s1 & A & B & C & D & E & _).
  - sized_concrete.
  - run.
  - vm_compute. lia.
  - run.
  - run.
  - run.
  - left. reflexivity.
  - run.
  - run.
  - run.
  - lia.
  - exists s1. auto 10.
Defined.

Lemma requested_mode_is_published_witness :
  Climate.mode (snd (control_command call_heat sample_state front_off))
    = CLIMATE_MODE_HEAT /\
  Climate.mode
    (stateChanged_front (set_mode AC_MODE_HEAT sample_state) front_off)
    = CLIMATE_MODE_HEAT.
Proof.
  apply (requested_mode_is_published call_heat sample_state
           (set_mode AC_MODE_HEAT sample_state) front_off front_off
           CLIMATE_MODE_HEAT).
  - reflexivity.
  - run.
  - intros _. run.
Defined.

Lemma requested_swing_is_published_witness :
  Climate.swing_mode
    (snd (control_command call_swing_both sample_state front_off))
    = CLIMATE_SWING_BOTH /\
  Climate.swing_mode
    (stateChanged_front
       (set_louver (mk_louver AC_LOUVERH_SWING_LEFTRIGHT AC_LOUVERV_SWING_UPDOWN)
          sample_state) front_off)
    = CLIMATE_SWING_BOTH.
Proof.
  apply (requested_swing_is_published call_swing_both sample_state
           (set_louver
              (mk_louver AC_LOUVERH_SWING_LEFTRIGHT AC_LOUVERV_SWING_UPDOWN)
              sample_state) front_off front_off CLIMATE_SWING_BOTH).
  - reflexivity.
  - run.
Defined.

Lemma requested_fan_speed_is_published_witness :
  Climate.fan_mode
    (snd (control_command call_fan_high sample_state front_off))
    = CLIMATE_FAN_HIGH /\
  Climate.fan_mode
    (stateChanged_front (set_fanSpeed AC_FANSPEED_HIGH sample_state) front_off)
    = CLIMATE_FAN_HIGH.
Proof.
  destruct (requested_fan_speed_is_published call_fan_high sample_state
              (set_fanSpeed AC_FANSPEED_HIGH sample_state) front_off front_off
              CLIMATE_FAN_HIGH)
    as (_ & _ & A & B).
  - reflexivity.
  - right. right. right. reflexivity.
  - run.
  - run.
  - run.
  - split; [exact A|exact B].
Defined.

Lemma turbo_and_mute_depend_on_mode_witness :
  fanTurbo (snd (fst (control_command call_turbo sample_state front_off)))
    = AC_FANTURBO_ON /\
  fanTurbo
    (snd (fst (control_command call_turbo
                 (set_mode AC_MODE_DRY sample_state) front_off)))
    = AC_FANTURBO_UNTOUCHED.
Proof.
  split.
  - destruct (turbo_and_mute_depend_on_mode call_turbo sample_state
                sample_state front_off front_off eq_refl) as [A _].
    destruct (A eq_refl) as [A1 _]. exact A1.
  - run.
Defined.

Lemma getStatus_loads_two_steps_witness :
  exists s1 s2,
    getStatusSmall initAC = Done s1 /\ getStatusBig initAC = Done s2 /\
    hasSequence s1 = true /\ hasSequence s2 = true /\
    getStatusBig s1 = Done s1 /\ getStatusSmall s2 = Done s2.
Proof.
  destruct (getStatus_loads_two_steps initAC) as [_ A]; [run|].
  destruct (A ltac:(run)) as (s1 & s2 & B1 & B2 & _ & _ & _ & _ & _ & _ & H1 & H2).
  exists s1, s2. split; [exact B1|]. split; [exact B2|].
  split; [exact H1|]. split; [exact H2|].
  assert (E1 : s1 = done_or initAC (getStatusSmall initAC)).
  { assert (X : getStatusSmall initAC
                = Done (done_or initAC (getStatusSmall initAC))) by run.
    congruence. }
  assert (E2 : s2 = done_or initAC (getStatusBig initAC)).
  { assert (X : getStatusBig initAC
                = Done (done_or initAC (getStatusBig initAC))) by run.
    congruence. }
  split; [rewrite E1|rewrite E2]; run.
Defined.

Lemma powerSequence_loads_power_command_witness :
  powerSequence AC_POWER_UNTOUCHED initAC = Done initAC /\
  exists s',
    powerSequence AC_POWER_ON initAC = Done s' /\
    map step_kind (firstn 6 (_sequence s')) = command_transaction /\
    hasSequence s' = true.
Proof.
  split.
  - destruct (powerSequence_loads_power_command AC_POWER_UNTOUCHED initAC)
      as [A _]; [run|].
    apply A. left. reflexivity.
  - destruct (powerSequence_loads_power_command AC_POWER_ON initAC)
      as [_ A]; [run|].
    destruct (A ltac:(vm_compute; discriminate) ltac:(run))
      as (s' & B & C & _ & _ & _ & D).
    exists s'. auto.
Defined.

Lemma control_loads_command_transaction_witness :
  exists s',
    control call_22_5 front_off initAC
      = Done (Climate.publish_state front_off, s') /\
    map step_kind (firstn 6 (_sequence s')) = command_transaction /\
    exists it,
      _sequence s' !! 2%nat = Some it /\
      sequence_item_t.cmd it
        = set_temp_target_matter true (set_temp_target (45 # 2) _clearCommand).
Proof.
  destruct (control_loads_command_transaction call_22_5 front_off initAC)
    as [_ A]; [run|].
  destruct A as (s' & B & _ & C & (it & D1 & D2) & _).
  - right. right. right. discriminate.
  - exists s'. split; [exact B|]. split; [exact C|].
    exists it. split; [exact D1|]. rewrite D2. run.
Defined.

Lemma status_decoding_is_idempotent_witness :
  exists st',
    parse_small_status (_inPacket (received small_status_27_5)) _clearCommand
      = Done (true, st') /\
    parse_small_status (_inPacket (received small_status_27_5)) st'
      = Done (false, st').
Proof.
  assert (E : parse_small_status (_inPacket (received small_status_27_5))
                _clearCommand
              = Done (true,
                      snd (done_or (false, _clearCommand)
                             (parse_small_status
                                (_inPacket (received small_status_27_5))
                                _clearCommand)))) by run.
  eexists. split; [exact E|].
  destruct (status_decoding_is_idempotent
              (_inPacket (received small_status_27_5)) _clearCommand
              (snd (done_or (false, _clearCommand)
                      (parse_small_status
                         (_inPacket (received small_status_27_5))
                         _clearCommand))) true) as [A _].
  exact (A E).
Defined.

Lemma set_command_packet_is_sealed_witness :
  exists p' c',
    fill_from_command 100 heat_22_command _clearPacket = Done (p', c') /\
    _checkCRC p' = Done (true, p') /\
    bytesLoaded p' = 25%nat /\
    hdr header.packet_type p' = AC_PTYPE_CMD.
Proof.
  destruct (set_command_packet_is_sealed 100 heat_22_command _clearPacket)
    as (p' & c' & A & B & C & _ & _ & _ & D & _); [run|].
  exists p', c'. auto.
Defined.

Lemma loop_requests_status_periodically_witness :
  exists l',
    loop 103 8000 8001 looper_waiting = Done l' /\
    _cnt l' = 0 /\ _dataMillis l' = 8001 /\
    hasSequence (component l') = true.
Proof.
  assert (E : loop_switch 103 (component looper_waiting)
              = Done (done_or initAC
                        (loop_switch 103 (component looper_waiting))))
    by run.
  destruct (loop_requests_status_periodically 103 8000 8001 looper_waiting
              _ E) as [_ A].
  destruct (A eq_refl) as (l' & B & _ & _ & _ & C).
  destruct C as (C1 & C2 & _); [vm_compute; reflexivity|].
  exists l'. split; [exact B|].
  assert (F : l' = done_or looper_waiting (loop 103 8000 8001 looper_waiting)).
  { assert (X : loop 103 8000 8001 looper_waiting
                = Done (done_or looper_waiting
                          (loop 103 8000 8001 looper_waiting))) by run.
    congruence. }
  split; [rewrite F; run|]. split; [exact C1|].
  rewrite (C2 ltac:(run)). run.
Defined.

Lemma packet_stamped_zero_is_never_sent_witness :
  bytesLoaded (_outPacket request_stamped_zero) = 12%nat /\
  _ac_state request_stamped_zero = ACSM_IDLE /\
  exists s',
    loop_switch 1 request_stamped_zero = Done s' /\
    _outPacket s' = _outPacket request_stamped_zero /\
    uart_tx s' = [] /\
    _ac_state s' = ACSM_IDLE.
Proof.
  split; [run|]. split; [run|].
  assert (E : loop_switch 1 request_stamped_zero
              = Done (done_or initAC (loop_switch 1 request_stamped_zero)))
    by run.
  destruct (packet_stamped_zero_is_never_sent 1 request_stamped_zero _
              ltac:(vm_compute; lia) ltac:(run)
              ltac:(vm_compute; discriminate) E) as (A & B & _).
  eexists. split; [exact E|]. split; [exact A|]. split; run.
Defined.
